(** * AI content generator backend: content store, job queue, worker, status polling

    A shallow embedding of the TypeScript sources

      - [src/models/Content.ts]            (module [Models])
      - [src/services/contentService.ts]   (module [ContentService])
      - [src/services/aiService.ts]        (module [AiService])
      - [src/queues/contentQueue.ts]       (module [ContentQueue])
      - [src/worker.ts]                    (module [Worker])
      - [src/controllers/contentController.ts] (module [ContentController])
      - [src/routes/contentRoutes.ts]      (module [ContentRoutes])
      - [src/utils/websocket.ts]           (module [WebSocket])
      - [src/index.ts], socket and Redis handlers (module [Server])
      - [src/utils/jwt.ts], [src/middleware/auth.ts] and the token functions
        of [src/services/authService.ts]  (module [Auth])

    Every [async] function is a computation in the monad [M] over a [World]
    that holds the MongoDB collection, the BullMQ job table and the log of
    externally visible effects (store writes and Redis publishes).  Each
    [await] of the source is one bind.

    Strings are Rocq strings: a character stands for one UTF-16 code unit of
    the JavaScript string, and the code units are those below 256.  An
    ObjectId is kept as the text that [toString()] gives for it, 24 lower-case
    hexadecimal digits; the strings that a request carries in its path are cast
    as mongoose casts them.  The [createdAt]/[updatedAt] timestamps that
    mongoose maintains on its own are not part of the record. *)

From Stdlib Require Import Ascii String ZArith Lia.
From stdpp Require Import base option list strings gmap.

Set Warnings "-register-all".
Open Scope string_scope.
Open Scope list_scope.
Open Scope nat_scope.

(** ** JavaScript values and conventions *)

Module Js.

(** Parsed JSON, as [express.json()] hands it to a handler in [req.body]. *)
Inductive json : Type :=
  | JNull
  | JBool (b : bool)
  | JNum (n : Z)
  | JStr (s : string)
  | JArr (items : list json)
  | JObj (fields : gmap string json).

(** [!v] for [v : string | null | undefined]: null, undefined and the empty
    string are falsy, every other string is truthy. *)
Definition falsy (v : option string) : bool :=
  match v with
  | None => true
  | Some s => bool_decide (s = EmptyString)
  end.

(** The code units that [String.prototype.trim] removes, white space and
    line terminators: below 256 these are U+0009 to U+000D, U+0020 and the
    no-break space U+00A0. *)
Definition is_space (c : ascii) : bool :=
  let n := nat_of_ascii c in
  (n =? 32)%nat || ((9 <=? n)%nat && (n <=? 13)%nat) || (n =? 160)%nat.

Fixpoint trimStart (s : string) : string :=
  match s with
  | EmptyString => EmptyString
  | String c s' => if is_space c then trimStart s' else s
  end.

Fixpoint trimEnd (s : string) : string :=
  match s with
  | EmptyString => EmptyString
  | String c s' =>
      match trimEnd s' with
      | EmptyString => if is_space c then EmptyString else String c EmptyString
      | t => String c t
      end
  end.

Definition trim (s : string) : string := trimEnd (trimStart s).

(** The double quote character, for template literals that contain one. *)
Definition dquote : string := String "034"%char EmptyString.

(** Modelled from the spec: [AppError] of [middleware/errorHandler], which is
    not among the sources: an [Error] with a message and an HTTP status code
    (404 not found, 400 invalid state or input, 500 generation failure).

    The other constructors are the values that a [throw] can carry besides:
    a plain [Error], the errors of zod and of mongoose's validation (with the
    message of the schema where it gives one, the offending path otherwise),
    the error of mongoose for a value of a query that cannot be cast to the
    type of its path, and a thrown value that is not an [Error]. *)
Inductive exn : Type :=
  | AppError (message : string) (statusCode : nat)
  | Error (message : string)
  | ZodError (issue : string)
  | ValidationError (issue : string)
  | CastError (kind value path : string)
  | Thrown (v : json).

(** [error instanceof Error] *)
Definition instanceofError (e : exn) : bool :=
  match e with
  | Thrown _ => false
  | _ => true
  end.

(** [error instanceof AppError] *)
Definition instanceofAppError (e : exn) : bool :=
  match e with
  | AppError _ _ => true
  | _ => false
  end.

(** [error.message] of an [Error] instance. *)
Definition message_of (e : exn) : string :=
  match e with
  | AppError m _ => m
  | Error m => m
  | ZodError issue => issue
  | ValidationError issue => issue
  | CastError kind value path =>
      "Cast to " +:+ kind +:+ " failed for value " +:+ dquote +:+ value +:+ dquote
      +:+ " (type string) at path " +:+ dquote +:+ path +:+ dquote
      +:+ " for model " +:+ dquote +:+ "Content" +:+ dquote
  | Thrown _ => EmptyString
  end.

(** [error instanceof Error ? error.message : 'Unknown error'] *)
Definition errorMessage (e : exn) : string :=
  if instanceofError e then message_of e else "Unknown error".

(** Outcome of evaluating an expression that may throw. *)
Inductive result (A : Type) : Type :=
  | Ok (a : A)
  | Throw (e : exn).
Arguments Ok {A} a.
Arguments Throw {A} e.

End Js.
Export Js.

(** ** [src/models/Content.ts] *)

Module Models.

Inductive ContentType : Type :=
  | BLOG_POST_OUTLINE
  | PRODUCT_DESCRIPTION
  | SOCIAL_MEDIA_CAPTION
  | ARTICLE
  | EMAIL.

Inductive JobStatus : Type :=
  | QUEUED
  | PENDING
  | PROCESSING
  | COMPLETED
  | FAILED.

#[global] Instance ContentType_eq_dec : EqDecision ContentType.
Proof. solve_decision. Defined.
#[global] Instance JobStatus_eq_dec : EqDecision JobStatus.
Proof. solve_decision. Defined.

(** [IContent]: one document of the [Content] collection.  [_id] and
    [userId] are the texts of the two ObjectIds.  The [userId] of a query or
    of a new document is always [req.user._id.toString()], the text of the
    ObjectId of the user that the middleware loaded, so that casting it gives
    the same ObjectId back. *)
Record Content : Type := mkContent {
  _id : string;
  userId : string;
  topic : string;
  contentType : ContentType;
  prompt : string;
  generatedContent : option string;
  content : option string;
  jobId : option string;
  jobStatus : JobStatus
}.

#[global] Instance Content_eq_dec : EqDecision Content.
Proof. solve_decision. Defined.

(** [new ObjectId(value)] of a string, as mongoose casts the [_id] of a query
    filter: a string of 24 hexadecimal digits, in either case, is the
    ObjectId of that text, and any other string is refused with a
    [CastError] (the constructor of bson 5 and later, which mongoose 7 and 8
    use).  The answer is the text of the ObjectId as [toString()] gives it,
    in lower case. *)
Definition isHexDigit (c : ascii) : bool :=
  let n := nat_of_ascii c in
  ((48 <=? n)%nat && (n <=? 57)%nat)
  || ((65 <=? n)%nat && (n <=? 70)%nat)
  || ((97 <=? n)%nat && (n <=? 102)%nat).

Definition lowerHexDigit (c : ascii) : ascii :=
  let n := nat_of_ascii c in
  if ((65 <=? n)%nat && (n <=? 70)%nat) then ascii_of_nat (n + 32) else c.

Fixpoint allHex (s : string) : bool :=
  match s with
  | EmptyString => true
  | String c s' => isHexDigit c && allHex s'
  end.

Fixpoint lowerHex (s : string) : string :=
  match s with
  | EmptyString => EmptyString
  | String c s' => String (lowerHexDigit c) (lowerHex s')
  end.

Definition castObjectId (value : string) : result string :=
  if (String.length value =? 24)%nat && allHex value then Ok (lowerHex value)
  else Throw (CastError "ObjectId" value "_id").

(** [enum] strings of [ContentType], as [z.nativeEnum] reads them. *)
Definition contentType_of_string (s : string) : option ContentType :=
  if bool_decide (s = "blog_post_outline") then Some BLOG_POST_OUTLINE
  else if bool_decide (s = "product_description") then Some PRODUCT_DESCRIPTION
  else if bool_decide (s = "social_media_caption") then Some SOCIAL_MEDIA_CAPTION
  else if bool_decide (s = "article") then Some ARTICLE
  else if bool_decide (s = "email") then Some EMAIL
  else None.

(** Schema validators of the [topic] path, run on the value after the
    [trim] setter: [required] and [maxlength: 500]. *)
Definition validateTopic (t : string) : result string :=
  if bool_decide (t = EmptyString) then Throw (ValidationError "Topic is required")
  else if (500 <? String.length t)%nat
       then Throw (ValidationError "Topic cannot exceed 500 characters")
  else Ok t.

(** Schema validators of the [prompt] path: [required]. *)
Definition validatePrompt (p : string) : result string :=
  if bool_decide (p = EmptyString) then Throw (ValidationError "Prompt is required")
  else Ok p.

End Models.
Export Models.

(** ** The MongoDB collection behind the [Content] model *)

Module Store.

(** Query filters used by the sources. *)
Inductive Filter : Type :=
  | ByJobId (jobId : string)               (* { jobId } *)
  | ByIdAndUser (contentId userId : string) (* { _id: contentId, userId } *)
  | ById (contentId : string).             (* { _id } of a loaded document *)

(** The casting of a filter against the schema, which mongoose does before
    it sends the query: the [_id] that comes from a request is cast to an
    ObjectId; [jobId] is a string path, and the [_id] of a loaded document is
    an ObjectId already. *)
Definition castFilter (f : Filter) : result Filter :=
  match f with
  | ByIdAndUser i u =>
      match castObjectId i with
      | Ok o => Ok (ByIdAndUser o u)
      | Throw e => Throw e
      end
  | _ => Ok f
  end.

(** Whether a document satisfies a filter that has been cast. *)
Definition matches (f : Filter) (c : Content) : bool :=
  match f with
  | ByJobId j => bool_decide (jobId c = Some j)
  | ByIdAndUser i u => bool_decide (_id c = i) && bool_decide (userId c = u)
  | ById i => bool_decide (_id c = i)
  end.

(** The argument of a [$set]: the keys that are present carry the new
    value, the others are left alone. *)
Record SetDoc : Type := mkSet {
  set_topic : option string;
  set_content : option string;
  set_generatedContent : option string;
  set_jobId : option string;
  set_jobStatus : option JobStatus
}.

Definition applySet (u : SetDoc) (c : Content) : Content :=
  {| _id := _id c;
     userId := userId c;
     topic := default (topic c) (set_topic u);
     contentType := contentType c;
     prompt := prompt c;
     generatedContent :=
       match set_generatedContent u with Some g => Some g | None => generatedContent c end;
     content :=
       match set_content u with Some v => Some v | None => content c end;
     jobId := match set_jobId u with Some j => Some j | None => jobId c end;
     jobStatus := default (jobStatus c) (set_jobStatus u) |}.

(** The first document that matches a cast filter. *)
Fixpoint findOne (f : Filter) (docs : list Content) : option Content :=
  match docs with
  | [] => None
  | c :: rest => if matches f c then Some c else findOne f rest
  end.

(** The write of a [findOneAndUpdate] with [new: true] by a cast filter: the
    first matching document is replaced, and the document as it is after the
    update is returned. *)
Fixpoint findOneAndUpdate (f : Filter) (u : SetDoc) (docs : list Content)
  : option Content * list Content :=
  match docs with
  | [] => (None, [])
  | c :: rest =>
      if matches f c then (Some (applySet u c), applySet u c :: rest)
      else let '(r, rest') := findOneAndUpdate f u rest in (r, c :: rest')
  end.

(** The write of a [deleteOne] by a cast filter: [deletedCount] and the
    remaining documents. *)
Fixpoint deleteOne (f : Filter) (docs : list Content) : nat * list Content :=
  match docs with
  | [] => (0, [])
  | c :: rest =>
      if matches f c then (1, rest)
      else let '(n, rest') := deleteOne f rest in (n, c :: rest')
  end.

End Store.
Export Store.

(** ** Messages on the Redis channel ['job-updates'] *)

Module JobUpdate.
(** The object that the worker serialises with [JSON.stringify]; a key that
    the object literal does not mention is [None]. *)
Record t : Type := mk {
  jobId : string;
  contentId : string;
  status : JobStatus;
  generatedContent : option string;
  error : option string
}.
End JobUpdate.

(** ** Jobs of the BullMQ queue ['content-generation'] *)

Module Bull.

Inductive JobState : Type :=
  | waiting | delayed | active | completed | failed.

Record Backoff : Type := mkBackoff {
  exponential : bool;   (* type: 'exponential' *)
  backoffDelay : N      (* delay, in ms *)
}.

Record JobsOptions : Type := mkOpts {
  attempts : nat;
  backoff : Backoff;
  delay : N;       (* ms before the job may first be dispatched *)
  jobId : string   (* the custom job id *)
}.

(** [ContentGenerationJobData] of [src/queues/contentQueue.ts]. *)
Record ContentGenerationJobData : Type := mkData {
  contentId : string;
  userId : string;
  contentType : ContentType;
  topic : string
}.

Record Job : Type := mkJob {
  id : string;
  name : string;
  data : ContentGenerationJobData;
  opts : JobsOptions;
  attemptsMade : nat;
  state : JobState;
  progress : nat;
  returnvalue : option string;
  failedReason : option string
}.

End Bull.

(** ** The world and the monad of [async] functions *)

Module Async.

Inductive Event : Type :=
  | EvInsert (c : Content)
  | EvUpdate (f : Filter) (u : SetDoc)
  | EvDelete (f : Filter)
  | EvPublish (channel : string) (m : JobUpdate.t).

Record World : Type := mkWorld {
  docs : list Content;
  jobs : gmap string Bull.Job;
  events : list Event
}.

Definition M (A : Type) : Type := World -> result A * World.

#[global] Instance result_ret : MRet result := fun A a => Ok a.

#[global] Instance result_bind : MBind result := fun A B k r =>
  match r with
  | Ok a => k a
  | Throw e => Throw e
  end.

#[global] Instance M_ret : MRet M := fun A a w => (Ok a, w).

#[global] Instance M_bind : MBind M := fun A B k m w =>
  match m w with
  | (Ok a, w') => k a w'
  | (Throw e, w') => (Throw e, w')
  end.

Definition throw {A : Type} (e : exn) : M A := fun w => (Throw e, w).

(** [try { body } catch (error) { handler(error) }] *)
Definition tryCatch {A : Type} (body : M A) (handler : exn -> M A) : M A :=
  fun w =>
    match body w with
    | (Ok a, w') => (Ok a, w')
    | (Throw e, w') => handler e w'
    end.

(** Lifting of a synchronous expression that may throw. *)
Definition liftResult {A : Type} (r : result A) : M A := fun w => (r, w).

Definition emit (e : Event) : M unit :=
  fun w => (Ok (), mkWorld (docs w) (jobs w) (events w ++ [e])).

Definition getDocs : M (list Content) := fun w => (Ok (docs w), w).

Definition putDocs (d : list Content) : M unit :=
  fun w => (Ok (), mkWorld d (jobs w) (events w)).

Definition getJobs : M (gmap string Bull.Job) := fun w => (Ok (jobs w), w).

Definition putJobs (q : gmap string Bull.Job) : M unit :=
  fun w => (Ok (), mkWorld (docs w) q (events w)).

(** The database calls of the sources, as computations.  Each casts its
    filter first and throws the [CastError] when that fails.

    [Content.findOne(filter)] *)
Definition dbFindOne (f : Filter) : M (option Content) :=
  f ← liftResult (castFilter f);
  d ← getDocs; mret (findOne f d).

(** [Content.findOneAndUpdate(filter, { $set }, { new: true, ... })];
    [update] is the [$set] once it is cast against the schema and, with
    [runValidators], validated, which mongoose does after it has cast the
    filter and before it writes. *)
Definition dbFindOneAndUpdate (f : Filter) (update : result SetDoc) : M (option Content) :=
  f ← liftResult (castFilter f);
  u ← liftResult update;
  d ← getDocs;
  let '(r, d') := findOneAndUpdate f u d in
  _ ← putDocs d';
  _ ← emit (EvUpdate f u);
  mret r.

(** [Content.deleteOne(filter)] *)
Definition dbDeleteOne (f : Filter) : M nat :=
  f ← liftResult (castFilter f);
  d ← getDocs;
  let '(n, d') := deleteOne f d in
  _ ← putDocs d';
  _ ← emit (EvDelete f);
  mret n.

(** [doc.save()] of a document made by [new Content(...)]: the schema
    validators run, then the document is inserted; the unique index on
    [_id] refuses a second document with the same [_id]. *)
Definition dbSaveNew (c : Content) : M unit :=
  _ ← liftResult (validateTopic (topic c));
  _ ← liftResult (validatePrompt (prompt c));
  d ← getDocs;
  match findOne (ById (_id c)) d with
  | Some _ => throw (Error "E11000 duplicate key error")
  | None =>
      _ ← putDocs (d ++ [c]);
      emit (EvInsert c)
  end.

(** [doc.save()] of a loaded document: the modified paths are written by
    [_id]; a document that is gone makes [save] throw. *)
Definition dbSave (c : Content) (modified : SetDoc) : M unit :=
  r ← dbFindOneAndUpdate (ById (_id c)) (Ok modified);
  match r with
  | Some _ => mret ()
  | None => throw (Error "DocumentNotFoundError")
  end.

(** [redis.publish(channel, JSON.stringify(message))] *)
Definition publish (channel : string) (m : JobUpdate.t) : M unit :=
  emit (EvPublish channel m).

End Async.
Export Async.

(** ** [src/services/contentService.ts] *)

Module ContentService.

Definition generatePrompt (contentType : ContentType) (topic : string) : string :=
  match contentType with
  | BLOG_POST_OUTLINE =>
      "Create a comprehensive blog post outline for the topic: " +:+ dquote +:+ topic
      +:+ dquote +:+ ". Include main headings, subheadings, and key points for each section."
  | PRODUCT_DESCRIPTION =>
      "Write an engaging product description for: " +:+ dquote +:+ topic +:+ dquote
      +:+ ". Include key features, benefits, and a compelling call-to-action."
  | SOCIAL_MEDIA_CAPTION =>
      "Create a catchy social media caption for: " +:+ dquote +:+ topic +:+ dquote
      +:+ ". Make it engaging, include relevant hashtags, and keep it appropriate for platforms like Instagram, Twitter, and Facebook."
  | ARTICLE =>
      "Write a well-structured article about: " +:+ dquote +:+ topic +:+ dquote
      +:+ ". Include an introduction, main body with multiple paragraphs, and a conclusion."
  | EMAIL =>
      "Draft a professional email about: " +:+ dquote +:+ topic +:+ dquote
      +:+ ". Include a clear subject line suggestion and a well-structured email body."
  end.

(** [createContent]; [oid] is the text of the ObjectId that
    [new Content(...)] assigns.  The schema setters trim [topic] and
    [prompt]; the defaults fill [generatedContent], [content] and [jobId]
    with null. *)
Definition createContent (oid : string) (userId topic : string)
    (contentType : ContentType) : M Content :=
  let prompt := generatePrompt contentType topic in
  let content :=
    {| _id := oid;
       userId := userId;
       topic := trim topic;
       contentType := contentType;
       prompt := trim prompt;
       generatedContent := None;
       content := None;
       jobId := None;
       jobStatus := QUEUED |} in
  _ ← dbSaveNew content;
  mret content.

Definition getContentById (contentId userId : string) : M Content :=
  content ← dbFindOne (ByIdAndUser contentId userId);
  match content with
  | None => throw (AppError "Content not found" 404)
  | Some content => mret content
  end.

(** [Partial<Pick<IContent, 'topic' | 'content'>>], as the controller
    passes it: each key is absent or a string. *)
Record Updates : Type := mkUpdates {
  upd_topic : option string;
  upd_content : option string
}.

(** Casting of [{ $set: updates }] against the schema with
    [runValidators: true]: the [topic] setter and validators apply to a
    [topic] that is present. *)
Definition castUpdates (updates : Updates) : result SetDoc :=
  topic' ← match upd_topic updates with
           | Some t => t' ← validateTopic (trim t); mret (Some t')
           | None => mret None
           end;
  mret (mkSet topic' (upd_content updates) None None None).

Definition updateContent (contentId userId : string) (updates : Updates) : M Content :=
  content ← dbFindOneAndUpdate (ByIdAndUser contentId userId) (castUpdates updates);
  match content with
  | None => throw (AppError "Content not found" 404)
  | Some content => mret content
  end.

Definition deleteContent (contentId userId : string) : M unit :=
  deletedCount ← dbDeleteOne (ByIdAndUser contentId userId);
  if bool_decide (deletedCount = 0) then throw (AppError "Content not found" 404)
  else mret ().

(** The object [updateData] that [updateContentJobStatus] builds from the
    snapshot [existingContent] between its two database calls. *)
Definition updateData (existingContent : option Content) (jobStatus : JobStatus)
    (generatedContent : option string) : SetDoc :=
  match generatedContent with
  | Some g =>
      mkSet None
            (if falsy (existingContent ≫= content) then Some g else None)
            (Some g) None (Some jobStatus)
  | None => mkSet None None None None (Some jobStatus)
  end.

Definition updateContentJobStatus (jobId : string) (jobStatus : JobStatus)
    (generatedContent : option string) : M (option Content) :=
  existingContent ← dbFindOne (ByJobId jobId);
  dbFindOneAndUpdate (ByJobId jobId)
    (Ok (updateData existingContent jobStatus generatedContent)).

Definition getContentByJobId (jobId : string) : M (option Content) :=
  dbFindOne (ByJobId jobId).

Definition rollbackContent (contentId userId : string) : M Content :=
  content ← dbFindOne (ByIdAndUser contentId userId);
  match content with
  | None => throw (AppError "Content not found" 404)
  | Some content =>
      if falsy (generatedContent content) then
        throw (AppError "No generated content available to rollback to" 400)
      else
        let modified := mkSet None (generatedContent content) None None None in
        let content := applySet modified content in
        _ ← dbSave content modified;
        mret content
  end.

End ContentService.

(** ** [src/services/aiService.ts] *)

Module AiService.

(** What one call of [client.models.generateContent] does: it answers with
    a response whose [text] is a string or undefined, or it throws. *)
Inductive ApiOutcome : Type :=
  | ApiResponse (text : option string)
  | ApiThrows (e : exn).

(** [initializeClient]: [apiKey] is [process.env.GOOGLE_GENAI_API_KEY]. *)
Definition initializeClient (apiKey : option string) : result unit :=
  if falsy apiKey then Throw (AppError "GOOGLE_GENAI_API_KEY is not configured" 500)
  else Ok ().

Definition generatePrompt := ContentService.generatePrompt.

(** [generateContent]; [api] is the Google GenAI client, from the prompt
    to the outcome of the call.  After [initializeClient] has returned the
    client is set, so the test [!this.client] never fires. *)
Definition generateContent (apiKey : option string) (api : string -> ApiOutcome)
    (contentType : ContentType) (topic : string) : M string :=
  tryCatch
    (_ ← liftResult (initializeClient apiKey);
     let prompt := generatePrompt contentType topic in
     generatedText ← liftResult (match api prompt with
                                 | ApiResponse text => Ok text
                                 | ApiThrows e => Throw e
                                 end);
     if falsy generatedText then
       throw (AppError "Failed to generate content from AI - no text returned" 500)
     else mret (default EmptyString generatedText))
    (fun error =>
       if instanceofAppError error then throw error
       else throw (AppError ("AI content generation failed: " +:+ errorMessage error) 500)).

End AiService.

(** ** [src/queues/contentQueue.ts] *)

Module ContentQueue.

(** [defaultJobOptions] of [contentQueue]. *)
Definition defaultAttempts : nat := 3.
Definition defaultBackoff : Bull.Backoff := Bull.mkBackoff true 2000%N.

(** Modelled from the spec: [contentQueue.add(name, data, { delay, jobId })]
    of BullMQ, whose code is not among the sources.  The job is created under
    the id it is given, delayed when it has a delay, with the default options
    of the queue merged into the options of the call.  The spec leaves open
    what a second submission under the same id does; here the job that is
    there is kept and returned, as BullMQ does. *)
Definition add (name : string) (data : Bull.ContentGenerationJobData)
    (delay : N) (jobId : string) : M Bull.Job :=
  q ← getJobs;
  match q !! jobId with
  | Some job => mret job
  | None =>
      let job :=
        Bull.mkJob jobId name data
          (Bull.mkOpts defaultAttempts defaultBackoff delay jobId)
          0 (if (delay =? 0)%N then Bull.waiting else Bull.delayed) 0 None None in
      _ ← putJobs (<[jobId := job]> q);
      mret job
  end.

Definition addContentGenerationJob (jobData : Bull.ContentGenerationJobData) : M string :=
  job ← add "generate-content" jobData 60000%N ("content-" +:+ Bull.contentId jobData);
  mret (Bull.id job).

(** The object that [getJobStatus] returns for a job that exists. *)
Record JobStatusInfo : Type := mkInfo {
  id : string;
  state : Bull.JobState;
  progress : nat;
  returnValue : option string;
  failedReason : option string;
  data : Bull.ContentGenerationJobData
}.

Definition getJobStatus (jobId : string) : M (option JobStatusInfo) :=
  q ← getJobs;
  match q !! jobId with
  | None => mret None
  | Some job =>
      mret (Some (mkInfo (Bull.id job) (Bull.state job) (Bull.progress job)
                    (Bull.returnvalue job) (Bull.failedReason job) (Bull.data job)))
  end.

End ContentQueue.

(** ** [src/worker.ts] *)

Module Worker.

(** The value that the processor returns to BullMQ on success. *)
Record ReturnValue : Type := mkReturn {
  contentId : string;
  jobId : string;
  generatedContent : string;
  status : JobStatus
}.

(** The processor given to [new Worker('content-generation', ...)].
    [apiKey] and [api] are the environment of [aiService]. *)
Definition processor (apiKey : option string) (api : string -> AiService.ApiOutcome)
    (job : Bull.Job) : M ReturnValue :=
  tryCatch
    (_ ← ContentService.updateContentJobStatus (Bull.id job) PROCESSING None;
     generatedContent ← AiService.generateContent apiKey api
                          (Bull.contentType (Bull.data job)) (Bull.topic (Bull.data job));
     content ← ContentService.updateContentJobStatus (Bull.id job) COMPLETED
                 (Some generatedContent);
     match content with
     | None => throw (Error ("Content not found for job ID: " +:+ Bull.id job))
     | Some content =>
         _ ← publish "job-updates"
               (JobUpdate.mk (Bull.id job) (_id content) COMPLETED
                  (Some generatedContent) None);
         mret (mkReturn (_id content) (Bull.id job) generatedContent COMPLETED)
     end)
    (fun error =>
       _ ← ContentService.updateContentJobStatus (Bull.id job) FAILED None;
       _ ← publish "job-updates"
             (JobUpdate.mk (Bull.id job) (Bull.contentId (Bull.data job)) FAILED
                None (Some (errorMessage error)));
       throw error).

End Worker.

(** ** [src/controllers/contentController.ts] *)

Module ContentController.

(** The JSON bodies that the handlers send. *)
Inductive ResBody : Type :=
  | Failure (message : string)
  | Queued (message : string) (id topic : string) (contentType : ContentType)
      (jobId : option string) (jobStatus : JobStatus)
      (dataJobId : string) (expectedDelay : string)
  | Full (id topic : string) (contentType : ContentType) (prompt : string)
      (generatedContent content jobId : option string) (jobStatus : JobStatus)
  | Edited (message : string) (id topic : string) (contentType : ContentType)
      (generatedContent content : option string) (jobStatus : JobStatus)
  | JobStatusData (jobId : string)
      (state : Bull.JobState) (progress : nat) (failedReason : option string)
      (id : string) (jobStatus : JobStatus) (generatedContent content : option string)
  | NoContent.

Record Response : Type := mkRes {
  status : nat;
  body : ResBody
}.

Definition lengthBetween (lo hi : nat) (s : string) : bool :=
  (lo <=? String.length s)%nat && (String.length s <=? hi)%nat.

(** [createContentSchema.parse] *)
Definition parseCreate (b : json) : result (string * ContentType) :=
  match b with
  | JObj fields =>
      topic ← match fields !! "topic" with
              | Some (JStr s) =>
                  if (String.length s <? 1)%nat then Throw (ZodError "Topic is required")
                  else if (500 <? String.length s)%nat
                       then Throw (ZodError "Topic cannot exceed 500 characters")
                  else Ok s
              | _ => Throw (ZodError "topic")
              end;
      contentType ← match fields !! "contentType" with
                    | Some (JStr s) =>
                        match contentType_of_string s with
                        | Some t => Ok t
                        | None => Throw (ZodError "Invalid content type")
                        end
                    | _ => Throw (ZodError "Invalid content type")
                    end;
      mret (topic, contentType)
  | _ => Throw (ZodError EmptyString)
  end.

(** [updateContentSchema.parse]: both keys are optional, every other key of
    the body is stripped. *)
Definition parseUpdate (b : json) : result ContentService.Updates :=
  match b with
  | JObj fields =>
      topic ← match fields !! "topic" with
              | None => Ok None
              | Some (JStr s) => if lengthBetween 1 500 s then Ok (Some s)
                                 else Throw (ZodError "topic")
              | Some _ => Throw (ZodError "topic")
              end;
      content ← match fields !! "content" with
                | None => Ok None
                | Some (JStr s) => Ok (Some s)
                | Some _ => Throw (ZodError "content")
                end;
      mret (ContentService.mkUpdates topic content)
  | _ => Throw (ZodError EmptyString)
  end.

Definition unauthenticated : Response := mkRes 401 (Failure "User not authenticated").

(** [user] is [req.user._id.toString()] when the request is authenticated;
    [oid] is the text of the ObjectId of the document to be created. *)
Definition createContentHandler (user : option string) (reqBody : json) (oid : string)
  : M Response :=
  match user with
  | None => mret unauthenticated
  | Some uid =>
      validatedData ← liftResult (parseCreate reqBody);
      let '(topic, contentType) := validatedData in
      content ← ContentService.createContent oid uid topic contentType;
      jobId ← ContentQueue.addContentGenerationJob
                (Bull.mkData (_id content) uid contentType topic);
      let modified := mkSet None None None (Some jobId) None in
      let content := applySet modified content in
      _ ← dbSave content modified;
      mret (mkRes 202
              (Queued "Content generation job queued successfully"
                 (_id content) (Models.topic content) (Models.contentType content)
                 (Models.jobId content) (Models.jobStatus content)
                 jobId "1 minute"))
  end.

Definition getContentByIdHandler (user : option string) (id : string) : M Response :=
  match user with
  | None => mret unauthenticated
  | Some uid =>
      content ← ContentService.getContentById id uid;
      mret (mkRes 200
              (Full (_id content) (topic content) (contentType content) (prompt content)
                 (generatedContent content) (Models.content content)
                 (jobId content) (jobStatus content)))
  end.

Definition updateContentHandler (user : option string) (id : string) (reqBody : json)
  : M Response :=
  match user with
  | None => mret unauthenticated
  | Some uid =>
      validatedData ← liftResult (parseUpdate reqBody);
      content ← ContentService.updateContent id uid validatedData;
      mret (mkRes 200
              (Edited "Content updated successfully"
                 (_id content) (topic content) (contentType content)
                 (generatedContent content) (Models.content content) (jobStatus content)))
  end.

Definition deleteContentHandler (user : option string) (id : string) : M Response :=
  match user with
  | None => mret unauthenticated
  | Some uid =>
      _ ← ContentService.deleteContent id uid;
      mret (mkRes 204 NoContent)
  end.

Definition getJobStatusHandler (user : option string) (jobId : string) : M Response :=
  match user with
  | None => mret unauthenticated
  | Some uid =>
      jobStatus ← ContentQueue.getJobStatus jobId;
      match jobStatus with
      | None => mret (mkRes 404 (Failure "Job not found"))
      | Some jobStatus =>
          content ← ContentService.getContentByJobId jobId;
          match content with
          | None => mret (mkRes 404 (Failure "Content not found or access denied"))
          | Some content =>
              if negb (bool_decide (userId content = uid)) then
                mret (mkRes 404 (Failure "Content not found or access denied"))
              else
                mret (mkRes 200
                        (JobStatusData jobId
                           (ContentQueue.state jobStatus) (ContentQueue.progress jobStatus)
                           (ContentQueue.failedReason jobStatus)
                           (_id content) (Models.jobStatus content)
                           (generatedContent content) (Models.content content)))
          end
      end
  end.

Definition rollbackContentHandler (user : option string) (id : string) : M Response :=
  match user with
  | None => mret unauthenticated
  | Some uid =>
      content ← ContentService.rollbackContent id uid;
      mret (mkRes 200
              (Edited "Content rolled back successfully"
                 (_id content) (topic content) (contentType content)
                 (generatedContent content) (Models.content content) (jobStatus content)))
  end.

End ContentController.

(** ** The retry policy of the Job Queue *)

Module Retry.







End Retry.

(** ** The system as a whole: requests and worker runs, one after another *)

Module System.

Inductive Op : Type :=
  | Create (user : option string) (reqBody : json) (oid : string)
  | Read (user : option string) (id : string)
  | Update (user : option string) (id : string) (reqBody : json)
  | Delete (user : option string) (id : string)
  | Rollback (user : option string) (id : string)
  | Poll (user : option string) (jobId : string)
  | Work (apiKey : option string) (api : string -> AiService.ApiOutcome) (job : Bull.Job).

(** The world after an operation; what a failed operation has written
    before it threw stays written. *)
Definition step (w : World) (o : Op) : World :=
  match o with
  | Create u b oid => (ContentController.createContentHandler u b oid w).2
  | Read u i => (ContentController.getContentByIdHandler u i w).2
  | Update u i b => (ContentController.updateContentHandler u i b w).2
  | Delete u i => (ContentController.deleteContentHandler u i w).2
  | Rollback u i => (ContentController.rollbackContentHandler u i w).2
  | Poll u j => (ContentController.getJobStatusHandler u j w).2
  | Work k api job => (Worker.processor k api job w).2
  end.

Definition exec (w : World) (ops : list Op) : World := foldl step w ops.

Definition initial : World := mkWorld [] ∅ [].

Definition reachable (w : World) : Prop := ∃ ops, exec initial ops = w.

(** The job that [createContentHandler] submits for the document [oid]. *)
Definition jobFor (oid uid : string) (contentType : ContentType) (topic : string) : Bull.Job :=
  Bull.mkJob ("content-" +:+ oid) "generate-content"
    (Bull.mkData oid uid contentType topic)
    (Bull.mkOpts ContentQueue.defaultAttempts ContentQueue.defaultBackoff 60000%N
       ("content-" +:+ oid))
    0 Bull.delayed 0 None None.

End System.

(** ** Sample data *)

(** The texts of two ObjectIds, and the job id of the first. *)
Abbreviation sampleId := "65f1c0ffee5eed0123456789" (only parsing).
Abbreviation sampleJobId := "content-65f1c0ffee5eed0123456789" (only parsing).
Abbreviation otherId := "65f1c0ffee5eed012345678a" (only parsing).

Module Sample.

Definition createBody : json :=
  JObj (<["topic" := JStr "T"]> (<["contentType" := JStr "article"]> ∅)).

Definition afterCreate : World :=
  System.step System.initial (System.Create (Some "u1") createBody sampleId).

Definition api (text : string) : string -> AiService.ApiOutcome :=
  fun _ => AiService.ApiResponse (Some text).

Definition job : Bull.Job := System.jobFor sampleId "u1" ARTICLE "T".

(** Creation, one successful run of the worker, then a user edit. *)
Definition history : list System.Op :=
  [System.Create (Some "u1") createBody sampleId;
   System.Work (Some "key") (api "AI TEXT") job;
   System.Update (Some "u1") sampleId (JObj (<["content" := JStr "edited"]> ∅))].

Definition edited : World := System.exec System.initial history.

(** Creation, then a user edit that sets [content] to the empty string. *)
Definition emptied : World :=
  System.step afterCreate
    (System.Update (Some "u1") sampleId (JObj (<["content" := JStr EmptyString]> ∅))).

End Sample.

(** ** Abbreviations used in the statements *)

(** The collaborator call as a function of its environment: it reads and
    writes nothing in the world. *)
Definition generated (apiKey : option string) (api : string -> AiService.ApiOutcome)
    (contentType : ContentType) (topic : string) : result string :=
  (AiService.generateContent apiKey api contentType topic System.initial).1.

(** The [$set] of a status write that carries no result. *)
Definition statusOnly (st : JobStatus) : SetDoc := mkSet None None None None (Some st).

Definition failureMessage (job : Bull.Job) (e : exn) : JobUpdate.t :=
  JobUpdate.mk (Bull.id job) (Bull.contentId (Bull.data job)) FAILED None
    (Some (errorMessage e)).

(** ** More sample worlds *)

Module Pruned.
(** The document of [Sample] after one successful run of the worker, with
    the job gone from the queue. *)
Definition completed : World :=
  System.step Sample.afterCreate
    (System.Work (Some "key") (Sample.api "AI TEXT") Sample.job).

Definition world : World := mkWorld (docs completed) ∅ (events completed).
End Pruned.

Module Foreign.
(** The queue of [Sample.afterCreate] over an empty collection. *)
Definition absent : World := mkWorld [] (jobs Sample.afterCreate) [].
End Foreign.

(** The effects of one run of the processor, in order: a processing write,
    then either the write of the outcome and its publish, or (when the
    completion write finds no record) the completion write, the failure write
    and the failure publish. *)
Definition orderly (j : string) (tr : list Event) : Prop :=
  (∃ u m, tr = [EvUpdate (ByJobId j) (statusOnly PROCESSING);
                EvUpdate (ByJobId j) u;
                EvPublish "job-updates" m]
          ∧ set_jobStatus u = Some (JobUpdate.status m)
          ∧ JobUpdate.jobId m = j
          ∧ (JobUpdate.status m = COMPLETED ∨ JobUpdate.status m = FAILED))
  ∨ (∃ u m, tr = [EvUpdate (ByJobId j) (statusOnly PROCESSING);
                  EvUpdate (ByJobId j) u;
                  EvUpdate (ByJobId j) (statusOnly FAILED);
                  EvPublish "job-updates" m]
            ∧ JobUpdate.jobId m = j
            ∧ JobUpdate.status m = FAILED).

(** Two versions of a document that differ at most in [topic] and [content]. *)
Definition sameButTopicAndContent (c c' : Content) : Prop :=
  _id c' = _id c ∧ userId c' = userId c ∧ contentType c' = contentType c
  ∧ prompt c' = prompt c ∧ generatedContent c' = generatedContent c
  ∧ jobId c' = jobId c ∧ jobStatus c' = jobStatus c.

(** One change of the collection by an operation of the system: a [$set]
    that leaves [jobId] alone and writes no empty [generatedContent], a
    delete, or the insertion of a new document that carries its job id. *)
Inductive evolves : list Content → list Content → Prop :=
  | evolves_refl d : evolves d d
  | evolves_trans d1 d2 d3 : evolves d1 d2 → evolves d2 d3 → evolves d1 d3
  | evolves_update f u d :
      set_jobId u = None →
      set_generatedContent u ≠ Some EmptyString →
      evolves d (findOneAndUpdate f u d).2
  | evolves_delete f d : evolves d (deleteOne f d).2
  | evolves_create c d :
      findOne (ById (_id c)) d = None →
      generatedContent c = None →
      jobId c = Some ("content-" +:+ _id c) →
      evolves d (d ++ [c]).

(** Every job of the queue is stored under its own id. *)
Definition wellKeyed (q : gmap string Bull.Job) : Prop :=
  ∀ k job, q !! k = Some job → Bull.id job = k.

(** What holds of every collection that the system can reach: ids are
    unique, no [generatedContent] is the empty string, and every document
    carries the job id of its own id. *)
Definition consistent (d : list Content) : Prop :=
  NoDup (_id <$> d)
  ∧ Forall (λ c, generatedContent c ≠ Some EmptyString
                 ∧ jobId c = Some ("content-" +:+ _id c)) d.

(** At any id, the job id derived from that id is kept by every document
    that has the id. *)
Definition carriesJobId (oid : string) (d : list Content) : Prop :=
  ∀ c, c ∈ d → _id c = oid → jobId c = Some ("content-" +:+ oid).

(** ** Requests and their requesters *)

(** The authenticated user of a request; a run of the worker has none. *)
Definition requesterOf (o : System.Op) : option string :=
  match o with
  | System.Create u _ _ | System.Read u _ | System.Update u _ _
  | System.Delete u _ | System.Rollback u _ | System.Poll u _ => u
  | System.Work _ _ _ => None
  end.

Definition isRequest (o : System.Op) : bool :=
  match o with
  | System.Work _ _ _ => false
  | _ => true
  end.

(** The documents of one user, in the order of the collection. *)
Definition ownedBy (v : string) (d : list Content) : list Content :=
  filter (λ c, userId c = v) d.

(** ** [src/utils/websocket.ts] *)

Module WebSocket.

(** Modelled from the spec: the rooms of the Socket.IO server, whose code is
    not among the sources.  A room is the set of the sockets that have
    joined it and not left it since; a socket that disconnects leaves every
    room; an emit to a room reaches each of its sockets once. *)
Record Io : Type := mkIo {
  rooms : gmap string (gset string)
}.

Definition members (io : Io) (room : string) : gset string :=
  default ∅ (rooms io !! room).

Definition join (socket room : string) (io : Io) : Io :=
  mkIo (<[room := {[socket]} ∪ members io room]> (rooms io)).

Definition leave (socket room : string) (io : Io) : Io :=
  mkIo (<[room := members io room ∖ {[socket]}]> (rooms io)).

Definition disconnect (socket : string) (io : Io) : Io :=
  mkIo ((λ sockets, sockets ∖ {[socket]}) <$> rooms io).

(** The object [{ jobId, ...data, timestamp }] of a ['job-update']. *)
Record Payload : Type := mkPayload {
  jobId : string;
  contentId : string;
  status : JobStatus;
  generatedContent : option string;
  error : option string;
  timestamp : string
}.

(** One event sent to one socket. *)
Record Emission : Type := mkEmission {
  to : string;
  event : string;
  payload : Payload
}.

(** [emitJobUpdate(jobId, data)]; [ioInstance] is the module variable that
    [initializeWebSocket] sets, [now] is [new Date().toISOString()].  The
    keys of [data] are spread after [jobId], so the [jobId] of the payload
    is the one of [data]. *)
Definition emitJobUpdate (ioInstance : option Io) (now : string)
    (jobId : string) (data : JobUpdate.t) : list Emission :=
  match ioInstance with
  | None => []
  | Some io =>
      (λ socket,
         mkEmission socket "job-update"
           (mkPayload (JobUpdate.jobId data) (JobUpdate.contentId data)
              (JobUpdate.status data) (JobUpdate.generatedContent data)
              (JobUpdate.error data) now))
        <$> elements (members io ("job-" +:+ jobId))
  end.

End WebSocket.

(** ** The socket and Redis handlers of [src/index.ts] *)

Module Server.

(** What a connected client can make happen. *)
Inductive ClientEvent : Type :=
  | SubscribeJob (socket jobId : string)     (* socket.on('subscribe-job') *)
  | UnsubscribeJob (socket jobId : string)   (* socket.on('unsubscribe-job') *)
  | Disconnect (socket : string).            (* socket.on('disconnect') *)

Definition onClientEvent (io : WebSocket.Io) (e : ClientEvent) : WebSocket.Io :=
  match e with
  | SubscribeJob socket jobId => WebSocket.join socket ("job-" +:+ jobId) io
  | UnsubscribeJob socket jobId => WebSocket.leave socket ("job-" +:+ jobId) io
  | Disconnect socket => WebSocket.disconnect socket io
  end.

(** [redisSubscriber.on('message', (channel, message) => ...)]; [update] is
    [JSON.parse(message)], [None] when the message does not parse (the
    error is caught and logged). *)
Definition onRedisMessage (ioInstance : option WebSocket.Io) (now : string)
    (channel : string) (update : option JobUpdate.t) : list WebSocket.Emission :=
  if bool_decide (channel = "job-updates") then
    match update with
    | Some update => WebSocket.emitJobUpdate ioInstance now (JobUpdate.jobId update) update
    | None => []
    end
  else [].

(** Modelled from the spec: the Event Bridge, Redis publish and subscribe,
    whose code is not among the sources, hands each message that is
    published to the subscriber of the server as it was published.  These
    are the emissions that a stretch of the effect log causes. *)
Definition relay (ioInstance : option WebSocket.Io) (now : string) (log : list Event)
  : list WebSocket.Emission :=
  log ≫= (λ e, match e with
               | EvPublish channel m => onRedisMessage ioInstance now channel (Some m)
               | _ => []
               end).

(** Whether [socket] is subscribed to [jobId] after the client events [evs],
    when [before] tells whether it was before them: the last subscribe,
    unsubscribe or disconnect of the socket decides. *)
Fixpoint subscribedAfter (evs : list ClientEvent) (socket jobId : string) (before : bool)
  : bool :=
  match evs with
  | [] => before
  | e :: rest =>
      subscribedAfter rest socket jobId
        match e with
        | SubscribeJob s j =>
            if bool_decide (s = socket ∧ j = jobId) then true else before
        | UnsubscribeJob s j =>
            if bool_decide (s = socket ∧ j = jobId) then false else before
        | Disconnect s => if bool_decide (s = socket) then false else before
        end
  end.

(** The number of emissions addressed to [socket]. *)
Definition received (socket : string) (es : list WebSocket.Emission) : nat :=
  length (filter (λ e, WebSocket.to e = socket) es).

End Server.

(** ** [src/models/User.ts], [src/utils/jwt.ts], [src/middleware/auth.ts]
       and the token functions of [src/services/authService.ts] *)

Module Auth.

(** The payload of a token; [userId] is [user._id.toString()] of the user
    that the token was signed for, the text of an ObjectId, so that
    [User.findById] casts it to that ObjectId. *)
Record TokenPayload : Type := mkPayload {
  userId : string;
  email : string
}.

(** A document of the [User] collection. *)
Record UserDoc : Type := mkUserDoc {
  _id : string;
  userName : string;
  userEmail : string;
  password : string;             (* the stored hash; [select: false] *)
  refreshToken : option string   (* [select: false] *)
}.

(** A user as a query without [+password] or [+refreshToken] returns it. *)
Record User : Type := mkUser {
  id : string;
  name : string;
  mail : string
}.

Definition select (u : UserDoc) : User := mkUser (_id u) (userName u) (userEmail u).

(** The environment: the variables of [process.env] that the token
    functions read, the functions [jwt.verify] and [jwt.sign] of the
    jsonwebtoken library ([jwtVerify token secret] is the payload of a token
    that verifies under the secret, [None] when [jwt.verify] throws;
    [jwtSign payload secret expiresIn] is the signed token), [bcrypt.compare]
    (candidate, stored hash), the value that mongoose makes of an [email] in
    a query filter (the schema declares [lowercase] and [trim] for the
    path), and the users of the database. *)
Record Env : Type := mkEnv {
  JWT_SECRET : option string;
  JWT_REFRESH_SECRET : option string;
  JWT_ACCESS_EXPIRES_IN : option string;
  JWT_REFRESH_EXPIRES_IN : option string;
  jwtVerify : string → string → option TokenPayload;
  jwtSign : TokenPayload → string → string → string;
  bcryptCompare : string → string → bool;
  castEmail : string → string;
  users : list UserDoc
}.

(** [a || b] on two strings that may be undefined. *)
Definition orElse (a b : option string) : option string :=
  if falsy a then b else a.

Definition generateAccessToken (env : Env) (user : UserDoc) : result string :=
  let payload := mkPayload (_id user) (userEmail user) in
  if falsy (JWT_SECRET env) then Throw (Error "JWT_SECRET environment variable is not set")
  else
    let expiresIn := default "15m" (orElse (JWT_ACCESS_EXPIRES_IN env) (Some "15m")) in
    Ok (jwtSign env payload (default EmptyString (JWT_SECRET env)) expiresIn).

Definition generateRefreshToken (env : Env) (user : UserDoc) : result string :=
  let payload := mkPayload (_id user) (userEmail user) in
  let secret := orElse (JWT_REFRESH_SECRET env) (JWT_SECRET env) in
  if falsy secret
  then Throw (Error "JWT_REFRESH_SECRET or JWT_SECRET environment variable is not set")
  else
    let expiresIn := default "7d" (orElse (JWT_REFRESH_EXPIRES_IN env) (Some "7d")) in
    Ok (jwtSign env payload (default EmptyString secret) expiresIn).

Definition verifyAccessToken (env : Env) (token : string) : result TokenPayload :=
  if falsy (JWT_SECRET env) then Throw (Error "JWT_SECRET environment variable is not set")
  else
    match jwtVerify env token (default EmptyString (JWT_SECRET env)) with
    | Some decoded => Ok decoded
    | None => Throw (Error "Invalid or expired access token")
    end.

Definition verifyRefreshToken (env : Env) (token : string) : result TokenPayload :=
  let secret := orElse (JWT_REFRESH_SECRET env) (JWT_SECRET env) in
  if falsy secret
  then Throw (Error "JWT_REFRESH_SECRET or JWT_SECRET environment variable is not set")
  else
    match jwtVerify env token (default EmptyString secret) with
    | Some decoded => Ok decoded
    | None => Throw (Error "Invalid or expired refresh token")
    end.

(** [User.findById(id)] *)
Fixpoint findById (id : string) (us : list UserDoc) : option UserDoc :=
  match us with
  | [] => None
  | u :: rest => if bool_decide (_id u = id) then Some u else findById id rest
  end.

(** [user.refreshToken = token; await user.save()]: the modified path is
    written to the document of that [_id]. *)
Fixpoint saveRefreshToken (id : string) (token : option string) (us : list UserDoc)
  : list UserDoc :=
  match us with
  | [] => []
  | u :: rest =>
      if bool_decide (_id u = id)
      then mkUserDoc (_id u) (userName u) (userEmail u) (password u) token :: rest
      else u :: saveRefreshToken id token rest
  end.

(** What the middleware does with a request: it answers it, or it attaches
    the user and calls [next]. *)
Inductive Outcome : Type :=
  | Respond (status : nat) (message : string)
  | Next (user : User).

(** [authenticate]; [authorization] is [req.headers.authorization]. *)
Definition authenticate (env : Env) (authorization : option string) : Outcome :=
  match authorization with
  | None =>
      Respond 401 "No token provided. Please provide a valid authentication token."
  | Some authHeader =>
      if bool_decide (authHeader = EmptyString) || negb (String.prefix "Bearer " authHeader)
      then Respond 401 "No token provided. Please provide a valid authentication token."
      else
        let token := String.substring 7 (String.length authHeader - 7) authHeader in
        match verifyAccessToken env token with
        | Throw error => Respond 401 (if instanceofError error then message_of error
                                      else "Authentication failed")
        | Ok decoded =>
            match findById (userId decoded) (users env) with
            | None => Respond 401 "User not found. Token is invalid."
            | Some user => Next (select user)
            end
        end
  end.

(** [refreshAccessToken] of the auth service, on the users [us]: the answer
    and the users afterwards. *)
Definition refreshAccessToken (env : Env) (token : string) (us : list UserDoc)
  : result (string * string) * list UserDoc :=
  match verifyRefreshToken env token with
  | Throw e => (Throw e, us)
  | Ok decoded =>
      match findById (userId decoded) us with
      | None => (Throw (AppError "User not found" 404), us)
      | Some user =>
          if falsy (refreshToken user)
             || negb (bool_decide (refreshToken user = Some token))
          then (Throw (AppError "Invalid refresh token" 401), us)
          else
            match generateAccessToken env user with
            | Throw e => (Throw e, us)
            | Ok newAccessToken =>
                match generateRefreshToken env user with
                | Throw e => (Throw e, us)
                | Ok newRefreshToken =>
                    (Ok (newAccessToken, newRefreshToken),
                     saveRefreshToken (_id user) (Some newRefreshToken) us)
                end
            end
      end
  end.

(** [User.findOne({ email })] *)
Fixpoint findByEmail (email : string) (us : list UserDoc) : option UserDoc :=
  match us with
  | [] => None
  | u :: rest => if bool_decide (userEmail u = email) then Some u else findByEmail email rest
  end.

(** What [loginUser] returns: the user without [password] and
    [refreshToken], and the two tokens. *)
Record Session : Type := mkSession {
  user : User;
  accessToken : string;
  newRefreshToken : string
}.

(** [loginUser] *)
Definition loginUser (env : Env) (email password : string) (us : list UserDoc)
  : result Session * list UserDoc :=
  match findByEmail (castEmail env email) us with
  | None => (Throw (AppError "Invalid email or password" 401), us)
  | Some user =>
      if negb (bcryptCompare env password (Auth.password user))
      then (Throw (AppError "Invalid email or password" 401), us)
      else
        match generateAccessToken env user with
        | Throw e => (Throw e, us)
        | Ok accessToken =>
            match generateRefreshToken env user with
            | Throw e => (Throw e, us)
            | Ok refreshToken =>
                (Ok (mkSession (select user) accessToken refreshToken),
                 saveRefreshToken (_id user) (Some refreshToken) us)
            end
        end
  end.

(** [logoutUser] *)
Definition logoutUser (userId : string) (us : list UserDoc) : result unit * list UserDoc :=
  match findById userId us with
  | None => (Throw (AppError "User not found" 404), us)
  | Some user => (Ok (), saveRefreshToken (_id user) None us)
  end.

End Auth.

(** ** [src/routes/contentRoutes.ts] *)

Module ContentRoutes.

(** The routes of the router (the list route [GET /] apart), each with the
    parameters and the body of the request; [oid] is the ObjectId that a
    creation would assign. *)
Inductive Request : Type :=
  | GetJobStatus (jobId : string)               (* GET /job/:jobId/status *)
  | PostContent (reqBody : json) (oid : string) (* POST / *)
  | GetContent (id : string)                    (* GET /:id *)
  | PutContent (id : string) (reqBody : json)   (* PUT /:id *)
  | PostRollback (id : string)                  (* POST /:id/rollback *)
  | DeleteContent (id : string).                (* DELETE /:id *)

Definition handler (user : option string) (r : Request) : M ContentController.Response :=
  match r with
  | GetJobStatus jobId => ContentController.getJobStatusHandler user jobId
  | PostContent reqBody oid => ContentController.createContentHandler user reqBody oid
  | GetContent id => ContentController.getContentByIdHandler user id
  | PutContent id reqBody => ContentController.updateContentHandler user id reqBody
  | PostRollback id => ContentController.rollbackContentHandler user id
  | DeleteContent id => ContentController.deleteContentHandler user id
  end.

(** [router.use(authenticate)] before every route: the handler runs only
    when the middleware calls [next], with the user that it attached. *)
Definition router (env : Auth.Env) (authorization : option string) (r : Request)
  : M ContentController.Response :=
  match Auth.authenticate env authorization with
  | Auth.Respond status message =>
      mret (ContentController.mkRes status (ContentController.Failure message))
  | Auth.Next user => handler (Some (Auth.id user)) r
  end.

End ContentRoutes.

(** ** Sample users *)

Module SampleAuth.

Definition verify (token secret : string) : option Auth.TokenPayload :=
  if bool_decide ((token = "refresh-1" ∨ token = "signed-u1-7d") ∧ secret = "s3cret")
  then Some (Auth.mkPayload "u1" "ann@example.com")
  else None.

Definition sign (p : Auth.TokenPayload) (secret expiresIn : string) : string :=
  "signed-" +:+ Auth.userId p +:+ "-" +:+ expiresIn.

Definition accounts : list Auth.UserDoc :=
  [Auth.mkUserDoc "u1" "Ann" "ann@example.com" "hash" (Some "refresh-1")].

Definition compare (candidate hash : string) : bool :=
  bool_decide (candidate = "pw" ∧ hash = "hash").

Definition env : Auth.Env :=
  Auth.mkEnv (Some "s3cret") None None None verify sign compare (λ e, e) accounts.

(** The same server with no secret configured. *)
Definition unconfigured : Auth.Env :=
  Auth.mkEnv None None None None verify sign compare (λ e, e) accounts.

End SampleAuth.

(** The record [c] once a run of the worker has completed with the text [g]. *)
Definition completedOf (c : Content) (g : string) : Content :=
  mkContent (_id c) (userId c) (topic c) (contentType c) (prompt c) (Some g)
    (if falsy (content c) then Some g else content c) (jobId c) COMPLETED.

(** * Properties *)

(** ** The collection *)

Lemma findOneAndUpdate_result (f : Filter) (u : SetDoc) (d : list Content) :
  (findOneAndUpdate f u d).1 = applySet u <$> findOne f d.
Proof.
  induction d as [|c rest IH]; simpl; [done|].
  destruct (matches f c); [done|].
  destruct (findOneAndUpdate f u rest) as [r rest']. simpl in *. done.
Qed.

(** Document by document, an update leaves the collection as it was apart
    from one matching document, to which the [$set] is applied. *)
Lemma findOneAndUpdate_pointwise (f : Filter) (u : SetDoc) (d : list Content) :
  Forall2 (fun c c' => c' = c ∨ (matches f c = true ∧ c' = applySet u c))
          d (findOneAndUpdate f u d).2.
Proof.
  induction d as [|c rest IH]; simpl; [constructor|].
  destruct (matches f c) eqn:Hm.
  - simpl. constructor; [by right|].
    clear. induction rest; constructor; auto.
  - destruct (findOneAndUpdate f u rest) as [r rest']. simpl in *.
    constructor; [by left|done].
Qed.

Lemma findOne_matches (f : Filter) (d : list Content) (c : Content) :
  findOne f d = Some c → matches f c = true ∧ c ∈ d.
Proof.
  induction d as [|c0 rest IH]; simpl; [done|].
  destruct (matches f c0) eqn:Hm.
  - intros [= <-]. split; [done|]. apply list_elem_of_here.
  - intros H. destruct (IH H) as [? ?]. split; [done|]. by apply list_elem_of_further.
Qed.

Lemma findOne_None (f : Filter) (d : list Content) :
  findOne f d = None ↔ ∀ c, c ∈ d → matches f c = false.
Proof.
  induction d as [|c0 rest IH]; simpl.
  - split; [|done]. intros _ c Hc. by apply elem_of_nil in Hc.
  - destruct (matches f c0) eqn:Hm.
    + split; [done|]. intros H. specialize (H c0 (list_elem_of_here _ _)). congruence.
    + rewrite IH. split.
      * intros H c Hc. apply elem_of_cons in Hc as [->|Hc]; auto.
      * intros H c Hc. apply H. by apply list_elem_of_further.
Qed.

(** Reading back after an update by the same filter, when the [$set] keeps
    the first matching document a match. *)
Lemma findOne_after_update (f : Filter) (u : SetDoc) (d : list Content) :
  (∀ c, matches f c = true → matches f (applySet u c) = true) →
  findOne f (findOneAndUpdate f u d).2 = applySet u <$> findOne f d.
Proof.
  intros Hkeep. induction d as [|c rest IH]; simpl; [done|].
  destruct (matches f c) eqn:Hm.
  - simpl. by rewrite (Hkeep c Hm).
  - destruct (findOneAndUpdate f u rest) as [r rest']. simpl in *. by rewrite Hm.
Qed.

(** ** The first match of a query *)

(** A collection with a match splits around its first match, and an update
    by the same filter rewrites that document in place. *)
Lemma findOne_split (f : Filter) (d : list Content) (c : Content) :
  findOne f d = Some c →
  ∃ l1 l2, d = l1 ++ c :: l2 ∧ findOne f l1 = None ∧ matches f c = true.
Proof.
  induction d as [|c0 rest IH]; simpl; [done|].
  destruct (matches f c0) eqn:Hm.
  - intros [= <-]. by exists [], rest.
  - intros H. destruct (IH H) as (l1 & l2 & -> & Hl1 & Hc).
    exists (c0 :: l1), l2. simpl. by rewrite Hm.
Qed.

Lemma findOne_at_split (f : Filter) (l1 l2 : list Content) (c : Content) :
  findOne f l1 = None → matches f c = true → findOne f (l1 ++ c :: l2) = Some c.
Proof.
  intros Hl1 Hc. induction l1 as [|c0 l1 IH]; simpl in *; [by rewrite Hc|].
  destruct (matches f c0); [done|]. by apply IH.
Qed.

Lemma findOneAndUpdate_at_split (f : Filter) (u : SetDoc) (l1 l2 : list Content) (c : Content) :
  findOne f l1 = None → matches f c = true →
  findOneAndUpdate f u (l1 ++ c :: l2) = (Some (applySet u c), l1 ++ applySet u c :: l2).
Proof.
  intros Hl1 Hc. induction l1 as [|c0 l1 IH]; simpl in *; [by rewrite Hc|].
  destruct (matches f c0); [done|]. by rewrite (IH Hl1).
Qed.

Lemma findOneAndUpdate_no_match (f : Filter) (u : SetDoc) (d : list Content) :
  findOne f d = None → findOneAndUpdate f u d = (None, d).
Proof.
  induction d as [|c0 rest IH]; simpl; [done|].
  destruct (matches f c0); [done|]. intros H. by rewrite (IH H).
Qed.

Lemma deleteOne_at_split (f : Filter) (l1 l2 : list Content) (c : Content) :
  findOne f l1 = None → matches f c = true →
  deleteOne f (l1 ++ c :: l2) = (1, l1 ++ l2).
Proof.
  intros Hl1 Hc. induction l1 as [|c0 l1 IH]; simpl in *; [by rewrite Hc|].
  destruct (matches f c0); [done|]. by rewrite (IH Hl1).
Qed.

Lemma deleteOne_no_match (f : Filter) (d : list Content) :
  findOne f d = None → deleteOne f d = (0, d).
Proof.
  induction d as [|c0 rest IH]; simpl; [done|].
  destruct (matches f c0); [done|]. intros H. by rewrite (IH H).
Qed.

(** ** Running the service functions *)

Ltac run :=
  repeat progress
    (cbv beta iota zeta delta
       [mbind mret M_bind M_ret result_bind result_ret
        dbFindOne dbFindOneAndUpdate dbDeleteOne dbSave publish emit
        getDocs putDocs getJobs putJobs throw tryCatch liftResult castFilter];
     cbn [docs jobs events fst snd
          _id userId topic contentType prompt generatedContent content jobId jobStatus
          Bull.id Bull.name Bull.data Bull.opts Bull.attemptsMade Bull.state
          Bull.progress Bull.returnvalue Bull.failedReason
          Bull.contentId Bull.userId Bull.contentType Bull.topic]).

Lemma updateContentJobStatus_run (j : string) (st : JobStatus) (g : option string) (w : World) :
  let u := ContentService.updateData (findOne (ByJobId j) (docs w)) st g in
  ContentService.updateContentJobStatus j st g w =
    (Ok (findOneAndUpdate (ByJobId j) u (docs w)).1,
     mkWorld (findOneAndUpdate (ByJobId j) u (docs w)).2 (jobs w)
             (events w ++ [EvUpdate (ByJobId j) u])).
Proof.
  unfold ContentService.updateContentJobStatus. destruct w as [d q ev]. run.
  destruct (findOneAndUpdate _ _ d) as [r d']. done.
Qed.

(** A status write without a result changes [jobStatus] only. *)
Lemma updateData_status_only (e : option Content) (st : JobStatus) :
  ContentService.updateData e st None = statusOnly st.
Proof. done. Qed.

Lemma matches_jobId_applySet (j : string) (u : SetDoc) (c : Content) :
  set_jobId u = None → matches (ByJobId j) (applySet u c) = matches (ByJobId j) c.
Proof. intros H. simpl. by rewrite H. Qed.

Lemma castObjectId_Throw (id : string) (e : exn) :
  castObjectId id = Throw e → e = CastError "ObjectId" id "_id".
Proof. unfold castObjectId. destruct (_ && _); [done|]. by intros [= <-]. Qed.

Lemma getContentById_run (id uid : string) (w : World) :
  ContentService.getContentById id uid w =
    match castObjectId id with
    | Throw e => (Throw e, w)
    | Ok o =>
        match findOne (ByIdAndUser o uid) (docs w) with
        | None => (Throw (AppError "Content not found" 404), w)
        | Some c => (Ok c, w)
        end
    end.
Proof.
  unfold ContentService.getContentById. destruct w as [d q ev]. run.
  destruct (castObjectId id) as [o|e]; run; [|done].
  by destruct (findOne _ d).
Qed.

Lemma deleteContent_run (id uid : string) (w : World) :
  ContentService.deleteContent id uid w =
    match castObjectId id with
    | Throw e => (Throw e, w)
    | Ok o =>
        (if bool_decide ((deleteOne (ByIdAndUser o uid) (docs w)).1 = 0)
         then Throw (AppError "Content not found" 404) else Ok (),
         mkWorld (deleteOne (ByIdAndUser o uid) (docs w)).2 (jobs w)
                 (events w ++ [EvDelete (ByIdAndUser o uid)]))
    end.
Proof.
  unfold ContentService.deleteContent. destruct w as [d q ev]. run.
  destruct (castObjectId id) as [o|e]; run; [|done].
  destruct (deleteOne (ByIdAndUser o uid) d) as [n d']. run.
  by destruct (bool_decide (n = 0)).
Qed.

Lemma updateContent_run (id uid : string) (upd : ContentService.Updates) (w : World) :
  ContentService.updateContent id uid upd w =
    match castObjectId id with
    | Throw e => (Throw e, w)
    | Ok o =>
        match ContentService.castUpdates upd with
        | Throw e => (Throw e, w)
        | Ok u =>
            (match (findOneAndUpdate (ByIdAndUser o uid) u (docs w)).1 with
             | Some c => Ok c
             | None => Throw (AppError "Content not found" 404)
             end,
             mkWorld (findOneAndUpdate (ByIdAndUser o uid) u (docs w)).2 (jobs w)
                     (events w ++ [EvUpdate (ByIdAndUser o uid) u]))
        end
    end.
Proof.
  unfold ContentService.updateContent. destruct w as [d q ev]. run.
  destruct (castObjectId id) as [o|e]; run; [|done].
  destruct (ContentService.castUpdates upd) as [u|e]; run; [|done].
  by destruct (findOneAndUpdate _ u d) as [[?|] ?].
Qed.

(** ** Completion writes *)

(** C10: the completion write decides whether to seed [content] by the
    falsiness of [content] in the snapshot [existingContent] that it fetched
    before the write.  With [d0] the collection at the snapshot and [d1] the
    collection at the write, whose first document with the job id is [c1]:
    the write puts [c'] in the place of [c1] and leaves the rest of the
    collection alone, where [c'] is [c1] completed, with the new result as
    [generatedContent], and as [content] too when the snapshot found no
    document, or a document whose [content] is null or the empty string; only
    when the snapshot holds a non-empty [content] does the write leave the
    [content] it meets alone.  [updateContentJobStatus] is this with
    [d0 = d1], and its world afterwards holds that collection. *)
Theorem C10_completion_seeds_on_falsy_snapshot
    (d0 d1 : list Content) (j g : string) (c1 : Content) :
  findOne (ByJobId j) d1 = Some c1 →
  let existing := findOne (ByJobId j) d0 in
  let u := ContentService.updateData existing COMPLETED (Some g) in
  let c' := mkContent (_id c1) (userId c1) (topic c1) (contentType c1) (prompt c1)
              (Some g) (if falsy (existing ≫= content) then Some g else content c1)
              (jobId c1) COMPLETED in
  (∃ l1 l2, d1 = l1 ++ c1 :: l2
            ∧ findOne (ByJobId j) l1 = None
            ∧ findOneAndUpdate (ByJobId j) u d1 = (Some c', l1 ++ c' :: l2)
            ∧ (∀ w, docs w = d1 → d0 = d1 →
                 ContentService.updateContentJobStatus j COMPLETED (Some g) w
                 = (Ok (Some c'),
                    mkWorld (l1 ++ c' :: l2) (jobs w)
                      (events w ++ [EvUpdate (ByJobId j) u]))))
  ∧ (existing = None → content c' = Some g)
  ∧ (∀ c0, existing = Some c0 → content c0 = None → content c' = Some g)
  ∧ (∀ c0, existing = Some c0 → content c0 = Some EmptyString → content c' = Some g)
  ∧ (∀ c0 s, existing = Some c0 → content c0 = Some s → s ≠ EmptyString →
       content c' = content c1).
Proof.
  intros H1. cbv zeta.
  destruct (findOne_split _ _ _ H1) as (l1 & l2 & Hd & Hl1 & Hm).
  set (existing := findOne (ByJobId j) d0).
  set (u := ContentService.updateData existing COMPLETED (Some g)).
  assert (Hc' : applySet u c1
                = mkContent (_id c1) (userId c1) (topic c1) (contentType c1) (prompt c1)
                    (Some g) (if falsy (existing ≫= content) then Some g else content c1)
                    (jobId c1) COMPLETED).
  { subst u. unfold applySet, ContentService.updateData. simpl.
    by destruct (falsy (existing ≫= content)). }
  assert (Hw : findOneAndUpdate (ByJobId j) u d1
               = (Some (applySet u c1), l1 ++ applySet u c1 :: l2))
    by (rewrite Hd; by apply findOneAndUpdate_at_split).
  split; [|split; [|split; [|split]]].
  - exists l1, l2. split; [done|]. split; [done|]. rewrite <- Hc'. split; [done|].
    intros w Hdocs H01. rewrite updateContentJobStatus_run. cbv zeta.
    rewrite Hdocs, <- H01. fold existing. fold u. rewrite H01. by rewrite Hw.
  - by intros ->.
  - intros c0 -> Hc. simpl. by rewrite Hc.
  - intros c0 -> Hc. simpl. by rewrite Hc.
  - intros c0 s0 -> Hc Hs. simpl. rewrite Hc. simpl. by rewrite bool_decide_false.
Qed.

Lemma C10_witness :
  content <$> findOne (ByJobId sampleJobId) (docs Sample.emptied) = Some (Some EmptyString)
  ∧ docs (ContentService.updateContentJobStatus sampleJobId COMPLETED (Some "AI TEXT")
            Sample.emptied).2
    = [mkContent sampleId "u1" "T" ARTICLE (ContentService.generatePrompt ARTICLE "T")
         (Some "AI TEXT") (Some "AI TEXT") (Some sampleJobId) COMPLETED].
Proof.
  split; [reflexivity|].
  destruct (C10_completion_seeds_on_falsy_snapshot
              (docs Sample.emptied) (docs Sample.emptied) sampleJobId "AI TEXT"
              (mkContent sampleId "u1" "T" ARTICLE
                 (ContentService.generatePrompt ARTICLE "T")
                 None (Some EmptyString) (Some sampleJobId) QUEUED) eq_refl)
    as [(l1 & l2 & Hd & _ & _ & Hrun) _].
  rewrite (Hrun Sample.emptied eq_refl eq_refl). cbn [snd docs].
  destruct l1 as [|x [|y l1]], l2 as [|z l2]; try discriminate Hd.
  reflexivity.
Defined.

(** C1, at the input where the code departs from it: a user edit that sets
    [content] to the empty string before the job completes is overwritten by
    the completion write, although [content] was not null. *)
Theorem C1_empty_edit_is_overwritten :
  let edit := JObj (<["content" := JStr EmptyString]> ∅) in
  let w1 := System.step Sample.afterCreate (System.Update (Some "u1") sampleId edit) in
  let w2 := System.step w1 (System.Work (Some "key") (Sample.api "AI TEXT") Sample.job) in
  content <$> findOne (ById sampleId) (docs w1) = Some (Some EmptyString)
  ∧ content <$> findOne (ById sampleId) (docs w2) = Some (Some "AI TEXT")
  ∧ generatedContent <$> findOne (ById sampleId) (docs w2) = Some (Some "AI TEXT").
Proof. vm_compute. done. Qed.

(** ** Status polling *)

(** C2 as stated asks for the persisted data when the job is gone from the
    queue.  In the world of [Pruned] the record is completed and owned by the
    requester, the queue has no job, and the handler does not answer 200. *)
Lemma C2_pruned_job_is_not_found :
  jobs Pruned.world !! sampleJobId = None
  ∧ (∃ c, findOne (ByJobId sampleJobId) (docs Pruned.world) = Some c
        ∧ userId c = "u1" ∧ jobStatus c = COMPLETED)
  ∧ ¬ ∃ r, (ContentController.getJobStatusHandler (Some "u1") sampleJobId Pruned.world).1
             = Ok r
           ∧ ContentController.status r = 200.
Proof.
  split; [done|]. split.
  - eexists. vm_compute. done.
  - intros (r & Hr & Hs). vm_compute in Hr. injection Hr as <-. discriminate Hs.
Qed.

(** C2, as the code has it: when the queue has no job with the polled id, the
    handler answers 404 "Job not found" and does not look at the Content
    record. *)
Theorem C2_absent_job_answers_404 (w : World) (uid jobId : string) :
  jobs w !! jobId = None →
  ContentController.getJobStatusHandler (Some uid) jobId w
    = (Ok (ContentController.mkRes 404 (ContentController.Failure "Job not found")), w).
Proof.
  intros H. unfold ContentController.getJobStatusHandler, ContentQueue.getJobStatus.
  destruct w as [d q ev]. simpl in H. run. by rewrite H.
Qed.

Lemma C2_witness :
  ContentController.getJobStatusHandler (Some "u1") sampleJobId Pruned.world
    = (Ok (ContentController.mkRes 404 (ContentController.Failure "Job not found")),
       Pruned.world).
Proof. apply C2_absent_job_answers_404. reflexivity. Defined.

(** ** Ownership and absence *)

Lemma getJobStatusHandler_not_owned (uid jobId : string) (w : World) :
  (∀ c, findOne (ByJobId jobId) (docs w) = Some c → userId c ≠ uid) →
  ContentController.getJobStatusHandler (Some uid) jobId w
    = (Ok (ContentController.mkRes 404
             (ContentController.Failure
                match jobs w !! jobId with
                | Some _ => "Content not found or access denied"
                | None => "Job not found"
                end)), w).
Proof.
  intros H. unfold ContentController.getJobStatusHandler, ContentQueue.getJobStatus,
    ContentService.getContentByJobId.
  destruct w as [d q ev]. cbn [docs jobs] in *. run.
  destruct (q !! jobId); run; [|done].
  destruct (findOne (ByJobId jobId) d) as [c|]; run; [|done].
  by rewrite bool_decide_false by (by apply H).
Qed.

(** C9 as stated asks for one and the same outcome.  The requester ["u2"]
    polls a job id that no record carries (in the empty world) and the job id
    of a record of ["u1"]: both answers are 404, and their messages differ,
    so that the requester can tell the two apart. *)
Lemma C9_poll_tells_absent_from_foreign :
  findOne (ByJobId sampleJobId) (docs System.initial) = None
  ∧ (∃ c, findOne (ByJobId sampleJobId) (docs Sample.afterCreate) = Some c
          ∧ userId c ≠ "u2")
  ∧ (ContentController.getJobStatusHandler (Some "u2") sampleJobId System.initial).1
    = Ok (ContentController.mkRes 404 (ContentController.Failure "Job not found"))
  ∧ (ContentController.getJobStatusHandler (Some "u2") sampleJobId Sample.afterCreate).1
    = Ok (ContentController.mkRes 404
            (ContentController.Failure "Content not found or access denied"))
  ∧ (ContentController.getJobStatusHandler (Some "u2") sampleJobId System.initial).1
    ≠ (ContentController.getJobStatusHandler (Some "u2") sampleJobId Sample.afterCreate).1.
Proof.
  split; [reflexivity|]. split.
  - eexists. split; [vm_compute; reflexivity|]. simpl. discriminate.
  - split; [reflexivity|]. split; [reflexivity|]. vm_compute. discriminate.
Qed.

(** C9, as the code has it.  A requester who polls a job id gets a 404 both
    when no record carries the job id and when the record belongs to someone
    else, never an authorization error, and the world is left as it was; the
    message is "Job not found" when the queue has no job of that id and
    "Content not found or access denied" when it has one, so the two answers
    are equal exactly when the queue holds the job in both worlds or in
    neither.  A requester who reads a content id gets one and the same answer
    when no record has the id as when the record belongs to someone else: the
    404 "Content not found", or the cast error of an id that is not the text
    of an ObjectId. *)
Theorem C9_absent_and_foreign_alike (w1 w2 : World) (uid : string) :
  (∀ jobId,
     findOne (ByJobId jobId) (docs w1) = None →
     (∃ c, findOne (ByJobId jobId) (docs w2) = Some c ∧ userId c ≠ uid) →
     let answer (w : World) :=
       (Ok (ContentController.mkRes 404
              (ContentController.Failure
                 match jobs w !! jobId with
                 | Some _ => "Content not found or access denied"
                 | None => "Job not found"
                 end)), w) in
     ContentController.getJobStatusHandler (Some uid) jobId w1 = answer w1
     ∧ ContentController.getJobStatusHandler (Some uid) jobId w2 = answer w2
     ∧ ((ContentController.getJobStatusHandler (Some uid) jobId w1).1
          = (ContentController.getJobStatusHandler (Some uid) jobId w2).1
        ↔ (is_Some (jobs w1 !! jobId) ↔ is_Some (jobs w2 !! jobId))))
  ∧ (∀ id,
       (∀ o c, castObjectId id = Ok o → c ∈ docs w1 → _id c ≠ o) →
       (∀ o c, castObjectId id = Ok o → c ∈ docs w2 → _id c = o → userId c ≠ uid) →
       let answer (w : World) :=
         (match castObjectId id with
          | Ok _ => Throw (AppError "Content not found" 404)
          | Throw e => Throw e
          end, w) in
       ContentController.getContentByIdHandler (Some uid) id w1 = answer w1
       ∧ ContentController.getContentByIdHandler (Some uid) id w2 = answer w2).
Proof.
  split.
  - intros jobId H1 (c & H2 & Hne). cbv zeta.
    rewrite !getJobStatusHandler_not_owned.
    + split; [done|]. split; [done|]. cbn [fst].
      destruct (jobs w1 !! jobId) as [j1|], (jobs w2 !! jobId) as [j2|].
      * split; [intros _; split; intros _; eauto|done].
      * split; [intros [=]|]. intros [H _]. destruct H as [x Hx]; [eauto|done].
      * split; [intros [=]|]. intros [_ H]. destruct H as [x Hx]; [eauto|done].
      * split; [intros _; split; by intros [? ?]|done].
    + intros c' Hc'. rewrite H2 in Hc'. by injection Hc' as <-.
    + intros c' Hc'. by rewrite H1 in Hc'.
  - intros id H1 H2. cbv zeta.
    assert (Hnone : ∀ o d, (∀ c, c ∈ d → _id c = o → userId c ≠ uid) →
                           findOne (ByIdAndUser o uid) d = None).
    { intros o d Hd. apply findOne_None. intros c Hc. simpl.
      destruct (bool_decide (_id c = o)) eqn:Hi; [|done].
      apply bool_decide_eq_true in Hi. simpl. apply bool_decide_eq_false. eauto. }
    unfold ContentController.getContentByIdHandler, mbind, M_bind.
    rewrite !getContentById_run.
    destruct (castObjectId id) as [o|e] eqn:Hcast; [|done].
    rewrite (Hnone o (docs w1)), (Hnone o (docs w2)); [done| |].
    + intros c Hc Hi. exact (H2 o c eq_refl Hc Hi).
    + intros c Hc Hi. by destruct (H1 o c eq_refl Hc).
Qed.

Lemma C9_witness :
  ContentController.getJobStatusHandler (Some "u2") sampleJobId Foreign.absent
    = (Ok (ContentController.mkRes 404
             (ContentController.Failure "Content not found or access denied")),
       Foreign.absent)
  ∧ ContentController.getJobStatusHandler (Some "u2") sampleJobId Sample.afterCreate
    = (Ok (ContentController.mkRes 404
             (ContentController.Failure "Content not found or access denied")),
       Sample.afterCreate)
  ∧ ContentController.getContentByIdHandler (Some "u2") sampleId Foreign.absent
    = (Throw (AppError "Content not found" 404), Foreign.absent)
  ∧ ContentController.getContentByIdHandler (Some "u2") sampleId Sample.afterCreate
    = (Throw (AppError "Content not found" 404), Sample.afterCreate).
Proof.
  destruct (C9_absent_and_foreign_alike Foreign.absent Sample.afterCreate "u2") as [HA HB].
  destruct (HA sampleJobId) as (H1 & H2 & _); [reflexivity| |].
  { eexists. split; [vm_compute; reflexivity|]. simpl. discriminate. }
  destruct (HB sampleId) as (H3 & H4).
  { intros o c _ Hc. vm_compute in Hc. by apply elem_of_nil in Hc. }
  { intros o c _ Hc _. vm_compute in Hc. apply list_elem_of_singleton in Hc. subst c.
    simpl. discriminate. }
  split; [exact H1|]. split; [exact H2|]. split; [exact H3|exact H4].
Defined.

(** ** The worker *)

Lemma generateContent_run apiKey api contentType topic (w : World) :
  AiService.generateContent apiKey api contentType topic w
    = (generated apiKey api contentType topic, w).
Proof.
  unfold generated, AiService.generateContent, AiService.initializeClient. run.
  destruct (falsy apiKey); run; [done|].
  destruct (api _) as [text|e]; run.
  - destruct (falsy text); run; done.
  - destruct (instanceofAppError e); done.
Qed.

(** [aiService] never hands an empty text to the worker. *)
Lemma generated_nonempty apiKey api contentType topic (s : string) :
  generated apiKey api contentType topic = Ok s → s ≠ EmptyString.
Proof.
  unfold generated, AiService.generateContent, AiService.initializeClient. run.
  destruct (falsy apiKey); run; [done|].
  destruct (api _) as [[text|]|e]; run; simpl.
  - case_bool_decide; run; [done|]. by intros [= <-].
  - done.
  - by destruct (instanceofAppError e).
Qed.

(** The run of the processor when the collaborator fails. *)
Lemma processor_collaborator_failure apiKey api (job : Bull.Job) (w : World) (e : exn) :
  generated apiKey api (Bull.contentType (Bull.data job)) (Bull.topic (Bull.data job))
    = Throw e →
  let j := Bull.id job in
  Worker.processor apiKey api job w =
    (Throw e,
     mkWorld
       (findOneAndUpdate (ByJobId j) (statusOnly FAILED)
          (findOneAndUpdate (ByJobId j) (statusOnly PROCESSING) (docs w)).2).2
       (jobs w)
       (events w ++ [EvUpdate (ByJobId j) (statusOnly PROCESSING);
                     EvUpdate (ByJobId j) (statusOnly FAILED);
                     EvPublish "job-updates" (failureMessage job e)])).
Proof.
  intros Hg j. unfold Worker.processor.
  unfold tryCatch at 1. unfold mbind at 1, M_bind at 1.
  rewrite updateContentJobStatus_run. cbv zeta. rewrite updateData_status_only.
  unfold mbind at 1, M_bind at 1. rewrite generateContent_run, Hg.
  unfold mbind at 1, M_bind at 1. rewrite updateContentJobStatus_run.
  cbv zeta. rewrite updateData_status_only. simpl docs. simpl jobs. simpl events.
  run. by rewrite <- !app_assoc.
Qed.

Lemma applySet_failed_after_processing (c : Content) :
  applySet (statusOnly FAILED) (applySet (statusOnly PROCESSING) c)
    = applySet (statusOnly FAILED) c.
Proof. by destruct c. Qed.

Lemma statusOnly_keeps_match (j : string) (st : JobStatus) (c : Content) :
  matches (ByJobId j) c = true → matches (ByJobId j) (applySet (statusOnly st) c) = true.
Proof. by rewrite matches_jobId_applySet. Qed.

(** C3: when the collaborator fails in an attempt (whatever the number of
    attempts the job has made or is allowed), the processor marks the record
    of the job failed, publishes [{jobId, contentId, status: failed, error}]
    on the channel ['job-updates'], and throws the same error again to the
    queue. *)
Theorem C3_failed_attempt_recorded_published_rethrown
    apiKey api (job : Bull.Job) (w : World) (e : exn) :
  generated apiKey api (Bull.contentType (Bull.data job)) (Bull.topic (Bull.data job))
    = Throw e →
  let j := Bull.id job in
  let r := (Worker.processor apiKey api job w).1 in
  let w' := (Worker.processor apiKey api job w).2 in
  r = Throw e
  ∧ findOne (ByJobId j) (docs w') = applySet (statusOnly FAILED) <$> findOne (ByJobId j) (docs w)
  ∧ (∀ c', findOne (ByJobId j) (docs w') = Some c' → jobStatus c' = FAILED)
  ∧ (∃ pre, events w' =
       events w ++ pre ++
         [EvPublish "job-updates"
            (JobUpdate.mk j (Bull.contentId (Bull.data job)) FAILED None
               (Some (errorMessage e)))]).
Proof.
  intros Hg j r w'. subst r w'.
  rewrite (processor_collaborator_failure _ _ _ _ _ Hg). fold j. simpl.
  assert (Hread : findOne (ByJobId j)
            (findOneAndUpdate (ByJobId j) (statusOnly FAILED)
               (findOneAndUpdate (ByJobId j) (statusOnly PROCESSING) (docs w)).2).2
          = applySet (statusOnly FAILED) <$> findOne (ByJobId j) (docs w)).
  { rewrite !findOne_after_update by apply statusOnly_keeps_match.
    destruct (findOne (ByJobId j) (docs w)) as [c|]; simpl; [|done].
    by rewrite applySet_failed_after_processing. }
  split; [done|]. split; [done|]. split.
  - intros c' Hc. rewrite Hread in Hc.
    destruct (findOne (ByJobId j) (docs w)) as [c|]; simpl in Hc; [|done].
    by injection Hc as <-.
  - by exists [EvUpdate (ByJobId j) (statusOnly PROCESSING);
               EvUpdate (ByJobId j) (statusOnly FAILED)].
Qed.

Lemma C3_witness :
  (Worker.processor None (Sample.api "AI TEXT") Sample.job Sample.afterCreate).1
    = Throw (AppError "GOOGLE_GENAI_API_KEY is not configured" 500)
  ∧ jobStatus <$> findOne (ByJobId sampleJobId)
      (docs (Worker.processor None (Sample.api "AI TEXT") Sample.job Sample.afterCreate).2)
    = Some FAILED.
Proof.
  destruct (C3_failed_attempt_recorded_published_rethrown None (Sample.api "AI TEXT")
              Sample.job Sample.afterCreate
              (AppError "GOOGLE_GENAI_API_KEY is not configured" 500) eq_refl)
    as (Hr & Hread & _ & _).
  split; [exact Hr|]. cbv zeta in Hread.
  etransitivity; [exact (f_equal (fmap jobStatus) Hread)|reflexivity].
Defined.

Lemma processor_events apiKey api (job : Bull.Job) (w : World) :
  ∃ tr, events (Worker.processor apiKey api job w).2 = events w ++ tr
        ∧ orderly (Bull.id job) tr.
Proof.
  destruct (generated apiKey api (Bull.contentType (Bull.data job))
              (Bull.topic (Bull.data job))) as [g|e] eqn:Hg.
  - unfold Worker.processor.
    unfold tryCatch at 1. unfold mbind at 1, M_bind at 1.
    rewrite updateContentJobStatus_run. cbv zeta. rewrite updateData_status_only.
    unfold mbind at 1, M_bind at 1. rewrite generateContent_run, Hg.
    unfold mbind at 1, M_bind at 1. rewrite updateContentJobStatus_run. cbv zeta.
    cbn [docs jobs events].
    set (d1 := (findOneAndUpdate _ (statusOnly PROCESSING) (docs w)).2).
    set (u := ContentService.updateData _ COMPLETED (Some g)).
    destruct (findOneAndUpdate (ByJobId (Bull.id job)) u d1).1 as [c|].
    + run. eexists. split; [by rewrite <- !app_assoc|].
      left. eexists u, _. split; [reflexivity|]. simpl. auto.
    + unfold throw at 1. cbv beta iota. unfold mbind at 1, M_bind at 1.
      rewrite updateContentJobStatus_run. cbv zeta.
      rewrite updateData_status_only. run.
      eexists. split; [by rewrite <- !app_assoc|].
      right. eexists u, _. split; [reflexivity|]. simpl. auto.
  - rewrite (processor_collaborator_failure _ _ _ _ _ Hg). simpl.
    eexists. split; [reflexivity|].
    left. eexists (statusOnly FAILED), _. split; [reflexivity|]. simpl. auto.
Qed.

(** The run of the processor when the collaborator answers [g] and the
    first record with the job id is [c]. *)
Lemma processor_completes apiKey api (job : Bull.Job) (w : World) (g : string)
    (l1 l2 : list Content) (c : Content) :
  generated apiKey api (Bull.contentType (Bull.data job)) (Bull.topic (Bull.data job))
    = Ok g →
  docs w = l1 ++ c :: l2 →
  findOne (ByJobId (Bull.id job)) l1 = None →
  matches (ByJobId (Bull.id job)) c = true →
  let j := Bull.id job in
  Worker.processor apiKey api job w =
    (Ok (Worker.mkReturn (_id c) j g COMPLETED),
     mkWorld (l1 ++ completedOf c g :: l2) (jobs w)
       (events w ++ [EvUpdate (ByJobId j) (statusOnly PROCESSING);
                     EvUpdate (ByJobId j)
                       (ContentService.updateData
                          (Some (applySet (statusOnly PROCESSING) c)) COMPLETED (Some g));
                     EvPublish "job-updates"
                       (JobUpdate.mk j (_id c) COMPLETED (Some g) None)])).
Proof.
  intros Hg Hd Hl1 Hm j.
  unfold Worker.processor.
  unfold tryCatch at 1. unfold mbind at 1, M_bind at 1.
  rewrite updateContentJobStatus_run. cbv zeta. rewrite updateData_status_only.
  unfold mbind at 1, M_bind at 1. rewrite generateContent_run, Hg.
  unfold mbind at 1, M_bind at 1. rewrite updateContentJobStatus_run. cbv zeta.
  cbn [docs jobs events]. fold j. rewrite Hd.
  rewrite (findOneAndUpdate_at_split _ (statusOnly PROCESSING) _ _ _ Hl1 Hm). cbn [snd].
  assert (Hm1 : matches (ByJobId j) (applySet (statusOnly PROCESSING) c) = true)
    by (by apply statusOnly_keeps_match).
  rewrite (findOne_at_split _ _ _ _ Hl1 Hm1).
  set (u := ContentService.updateData _ COMPLETED (Some g)).
  rewrite (findOneAndUpdate_at_split _ u _ _ _ Hl1 Hm1). cbn [fst snd]. run.
  assert (Hdone : applySet u (applySet (statusOnly PROCESSING) c) = completedOf c g).
  { subst u. unfold completedOf. destruct c as [i us t ct p gc ctn jb js]. simpl.
    by destruct (falsy ctn). }
  rewrite Hdone. by rewrite <- !app_assoc.
Qed.

(** The run of the processor when the collaborator answers and no record
    has the job id. *)
Lemma processor_no_record apiKey api (job : Bull.Job) (w : World) (g : string) :
  generated apiKey api (Bull.contentType (Bull.data job)) (Bull.topic (Bull.data job))
    = Ok g →
  findOne (ByJobId (Bull.id job)) (docs w) = None →
  let j := Bull.id job in
  let e := Error ("Content not found for job ID: " +:+ j) in
  Worker.processor apiKey api job w =
    (Throw e,
     mkWorld (docs w) (jobs w)
       (events w ++ [EvUpdate (ByJobId j) (statusOnly PROCESSING);
                     EvUpdate (ByJobId j)
                       (ContentService.updateData None COMPLETED (Some g));
                     EvUpdate (ByJobId j) (statusOnly FAILED);
                     EvPublish "job-updates" (failureMessage job e)])).
Proof.
  intros Hg Hc. cbv zeta.
  unfold Worker.processor.
  unfold tryCatch at 1. unfold mbind at 1, M_bind at 1.
  rewrite updateContentJobStatus_run. cbv zeta. rewrite updateData_status_only.
  unfold mbind at 1, M_bind at 1. rewrite generateContent_run, Hg.
  unfold mbind at 1, M_bind at 1. rewrite updateContentJobStatus_run. cbv zeta.
  cbn [docs jobs events].
  rewrite (findOneAndUpdate_no_match _ (statusOnly PROCESSING) _ Hc). cbn [snd].
  rewrite Hc. set (u := ContentService.updateData None COMPLETED (Some g)).
  rewrite (findOneAndUpdate_no_match _ u _ Hc). cbn [fst snd].
  unfold throw at 1. cbv beta iota. unfold mbind at 1, M_bind at 1.
  rewrite updateContentJobStatus_run. cbv zeta. rewrite updateData_status_only.
  cbn [docs jobs events].
  rewrite (findOneAndUpdate_no_match _ (statusOnly FAILED) _ Hc). run.
  by rewrite <- !app_assoc.
Qed.

(** A log that ends with its only publish splits around a publish in one
    way. *)
Lemma publish_is_last (ws : list Event) (channel0 : string) (m0 : JobUpdate.t)
    (pre post : list Event) (channel : string) (m : JobUpdate.t) :
  Forall (λ e, ∀ ch' m', e ≠ EvPublish ch' m') ws →
  ws ++ [EvPublish channel0 m0] = pre ++ EvPublish channel m :: post →
  pre = ws ∧ channel = channel0 ∧ m = m0 ∧ post = [].
Proof.
  revert pre. induction ws as [|e ws IH]; intros pre Hws H.
  - destruct pre as [|e1 pre]; simpl in H.
    + by injection H as <- <- <-.
    + injection H as _ H. by destruct pre.
  - apply Forall_cons in Hws as [He Hws].
    destruct pre as [|e1 pre]; simpl in H.
    + injection H as -> _. by destruct (He channel m).
    + injection H as <- H. by destruct (IH pre Hws H) as (-> & -> & -> & ->).
Qed.

(** C4: in a run of the processor, a publish of a transition (completed or
    failed) comes after the store write of that transition, which has been
    awaited, and no store write follows the publish.  The publish is made in
    a world [wp] whose collection already carries the transition: a record
    that had the job id before the run is there with the status of the
    message (and with the generated content and under the content id of a
    completion message), and no record with the job id has another status.
    Nothing but the log changes from [wp] to the end of the run. *)
Theorem C4_store_write_precedes_publish
    apiKey api (job : Bull.Job) (w : World)
    (pre post : list Event) (channel : string) (m : JobUpdate.t) :
  events (Worker.processor apiKey api job w).2
    = events w ++ pre ++ EvPublish channel m :: post →
  (JobUpdate.status m = COMPLETED ∨ JobUpdate.status m = FAILED)
  ∧ (∃ u, EvUpdate (ByJobId (JobUpdate.jobId m)) u ∈ pre
          ∧ set_jobStatus u = Some (JobUpdate.status m))
  ∧ post = []
  ∧ ∃ wp,
      publish channel m wp = (Ok (), (Worker.processor apiKey api job w).2)
      ∧ events wp = events w ++ pre
      ∧ (∀ c, findOne (ByJobId (JobUpdate.jobId m)) (docs w) = Some c →
           ∃ c', findOne (ByJobId (JobUpdate.jobId m)) (docs wp) = Some c'
                 ∧ _id c' = _id c
                 ∧ jobStatus c' = JobUpdate.status m
                 ∧ (JobUpdate.status m = COMPLETED →
                    generatedContent c' = JobUpdate.generatedContent m
                    ∧ JobUpdate.contentId m = _id c'))
      ∧ (∀ c', findOne (ByJobId (JobUpdate.jobId m)) (docs wp) = Some c' →
           jobStatus c' = JobUpdate.status m).
Proof.
  intros H. set (j := Bull.id job).
  assert (Hupd : ∀ l, Forall (λ e, ∀ ch' m', e ≠ EvPublish ch' m')
                        ((λ u, EvUpdate (ByJobId j) u) <$> l)).
  { intros l. apply Forall_fmap, Forall_forall. by intros u _ ch' m'. }
  destruct (generated apiKey api (Bull.contentType (Bull.data job))
              (Bull.topic (Bull.data job))) as [g|e] eqn:Hg.
  - destruct (findOne (ByJobId j) (docs w)) as [c|] eqn:Hc.
    + destruct (findOne_split _ _ _ Hc) as (l1 & l2 & Hd & Hl1 & Hm).
      rewrite (processor_completes _ _ _ _ _ _ _ _ Hg Hd Hl1 Hm) in H |- *.
      cbn [snd events] in H. apply app_inv_head in H. fold j in H |- *.
      set (u := ContentService.updateData _ COMPLETED (Some g)) in *.
      destruct (publish_is_last _ _ _ _ _ _ _
                  (Hupd [statusOnly PROCESSING; u]) H) as (-> & -> & -> & ->).
      assert (Hm' : matches (ByJobId j) (completedOf c g) = true) by exact Hm.
      split; [by left|]. split.
      { exists u. split; [apply list_elem_of_further, list_elem_of_here|done]. }
      split; [done|].
      exists (mkWorld (l1 ++ completedOf c g :: l2) (jobs w)
                (events w ++ [EvUpdate (ByJobId j) (statusOnly PROCESSING);
                              EvUpdate (ByJobId j) u])).
      cbn [JobUpdate.jobId JobUpdate.status JobUpdate.generatedContent JobUpdate.contentId
           docs events snd].
      rewrite (findOne_at_split _ _ _ _ Hl1 Hm'), Hc.
      split; [run; by rewrite <- !app_assoc|]. split; [done|]. split.
      * intros c0 [= <-]. eexists. split; [done|]. done.
      * by intros c' [= <-].
    + rewrite (processor_no_record _ _ _ _ _ Hg Hc) in H |- *.
      cbn [snd events] in H. apply app_inv_head in H. fold j in H |- *.
      set (u := ContentService.updateData None COMPLETED (Some g)) in *.
      destruct (publish_is_last _ _ _ _ _ _ _
                  (Hupd [statusOnly PROCESSING; u; statusOnly FAILED]) H)
        as (-> & -> & -> & ->).
      split; [by right|]. split.
      { exists (statusOnly FAILED). split; [|done].
        do 2 apply list_elem_of_further. apply list_elem_of_here. }
      split; [done|].
      exists (mkWorld (docs w) (jobs w)
                (events w ++ [EvUpdate (ByJobId j) (statusOnly PROCESSING);
                              EvUpdate (ByJobId j) u;
                              EvUpdate (ByJobId j) (statusOnly FAILED)])).
      cbn [failureMessage JobUpdate.jobId JobUpdate.status docs events snd].
      unfold failureMessage. cbn [JobUpdate.jobId JobUpdate.status]. fold j. rewrite Hc.
      split; [run; by rewrite <- !app_assoc|]. done.
  - rewrite (processor_collaborator_failure _ _ _ _ _ Hg) in H |- *.
    cbn [snd events] in H. apply app_inv_head in H. fold j in H |- *.
    destruct (publish_is_last _ _ _ _ _ _ _
                (Hupd [statusOnly PROCESSING; statusOnly FAILED]) H)
      as (-> & -> & -> & ->).
    split; [by right|]. split.
    { exists (statusOnly FAILED). split; [|done].
      apply list_elem_of_further, list_elem_of_here. }
    split; [done|].
    set (d' := (findOneAndUpdate (ByJobId j) (statusOnly FAILED)
                  (findOneAndUpdate (ByJobId j) (statusOnly PROCESSING) (docs w)).2).2).
    assert (Hread : findOne (ByJobId j) d'
                    = applySet (statusOnly FAILED) <$> findOne (ByJobId j) (docs w)).
    { subst d'. rewrite !findOne_after_update by apply statusOnly_keeps_match.
      destruct (findOne (ByJobId j) (docs w)) as [c|]; simpl; [|done].
      by rewrite applySet_failed_after_processing. }
    exists (mkWorld d' (jobs w)
              (events w ++ [EvUpdate (ByJobId j) (statusOnly PROCESSING);
                            EvUpdate (ByJobId j) (statusOnly FAILED)])).
    unfold failureMessage. cbn [JobUpdate.jobId JobUpdate.status docs events snd].
    fold j. rewrite Hread.
    split; [run; by rewrite <- !app_assoc|]. split; [done|]. split.
    + intros c ->. eexists. split; [done|]. done.
    + destruct (findOne (ByJobId j) (docs w)) as [c|]; simpl; [|done]. by intros c' [= <-].
Qed.

Lemma C4_witness :
  ∃ wp,
    publish "job-updates"
      (JobUpdate.mk sampleJobId sampleId COMPLETED (Some "AI TEXT") None) wp
    = (Ok (), Pruned.completed)
    ∧ (generatedContent <$> findOne (ByJobId sampleJobId) (docs wp) = Some (Some "AI TEXT")
       ∧ jobStatus <$> findOne (ByJobId sampleJobId) (docs wp) = Some COMPLETED).
Proof.
  destruct (C4_store_write_precedes_publish (Some "key") (Sample.api "AI TEXT") Sample.job
              Sample.afterCreate
              [EvUpdate (ByJobId sampleJobId) (statusOnly PROCESSING);
               EvUpdate (ByJobId sampleJobId)
                 (mkSet None (Some "AI TEXT") (Some "AI TEXT") None (Some COMPLETED))]
              [] "job-updates"
              (JobUpdate.mk sampleJobId sampleId COMPLETED (Some "AI TEXT") None)
              eq_refl)
    as (_ & _ & _ & wp & Hpub & _ & Hbefore & _).
  exists wp. split; [exact Hpub|].
  destruct (Hbefore (mkContent sampleId "u1" "T" ARTICLE
                       (ContentService.generatePrompt ARTICLE "T")
                       None None (Some sampleJobId) QUEUED) eq_refl)
    as (c' & Hc' & _ & Hst & Hgen).
  cbn [JobUpdate.jobId JobUpdate.status JobUpdate.generatedContent] in *.
  rewrite Hc'. simpl. by rewrite Hst, (proj1 (Hgen eq_refl)).
Defined.

(** ** User updates *)

Lemma validateTopic_Ok (t t' : string) :
  validateTopic t = Ok t' → t' = t ∧ t ≠ EmptyString ∧ String.length t ≤ 500.
Proof.
  unfold validateTopic. case_bool_decide as He; [done|].
  destruct (500 <? String.length t) eqn:Hl; [done|].
  intros [= <-]. apply Nat.ltb_ge in Hl. done.
Qed.

Lemma castUpdates_Ok (upd : ContentService.Updates) (u : SetDoc) :
  ContentService.castUpdates upd = Ok u →
  u = mkSet (trim <$> ContentService.upd_topic upd) (ContentService.upd_content upd)
        None None None
  ∧ (∀ t, ContentService.upd_topic upd = Some t → validateTopic (trim t) = Ok (trim t)).
Proof.
  unfold ContentService.castUpdates. run.
  destruct (ContentService.upd_topic upd) as [t|]; run.
  - destruct (validateTopic (trim t)) as [t'|e] eqn:Hv; run; [|done].
    pose proof (validateTopic_Ok _ _ Hv) as [-> _].
    intros [= <-]. split; [done|]. by intros t0 [= <-].
  - intros [= <-]. done.
Qed.

Lemma updateContentHandler_run (uid id : string) (reqBody : json) (w : World) :
  ContentController.updateContentHandler (Some uid) id reqBody w =
    match ContentController.parseUpdate reqBody with
    | Throw e => (Throw e, w)
    | Ok upd =>
        match ContentService.updateContent id uid upd w with
        | (Ok c, w') =>
            (Ok (ContentController.mkRes 200
                   (ContentController.Edited "Content updated successfully"
                      (_id c) (topic c) (contentType c)
                      (generatedContent c) (content c) (jobStatus c))), w')
        | (Throw e, w') => (Throw e, w')
        end
    end.
Proof.
  unfold ContentController.updateContentHandler. run.
  by destruct (ContentController.parseUpdate reqBody).
Qed.

(** What a user update does to the collection: nothing, or one [$set] of
    [topic] and [content] on a document of the requester. *)
Lemma updateContentHandler_docs (user : option string) (id : string) (reqBody : json)
    (w : World) :
  let w' := (ContentController.updateContentHandler user id reqBody w).2 in
  jobs w' = jobs w
  ∧ (docs w' = docs w
     ∨ ∃ uid o t c, user = Some uid
         ∧ castObjectId id = Ok o
         ∧ docs w' = (findOneAndUpdate (ByIdAndUser o uid) (mkSet t c None None None)
                        (docs w)).2).
Proof.
  destruct user as [uid|]; [|simpl; auto].
  cbv zeta. rewrite updateContentHandler_run.
  destruct (ContentController.parseUpdate reqBody) as [upd|e]; [|simpl; auto].
  rewrite updateContent_run.
  destruct (castObjectId id) as [o|e] eqn:Hcast; [|simpl; auto].
  destruct (ContentService.castUpdates upd) as [u|e] eqn:Hu; [|simpl; auto].
  apply castUpdates_Ok in Hu as [-> _].
  destruct (findOneAndUpdate _ _ (docs w)) as [[c|] d'] eqn:Hw; simpl;
    (split; [done|]; right; do 4 eexists; split; [done|]; split; [done|];
     by rewrite Hw).
Qed.

(** C8: whatever the body of a user update (PUT content/:id), and whoever
    sends it, every document keeps its [generatedContent], [jobStatus],
    [prompt] and [jobId] (and its [_id], [userId] and [contentType]): only
    [topic] and [content] can differ afterwards. *)
Theorem C8_update_touches_topic_and_content_only
    (user : option string) (id : string) (reqBody : json) (w : World) :
  Forall2 sameButTopicAndContent
    (docs w) (docs (ContentController.updateContentHandler user id reqBody w).2).
Proof.
  destruct (updateContentHandler_docs user id reqBody w)
    as [_ [-> | (uid & o & t & c & _ & _ & ->)]].
  - induction (docs w); constructor; [by repeat split|done].
  - eapply Forall2_impl; [apply findOneAndUpdate_pointwise|].
    intros x y [-> | [_ ->]]; by repeat split.
Qed.

(** A body that tries to set the protected fields changes none of them. *)
Example update_ignores_protected_keys :
  let body := JObj (<["generatedContent" := JStr "forged"]>
                   (<["jobStatus" := JStr "completed"]>
                   (<["jobId" := JStr "content-other"]>
                   (<["prompt" := JStr "forged"]>
                   (<["content" := JStr "edited"]> ∅))))) in
  docs (System.step Pruned.completed (System.Update (Some "u1") sampleId body))
  = [applySet (mkSet None (Some "edited") None None None)
       (mkContent sampleId "u1" "T" ARTICLE (ContentService.generatePrompt ARTICLE "T")
          (Some "AI TEXT") (Some "AI TEXT") (Some sampleJobId) COMPLETED)].
Proof. vm_compute. reflexivity. Qed.

(** ** How operations change the collection *)

Lemma findOneAndUpdate_ids (f : Filter) (u : SetDoc) (d : list Content) :
  _id <$> (findOneAndUpdate f u d).2 = _id <$> d.
Proof.
  induction d as [|c rest IH]; simpl; [done|].
  destruct (matches f c); [done|].
  destruct (findOneAndUpdate f u rest) as [r rest']. simpl in *. by f_equal.
Qed.

Lemma deleteOne_sublist (f : Filter) (d : list Content) :
  sublist (deleteOne f d).2 d.
Proof.
  induction d as [|c rest IH]; simpl; [constructor|].
  destruct (matches f c); simpl.
  - by apply sublist_cons.
  - destruct (deleteOne f rest) as [n rest']. simpl in *. by apply sublist_skip.
Qed.

Lemma findOne_ById_None (i : string) (d : list Content) :
  findOne (ById i) d = None ↔ i ∉ _id <$> d.
Proof.
  rewrite findOne_None, list_elem_of_fmap. split.
  - intros H (c & -> & Hc). specialize (H c Hc). simpl in H.
    by apply bool_decide_eq_false in H.
  - intros H c Hc. simpl. apply bool_decide_eq_false. intros <-. apply H. eauto.
Qed.

Lemma Forall2_transfer {A : Type} (R : A → A → Prop) (P : A → Prop) (l l' : list A) :
  Forall2 R l l' → Forall P l → (∀ x y, R x y → P x → P y) → Forall P l'.
Proof.
  intros HR HP Hstep. induction HR as [|x y l l' Hxy _ IH]; [constructor|].
  apply Forall_cons in HP as [Hx HP]. constructor; eauto.
Qed.

Lemma evolves_consistent (d d' : list Content) :
  evolves d d' → consistent d → consistent d'.
Proof.
  induction 1 as [d|d1 d2 d3 _ IH1 _ IH2|f u d Hj Hg|f d|c d Hnew Hg Hj]; auto.
  - intros [Hnd Hall]. split; [by rewrite findOneAndUpdate_ids|].
    eapply Forall2_transfer; [apply (findOneAndUpdate_pointwise f u d)|done|].
    intros x y [-> | [_ ->]] [Hx1 Hx2]; [done|]. simpl. rewrite Hj. split; [|done].
    destruct (set_generatedContent u); congruence.
  - intros [Hnd Hall]. pose proof (deleteOne_sublist f d) as Hsub. split.
    + eapply sublist_NoDup; [done|]. by apply fmap_sublist.
    + eapply Forall_forall. intros c Hc.
      eapply (proj1 (Forall_forall _ _) Hall). by eapply elem_of_sublist.
  - intros [Hnd Hall]. split.
    + rewrite fmap_app. simpl. apply NoDup_app. split; [done|]. split.
      * intros i Hi Hin. apply list_elem_of_singleton in Hin as ->.
        by apply findOne_ById_None in Hnew.
      * apply NoDup_singleton.
    + apply Forall_app. split; [done|]. constructor; [|done]. split; [|done].
      by rewrite Hg.
Qed.

Lemma evolves_carriesJobId (oid : string) (d d' : list Content) :
  evolves d d' → carriesJobId oid d → carriesJobId oid d'.
Proof.
  induction 1 as [d|d1 d2 d3 _ IH1 _ IH2|f u d Hj Hg|f d|c d Hnew Hg Hj]; auto.
  - intros Hd c' Hc'.
    pose proof (findOneAndUpdate_pointwise f u d) as Hpw.
    apply list_elem_of_lookup in Hc' as [i Hi].
    destruct (Forall2_lookup_r _ _ _ _ _ Hpw Hi) as (c & Hc & Hrel).
    apply list_elem_of_lookup_2 in Hc.
    destruct Hrel as [-> | [_ ->]]; [by apply Hd|].
    simpl. rewrite Hj. by apply Hd.
  - intros Hd c Hc. apply Hd. eapply elem_of_sublist; [done|apply deleteOne_sublist].
  - intros Hd c' Hc'. apply elem_of_app in Hc' as [Hc'|Hc']; [by apply Hd|].
    apply list_elem_of_singleton in Hc' as ->. by intros <-.
Qed.

Lemma findOneAndUpdate_app_new (f : Filter) (u : SetDoc) (d : list Content) (c : Content) :
  findOne f d = None → matches f c = true →
  findOneAndUpdate f u (d ++ [c]) = (Some (applySet u c), d ++ [applySet u c]).
Proof.
  intros Hd Hc. induction d as [|c0 rest IH]; simpl in *.
  - by rewrite Hc.
  - destruct (matches f c0); [done|]. by rewrite (IH Hd).
Qed.

Lemma wellKeyed_insert (q : gmap string Bull.Job) (k : string) (job : Bull.Job) :
  wellKeyed q → Bull.id job = k → wellKeyed (<[k := job]> q).
Proof.
  intros Hq Hk k' job' H. destruct (decide (k = k')) as [<-|Hne].
  - rewrite lookup_insert_eq in H. by injection H as <-.
  - rewrite lookup_insert_ne in H by done. by apply Hq.
Qed.

(** What a creation request does: it throws and leaves the collection and
    the queue as they were, or it inserts one document that carries the job
    id ["content-" + oid] and answers 202 with that job id. *)
Lemma createContentHandler_spec (uid : string) (reqBody : json) (oid : string) (w : World) :
  wellKeyed (jobs w) →
  let r := (ContentController.createContentHandler (Some uid) reqBody oid w).1 in
  let w' := (ContentController.createContentHandler (Some uid) reqBody oid w).2 in
  wellKeyed (jobs w')
  ∧ ((docs w' = docs w ∧ jobs w' = jobs w ∧ ∃ e, r = Throw e)
     ∨ ∃ topic ct,
         let c := mkContent oid uid (trim topic) ct
                    (trim (ContentService.generatePrompt ct topic))
                    None None (Some ("content-" +:+ oid)) QUEUED in
         findOne (ById oid) (docs w) = None
         ∧ docs w' = docs w ++ [c]
         ∧ r = Ok (ContentController.mkRes 202
                     (ContentController.Queued "Content generation job queued successfully"
                        oid (trim topic) ct (Some ("content-" +:+ oid)) QUEUED
                        ("content-" +:+ oid) "1 minute"))
         ∧ ∃ job, jobs w' !! ("content-" +:+ oid) = Some job
                  ∧ Bull.id job = "content-" +:+ oid).
Proof.
  intros Hq.
  unfold ContentController.createContentHandler, ContentService.createContent,
    ContentQueue.addContentGenerationJob, ContentQueue.add, dbSaveNew.
  destruct w as [d q ev]. simpl in Hq. run.
  destruct (ContentController.parseCreate reqBody) as [[topic ct]|e]; run; [|eauto 10].
  destruct (validateTopic (trim topic)) as [t|e]; run; [|eauto 10].
  destruct (validatePrompt _) as [p|e]; run; [|eauto 10].
  destruct (findOne (ById oid) d) eqn:Hnew; run; [eauto 10|].
  destruct (q !! ("content-" +:+ oid)) as [job|] eqn:Hjob; run.
  - rewrite (Hq _ _ Hjob).
    rewrite findOneAndUpdate_app_new by (done || (simpl; by rewrite bool_decide_true)).
    run. split; [done|]. right. exists topic, ct. simpl. eauto 10.
  - rewrite findOneAndUpdate_app_new by (done || (simpl; by rewrite bool_decide_true)).
    run. split; [by apply wellKeyed_insert|]. right. exists topic, ct. simpl.
    split; [done|]. split; [done|]. split; [done|].
    eexists. by rewrite lookup_insert_eq.
Qed.

Lemma rollbackContent_run (id uid : string) (w : World) :
  ContentService.rollbackContent id uid w =
    match castObjectId id with
    | Throw e => (Throw e, w)
    | Ok o =>
        match findOne (ByIdAndUser o uid) (docs w) with
        | None => (Throw (AppError "Content not found" 404), w)
        | Some c =>
            if falsy (generatedContent c) then
              (Throw (AppError "No generated content available to rollback to" 400), w)
            else
              let m := mkSet None (generatedContent c) None None None in
              (match (findOneAndUpdate (ById (_id c)) m (docs w)).1 with
               | Some _ => Ok (applySet m c)
               | None => Throw (Error "DocumentNotFoundError")
               end,
               mkWorld (findOneAndUpdate (ById (_id c)) m (docs w)).2 (jobs w)
                       (events w ++ [EvUpdate (ById (_id c)) m]))
        end
    end.
Proof.
  unfold ContentService.rollbackContent. destruct w as [d q ev]. run.
  destruct (castObjectId id) as [o|e]; run; [|done].
  destruct (findOne (ByIdAndUser o uid) d) as [c|]; run; [|done].
  destruct (falsy (generatedContent c)); run; [done|].
  unfold applySet at 1. run.
  by destruct (findOneAndUpdate (ById (_id c)) _ d) as [[?|] ?].
Qed.

Lemma processor_docs apiKey api (job : Bull.Job) (w : World) :
  ∃ r d' ev', Worker.processor apiKey api job w = (r, mkWorld d' (jobs w) ev')
              ∧ evolves (docs w) d'.
Proof.
  assert (Hst : ∀ st d, evolves d (findOneAndUpdate (ByJobId (Bull.id job)) (statusOnly st) d).2)
    by (intros; by apply evolves_update).
  destruct (generated apiKey api (Bull.contentType (Bull.data job))
              (Bull.topic (Bull.data job))) as [g|e] eqn:Hg.
  - unfold Worker.processor.
    unfold tryCatch at 1. unfold mbind at 1, M_bind at 1.
    rewrite updateContentJobStatus_run. cbv zeta. rewrite updateData_status_only.
    unfold mbind at 1, M_bind at 1. rewrite generateContent_run, Hg.
    unfold mbind at 1, M_bind at 1. rewrite updateContentJobStatus_run. cbv zeta.
    cbn [docs jobs events].
    set (d1 := (findOneAndUpdate _ (statusOnly PROCESSING) (docs w)).2).
    set (u := ContentService.updateData _ COMPLETED (Some g)).
    assert (Hu : evolves (docs w) (findOneAndUpdate (ByJobId (Bull.id job)) u d1).2).
    { eapply evolves_trans; [apply Hst|]. apply evolves_update; [done|].
      simpl. intros [= ->]. by apply generated_nonempty in Hg. }
    destruct (findOneAndUpdate (ByJobId (Bull.id job)) u d1).1 as [c|].
    + run. eauto.
    + unfold throw at 1. cbv beta iota. unfold mbind at 1, M_bind at 1.
      rewrite updateContentJobStatus_run. cbv zeta.
      rewrite updateData_status_only. run. do 3 eexists. split; [reflexivity|].
      eapply evolves_trans; [apply Hu|apply Hst].
  - rewrite (processor_collaborator_failure _ _ _ _ _ Hg). do 3 eexists.
    split; [reflexivity|]. eapply evolves_trans; apply Hst.
Qed.

(** Every operation of the system changes the collection by [evolves] and
    keeps the queue well keyed. *)
Ltac stay := simpl; split; [apply evolves_refl|done].

Lemma step_evolves (w : World) (o : System.Op) :
  wellKeyed (jobs w) →
  evolves (docs w) (docs (System.step w o)) ∧ wellKeyed (jobs (System.step w o)).
Proof.
  intros Hq. destruct o as [u b oid|u i|u i b|u i|u i|u j|k api job]; simpl.
  - destruct u as [uid|]; [|stay].
    destruct (createContentHandler_spec uid b oid w Hq)
      as [Hq' [(-> & _ & _) | (t & ct & Hnew & -> & _)]].
    + stay.
    + split; [by apply evolves_create|done].
  - unfold ContentController.getContentByIdHandler.
    destruct u as [uid|]; [|stay].
    unfold mbind, M_bind. rewrite getContentById_run.
    destruct (castObjectId i) as [o|e]; [|stay].
    destruct (findOne _ (docs w)); stay.
  - destruct (updateContentHandler_docs u i b w)
      as [-> [-> | (uid & o & t & c & _ & _ & ->)]].
    + stay.
    + split; [by apply evolves_update|done].
  - unfold ContentController.deleteContentHandler.
    destruct u as [uid|]; [|stay].
    unfold mbind, M_bind. rewrite deleteContent_run.
    destruct (castObjectId i) as [o|e]; [|stay].
    pose proof (evolves_delete (ByIdAndUser o uid) (docs w)) as Hd.
    by destruct (bool_decide _).
  - unfold ContentController.rollbackContentHandler.
    destruct u as [uid|]; [|stay].
    unfold mbind, M_bind. rewrite rollbackContent_run.
    destruct (castObjectId i) as [o|e]; [|stay].
    destruct (findOne (ByIdAndUser o uid) (docs w)) as [c|]; [|stay].
    destruct (falsy (generatedContent c)); [stay|].
    cbv zeta.
    pose proof (evolves_update (ById (_id c)) (mkSet None (generatedContent c) None None None)
                  (docs w) eq_refl) as Hd.
    destruct (findOneAndUpdate (ById (_id c)) _ (docs w)) as [[c'|] d']; run;
      (split; [apply Hd; discriminate|done]).
  - unfold ContentController.getJobStatusHandler, ContentQueue.getJobStatus,
      ContentService.getContentByJobId.
    destruct w as [d q ev], u as [uid|]; run; [|stay].
    destruct (q !! j); run; [|stay].
    destruct (findOne _ d) as [c|]; run; [|stay].
    destruct (bool_decide (userId c = uid)); run; stay.
  - destruct (processor_docs k api job w) as (r & d' & ev' & -> & Hd). done.
Qed.

Lemma exec_evolves (ops : list System.Op) (w : World) :
  wellKeyed (jobs w) →
  evolves (docs w) (docs (System.exec w ops)) ∧ wellKeyed (jobs (System.exec w ops)).
Proof.
  revert w. induction ops as [|o ops IH]; intros w Hq; simpl.
  - split; [constructor|done].
  - destruct (step_evolves w o Hq) as [H1 Hq1].
    destruct (IH _ Hq1) as [H2 Hq2]. split; [|done].
    eapply evolves_trans; [apply H1|apply H2].
Qed.

Lemma reachable_consistent (w : World) :
  System.reachable w → consistent (docs w) ∧ wellKeyed (jobs w).
Proof.
  intros [ops <-].
  assert (Hq0 : wellKeyed (jobs System.initial)) by (intros k job H; done).
  destruct (exec_evolves ops System.initial Hq0) as [Hev Hq]. split; [|done].
  apply (evolves_consistent _ _ Hev). split; [constructor|constructor].
Qed.

(** ** Rollback *)

Lemma save_of_owned (i uid : string) (m : SetDoc) (d : list Content) (c : Content) :
  NoDup (_id <$> d) →
  findOne (ByIdAndUser i uid) d = Some c →
  (findOneAndUpdate (ById (_id c)) m d).1 = Some (applySet m c)
  ∧ findOne (ByIdAndUser i uid) (findOneAndUpdate (ById (_id c)) m d).2
    = Some (applySet m c).
Proof.
  intros Hnd Hc. destruct (findOne_matches _ _ _ Hc) as [Hm _].
  simpl in Hm. apply andb_prop in Hm as [Hi Hu].
  apply bool_decide_eq_true in Hi. apply bool_decide_eq_true in Hu.
  rewrite Hi.
  induction d as [|c0 rest IH]; simpl in *; [done|].
  apply NoDup_cons in Hnd as [Hc0 Hnd].
  destruct (bool_decide (_id c0 = i)) eqn:H0; simpl in *.
  - destruct (bool_decide (userId c0 = uid)) eqn:H1; simpl in *.
    + injection Hc as ->. simpl. by rewrite H0.
    + exfalso. destruct (findOne_matches _ _ _ Hc) as [_ Hin].
      apply bool_decide_eq_true in H0. apply Hc0. rewrite H0, <- Hi.
      apply list_elem_of_fmap. eauto.
  - destruct (IH Hnd Hc) as [IH1 IH2].
    destruct (findOneAndUpdate (ById i) m rest) as [r rest']. simpl in *.
    by rewrite H0.
Qed.

Lemma unique_by_id (d : list Content) (c : Content) :
  NoDup (_id <$> d) → c ∈ d → findOne (ById (_id c)) d = Some c.
Proof.
  induction d as [|c0 rest IH]; intros Hnd Hc; [by apply elem_of_nil in Hc|].
  rewrite fmap_cons in Hnd. apply NoDup_cons in Hnd as [Hc0 Hnd]. simpl.
  apply elem_of_cons in Hc as [->|Hc]; [by rewrite bool_decide_true|].
  rewrite bool_decide_false; [by apply IH|].
  intros Heq. apply Hc0. rewrite Heq. apply list_elem_of_fmap. eauto.
Qed.

(** C7: in every world that the system can reach, [rollbackContent] fails
    with status 400 exactly when the record of the requester has a null
    [generatedContent]; when the record has a generated content, rollback
    returns the record with [content] set to it and with [generatedContent],
    [jobStatus] and every other field as they were, and stores it in the
    place of the record.  The record of the requester is the one whose [_id]
    is the ObjectId that the id of the request is cast to; an id that cannot
    be cast throws the cast error, and an id of no record of the requester
    throws 404, both without a write. *)
Theorem C7_rollback_fails_iff_no_generated_content (w : World) (id uid : string) :
  System.reachable w →
  let r := (ContentService.rollbackContent id uid w).1 in
  let w' := (ContentService.rollbackContent id uid w).2 in
  ((∃ msg, r = Throw (AppError msg 400))
     ↔ ∃ o c, castObjectId id = Ok o
              ∧ findOne (ByIdAndUser o uid) (docs w) = Some c
              ∧ generatedContent c = None)
  ∧ (∀ o c g, castObjectId id = Ok o →
       findOne (ByIdAndUser o uid) (docs w) = Some c → generatedContent c = Some g →
       let c' := mkContent (_id c) (userId c) (topic c) (contentType c) (prompt c)
                   (Some g) (Some g) (jobId c) (jobStatus c) in
       r = Ok c'
       ∧ findOne (ByIdAndUser o uid) (docs w') = Some c'
       ∧ (∃ l1 l2, docs w = l1 ++ c :: l2 ∧ docs w' = l1 ++ c' :: l2)
       ∧ jobs w' = jobs w)
  ∧ (∀ e, castObjectId id = Throw e → r = Throw e ∧ w' = w)
  ∧ (∀ o, castObjectId id = Ok o → findOne (ByIdAndUser o uid) (docs w) = None →
       r = Throw (AppError "Content not found" 404) ∧ w' = w).
Proof.
  intros Hreach r w'. subst r w'.
  destruct (reachable_consistent w Hreach) as [[Hnd Hall] _].
  rewrite rollbackContent_run.
  destruct (castObjectId id) as [o|e] eqn:Hcast.
  2: { pose proof (castObjectId_Throw _ _ Hcast) as ->. cbn [fst snd].
       split; [split; [by intros [msg ?]|by intros (o & c & ? & _)]|].
       split; [done|]. split; [by intros e0 [= <-]|done]. }
  destruct (findOne (ByIdAndUser o uid) (docs w)) as [c|] eqn:Hc.
  2: { cbn [fst snd]. split; [split; [by intros [msg ?]|]|].
       - intros (o0 & c & [= <-] & Hc0 & _). by rewrite Hc in Hc0.
       - split; [intros o0 c g [= <-] Hc0; by rewrite Hc in Hc0|]. split; [done|].
         by intros o0 [= <-] _. }
  destruct (findOne_matches _ _ _ Hc) as [_ Hin].
  destruct (proj1 (Forall_forall _ _) Hall c Hin) as [Hne _].
  destruct (generatedContent c) as [g|] eqn:Hg; cbn [falsy].
  - rewrite bool_decide_false by congruence. cbv zeta.
    set (m := mkSet None (Some g) None None None).
    assert (Hc' : applySet m c
                  = mkContent (_id c) (userId c) (topic c) (contentType c) (prompt c)
                      (Some g) (Some g) (jobId c) (jobStatus c))
      by (unfold applySet; simpl; by rewrite Hg).
    pose proof (unique_by_id _ _ Hnd Hin) as Hby.
    destruct (findOne_split _ _ _ Hby) as (l1 & l2 & Hd & Hl1 & Hm).
    destruct (save_of_owned o uid m (docs w) c Hnd Hc) as [_ Hs].
    rewrite Hd in Hs, Hc |- *.
    rewrite (findOneAndUpdate_at_split _ m _ _ _ Hl1 Hm) in Hs |- *.
    cbn [fst snd docs jobs] in *. rewrite Hc' in Hs |- *.
    split; [split; [by intros [msg ?]|]|].
    + intros (o0 & c0 & [= <-] & Hc0 & Hg0). rewrite Hc in Hc0.
      injection Hc0 as <-. congruence.
    + split; [|split; [done|by intros o0 [= <-]; rewrite Hc]].
      intros o0 c0 g0 [= <-] Hc0 Hg0. rewrite Hc in Hc0. injection Hc0 as <-.
      rewrite Hg in Hg0. injection Hg0 as <-.
      split; [done|]. split; [exact Hs|]. split; [eauto|done].
  - cbn [fst snd]. split; [split; [eauto 10|eauto]|].
    split; [intros o0 c0 g0 [= <-] Hc0 Hg0; congruence|].
    split; [done|]. intros o0 [= <-]. congruence.
Qed.

Lemma C7_witness :
  ∃ c', (ContentService.rollbackContent sampleId "u1" Sample.edited).1 = Ok c'
        ∧ content c' = Some "AI TEXT".
Proof.
  destruct (C7_rollback_fails_iff_no_generated_content Sample.edited sampleId "u1"
              (ex_intro _ Sample.history eq_refl)) as (_ & H & _).
  destruct (H sampleId
              (mkContent sampleId "u1" "T" ARTICLE (ContentService.generatePrompt ARTICLE "T")
                 (Some "AI TEXT") (Some "edited") (Some sampleJobId) COMPLETED)
              "AI TEXT" eq_refl eq_refl eq_refl) as (Hr & _).
  eexists. split; [exact Hr|reflexivity].
Defined.

(** ** Job ids *)

Lemma findOne_app_new (f : Filter) (d : list Content) (c : Content) :
  findOne f d = None → matches f c = true → findOne f (d ++ [c]) = Some c.
Proof.
  intros Hd Hc. induction d as [|c0 rest IH]; simpl in *.
  - by rewrite Hc.
  - destruct (matches f c0); [done|]. by apply IH.
Qed.

(** C6: a creation request that succeeds answers with the job id
    ["content-" + id] of the new record, the queue holds the job under that
    id, the record stores it as its [jobId], and whatever requests and worker
    runs follow, a read of the record finds the same [jobId]. *)
Theorem C6_jobId_is_content_id_prefixed_and_stable
    (w w' : World) (uid : string) (reqBody : json) (oid : string)
    (res : ContentController.Response) :
  wellKeyed (jobs w) →
  ContentController.createContentHandler (Some uid) reqBody oid w = (Ok res, w') →
  (∃ msg t ct st delay,
      res = ContentController.mkRes 202
              (ContentController.Queued msg oid t ct (Some ("content-" +:+ oid)) st
                 ("content-" +:+ oid) delay))
  ∧ (∃ job, jobs w' !! ("content-" +:+ oid) = Some job ∧ Bull.id job = "content-" +:+ oid)
  ∧ (∃ c, findOne (ById oid) (docs w') = Some c
          ∧ userId c = uid ∧ jobId c = Some ("content-" +:+ oid))
  ∧ (∀ ops c, findOne (ById oid) (docs (System.exec w' ops)) = Some c →
              jobId c = Some ("content-" +:+ oid)).
Proof.
  intros Hq Hrun.
  destruct (createContentHandler_spec uid reqBody oid w Hq) as [Hq' Hcases].
  rewrite Hrun in Hq', Hcases. simpl in Hq', Hcases.
  destruct Hcases as [(_ & _ & e & He) | (t & ct & Hnew & Hdocs & Hres & Hjob)]; [done|].
  injection Hres as ->.
  assert (Hid : matches (ById oid)
                  (mkContent oid uid (trim t) ct (trim (ContentService.generatePrompt ct t))
                     None None (Some ("content-" +:+ oid)) QUEUED) = true)
    by (simpl; by rewrite bool_decide_true).
  split; [eauto 10|]. split; [done|]. split.
  - eexists. split; [rewrite Hdocs; by apply findOne_app_new|done].
  - intros ops c Hc. destruct (findOne_matches _ _ _ Hc) as [Hm Hin].
    simpl in Hm. apply bool_decide_eq_true in Hm.
    destruct (exec_evolves ops w' Hq') as [Hev _].
    apply (evolves_carriesJobId oid _ _ Hev); [|done|done].
    intros c0 Hc0 Hi. rewrite Hdocs in Hc0. apply elem_of_app in Hc0 as [Hc0|Hc0].
    + exfalso. apply findOne_ById_None in Hnew. apply Hnew. rewrite <- Hi.
      apply list_elem_of_fmap. eauto.
    + by apply list_elem_of_singleton in Hc0 as ->.
Qed.

Lemma C6_witness :
  ∃ c, findOne (ById sampleId) (docs Sample.edited) = Some c ∧ jobId c = Some sampleJobId.
Proof.
  assert (Hq0 : wellKeyed (jobs System.initial)) by (intros k job H; discriminate H).
  destruct (C6_jobId_is_content_id_prefixed_and_stable
              System.initial Sample.afterCreate "u1" Sample.createBody sampleId
              (ContentController.mkRes 202
                 (ContentController.Queued "Content generation job queued successfully"
                    sampleId "T" ARTICLE (Some sampleJobId) QUEUED sampleJobId "1 minute"))
              Hq0 eq_refl) as (_ & _ & _ & Hstable).
  eexists. split; [vm_compute; reflexivity|].
  apply (Hstable (tail Sample.history)). vm_compute. reflexivity.
Defined.

(** ** Retries *)








(** ** The whole pipeline on the sample *)

(** Creation, one successful run, a user edit and a rollback. *)
Example end_to_end :
  let read w := (λ c, (jobId c, jobStatus c, generatedContent c, content c))
                  <$> findOne (ById sampleId) (docs w) in
  read Sample.afterCreate = Some (Some sampleJobId, QUEUED, None, None)
  ∧ read Pruned.completed
    = Some (Some sampleJobId, COMPLETED, Some "AI TEXT", Some "AI TEXT")
  ∧ read Sample.edited
    = Some (Some sampleJobId, COMPLETED, Some "AI TEXT", Some "edited")
  ∧ read (System.step Sample.edited (System.Rollback (Some "u1") sampleId))
    = Some (Some sampleJobId, COMPLETED, Some "AI TEXT", Some "AI TEXT").
Proof. vm_compute. done. Qed.

(** The id of a request is cast before it is compared: the owner reaches the
    record under its id in upper case as well (a rollback before the job has
    run then fails with 400, a read answers as for the lower case), and a
    string that is not the text of an ObjectId throws the cast error. *)
Example request_ids_are_cast :
  (ContentService.rollbackContent "65F1C0FFEE5EED0123456789" "u1" Sample.afterCreate).1
    = Throw (AppError "No generated content available to rollback to" 400)
  ∧ ContentController.getContentByIdHandler (Some "u1") "65F1C0FFEE5EED0123456789"
      Sample.edited
    = ContentController.getContentByIdHandler (Some "u1") sampleId Sample.edited
  ∧ (∃ res, (ContentController.getContentByIdHandler (Some "u1") sampleId Sample.edited).1
            = Ok res ∧ ContentController.status res = 200)
  ∧ (ContentController.getContentByIdHandler (Some "u1") "C1" Sample.edited).1
    = Throw (CastError "ObjectId" "C1" "_id")
  ∧ (ContentController.getContentByIdHandler (Some "u1") "65f1c0ffee5eed01234567"
       Sample.edited).1
    = Throw (CastError "ObjectId" "65f1c0ffee5eed01234567" "_id").
Proof.
  split; [reflexivity|]. split; [reflexivity|]. split; [eexists; split; reflexivity|].
  split; reflexivity.
Qed.

(** A topic is trimmed of the no-break space as of the other white space. *)
Example trim_removes_no_break_space :
  trim (String (ascii_of_nat 160) "abc ") = "abc"
  ∧ trim (String (ascii_of_nat 160) (String (ascii_of_nat 9) EmptyString)) = EmptyString.
Proof. split; reflexivity. Qed.

(** * Further properties of the sources *)

(** ** Status writes *)

(** X1: [updateContentJobStatus] answers null exactly when no document has
    the job id, and then the collection is left as it was. *)
Theorem updateContentJobStatus_null_iff_no_record
    (j : string) (st : JobStatus) (g : option string) (w : World) :
  ((ContentService.updateContentJobStatus j st g w).1 = Ok None
     ↔ findOne (ByJobId j) (docs w) = None)
  ∧ (findOne (ByJobId j) (docs w) = None →
     docs (ContentService.updateContentJobStatus j st g w).2 = docs w).
Proof.
  rewrite updateContentJobStatus_run. cbn [fst snd docs]. split.
  - rewrite findOneAndUpdate_result.
    destruct (findOne (ByJobId j) (docs w)); simpl; split; congruence.
  - intros H. by rewrite findOneAndUpdate_no_match.
Qed.

(** X2: writing the same completion twice is the same as writing it once:
    the second write returns the same document and leaves the collection of
    the first write as it is. *)
Theorem completion_write_idempotent
    (j : string) (st : JobStatus) (g : string) (w : World) :
  let once := ContentService.updateContentJobStatus j st (Some g) w in
  let twice := ContentService.updateContentJobStatus j st (Some g) once.2 in
  twice.1 = once.1 ∧ docs twice.2 = docs once.2.
Proof.
  cbv zeta. rewrite !updateContentJobStatus_run. cbn [fst snd docs].
  destruct (findOne (ByJobId j) (docs w)) as [c|] eqn:Hc.
  - destruct (findOne_split _ _ _ Hc) as (l1 & l2 & Hd & Hl1 & Hm).
    rewrite Hd.
    set (u1 := ContentService.updateData (Some c) st (Some g)).
    rewrite (findOneAndUpdate_at_split _ u1 _ _ _ Hl1 Hm). cbn [fst snd].
    assert (Hm1 : matches (ByJobId j) (applySet u1 c) = true)
      by (by rewrite matches_jobId_applySet).
    rewrite (findOne_at_split _ _ _ _ Hl1 Hm1).
    rewrite (findOneAndUpdate_at_split _ _ _ _ _ Hl1 Hm1). cbn [fst snd].
    assert (Hsame : applySet (ContentService.updateData (Some (applySet u1 c)) st (Some g))
                      (applySet u1 c) = applySet u1 c).
    { subst u1. destruct c as [i us t ct p gc [s|] jb js]; simpl.
      - destruct (bool_decide (s = EmptyString)) eqn:Hs; simpl;
          [destruct (bool_decide (g = EmptyString))|rewrite Hs]; done.
      - by destruct (bool_decide (g = EmptyString)). }
    by rewrite Hsame.
  - rewrite (findOneAndUpdate_no_match _ _ _ Hc). cbn [fst snd].
    by rewrite Hc, (findOneAndUpdate_no_match _ _ _ Hc).
Qed.

(** X3: a status write that carries no result (processing, failed) changes
    one document at most, the first of the collection that has the job id,
    and of that document the [jobStatus] only: what was generated or edited
    before stays, and every other document, also a later one with the same
    job id, is left as it was.  Without a document of the job id the
    collection stays as it is.  The queue is not touched. *)
Theorem status_write_keeps_contents (j : string) (st : JobStatus) (w : World) :
  let w' := (ContentService.updateContentJobStatus j st None w).2 in
  jobs w' = jobs w
  ∧ match findOne (ByJobId j) (docs w) with
    | None => docs w' = docs w
    | Some c =>
        ∃ l1 l2,
          docs w = l1 ++ c :: l2
          ∧ (∀ x, x ∈ l1 → jobId x ≠ Some j)
          ∧ docs w' = l1 ++ mkContent (_id c) (userId c) (topic c) (contentType c)
                              (prompt c) (generatedContent c) (content c) (jobId c) st
                           :: l2
    end.
Proof.
  cbv zeta. rewrite updateContentJobStatus_run. cbn [snd docs jobs].
  rewrite updateData_status_only. split; [done|].
  destruct (findOne (ByJobId j) (docs w)) as [c|] eqn:Hc.
  - destruct (findOne_split _ _ _ Hc) as (l1 & l2 & Hd & Hl1 & Hm).
    exists l1, l2. split; [done|]. split.
    + intros x Hx. pose proof (proj1 (findOne_None _ _) Hl1 x Hx) as Hx'.
      simpl in Hx'. by apply bool_decide_eq_false in Hx'.
    + by rewrite Hd, (findOneAndUpdate_at_split _ _ _ _ _ Hl1 Hm).
  - by rewrite (findOneAndUpdate_no_match _ _ _ Hc).
Qed.

(** ** The worker, beyond the collaborator failure *)

(** X4: when the collaborator answers [g] and a record has the job id, the
    processor returns [{contentId, jobId, generatedContent, status}] of that
    record, leaves the record completed with [g] as its generated content
    (and as its content when that was empty), changes no other field of it,
    and its effects are the processing write, the completion write and one
    publish of the completion. *)
Theorem processor_success apiKey api (job : Bull.Job) (w : World) (g : string) (c : Content) :
  generated apiKey api (Bull.contentType (Bull.data job)) (Bull.topic (Bull.data job))
    = Ok g →
  findOne (ByJobId (Bull.id job)) (docs w) = Some c →
  let j := Bull.id job in
  let done_ :=
    mkContent (_id c) (userId c) (topic c) (contentType c) (prompt c) (Some g)
      (if falsy (content c) then Some g else content c) (jobId c) COMPLETED in
  ∃ u w',
    Worker.processor apiKey api job w
      = (Ok (Worker.mkReturn (_id c) j g COMPLETED), w')
    ∧ findOne (ByJobId j) (docs w') = Some done_
    ∧ jobs w' = jobs w
    ∧ events w' = events w ++ [EvUpdate (ByJobId j) (statusOnly PROCESSING);
                               EvUpdate (ByJobId j) u;
                               EvPublish "job-updates"
                                 (JobUpdate.mk j (_id c) COMPLETED (Some g) None)].
Proof.
  intros Hg Hc j done_.
  destruct (findOne_split _ _ _ Hc) as (l1 & l2 & Hd & Hl1 & Hm).
  unfold Worker.processor.
  unfold tryCatch at 1. unfold mbind at 1, M_bind at 1.
  rewrite updateContentJobStatus_run. cbv zeta. rewrite updateData_status_only.
  unfold mbind at 1, M_bind at 1. rewrite generateContent_run, Hg.
  unfold mbind at 1, M_bind at 1. rewrite updateContentJobStatus_run. cbv zeta.
  cbn [docs jobs events]. fold j. rewrite Hd.
  rewrite (findOneAndUpdate_at_split _ (statusOnly PROCESSING) _ _ _ Hl1 Hm). cbn [snd].
  assert (Hm1 : matches (ByJobId j) (applySet (statusOnly PROCESSING) c) = true)
    by (by apply statusOnly_keeps_match).
  rewrite (findOne_at_split _ _ _ _ Hl1 Hm1).
  set (u := ContentService.updateData _ COMPLETED (Some g)).
  rewrite (findOneAndUpdate_at_split _ u _ _ _ Hl1 Hm1). cbn [fst snd]. run.
  exists u. eexists. split; [reflexivity|]. cbn [docs jobs events].
  split; [|split; [done|by rewrite <- !app_assoc]].
  rewrite findOne_at_split; [|done|by rewrite matches_jobId_applySet].
  f_equal. subst u done_. destruct c as [i us t ct p gc ctn jb js]. simpl.
  by destruct (falsy ctn).
Qed.

Lemma processor_success_witness :
  ∃ u w',
    Worker.processor (Some "key") (Sample.api "AI TEXT") Sample.job Sample.afterCreate
      = (Ok (Worker.mkReturn sampleId sampleJobId "AI TEXT" COMPLETED), w')
    ∧ events w' = events Sample.afterCreate
                  ++ [EvUpdate (ByJobId sampleJobId) (statusOnly PROCESSING);
                      EvUpdate (ByJobId sampleJobId) u;
                      EvPublish "job-updates"
                        (JobUpdate.mk sampleJobId sampleId COMPLETED (Some "AI TEXT") None)].
Proof.
  destruct (processor_success (Some "key") (Sample.api "AI TEXT") Sample.job
              Sample.afterCreate "AI TEXT"
              (mkContent sampleId "u1" "T" ARTICLE (ContentService.generatePrompt ARTICLE "T")
                 None None (Some sampleJobId) QUEUED)
              eq_refl eq_refl) as (u & w' & Hrun & _ & _ & Hev).
  exists u, w'. split; [exact Hrun | exact Hev].
Defined.

(** X5: when the record of a dispatched job is gone (deleted while the job
    waited), a successful collaborator call is of no use: the attempt throws
    "Content not found for job ID: ...", the collection stays as it was, and
    the failure is published with the content id of the job data. *)
Theorem processor_record_gone apiKey api (job : Bull.Job) (w : World) (g : string) :
  generated apiKey api (Bull.contentType (Bull.data job)) (Bull.topic (Bull.data job))
    = Ok g →
  findOne (ByJobId (Bull.id job)) (docs w) = None →
  let j := Bull.id job in
  let msg := "Content not found for job ID: " +:+ j in
  ∃ u w',
    Worker.processor apiKey api job w = (Throw (Error msg), w')
    ∧ docs w' = docs w
    ∧ jobs w' = jobs w
    ∧ events w' = events w ++ [EvUpdate (ByJobId j) (statusOnly PROCESSING);
                               EvUpdate (ByJobId j) u;
                               EvUpdate (ByJobId j) (statusOnly FAILED);
                               EvPublish "job-updates"
                                 (JobUpdate.mk j (Bull.contentId (Bull.data job)) FAILED
                                    None (Some msg))].
Proof.
  intros Hg Hc. cbv zeta.
  unfold Worker.processor.
  unfold tryCatch at 1. unfold mbind at 1, M_bind at 1.
  rewrite updateContentJobStatus_run. cbv zeta. rewrite updateData_status_only.
  unfold mbind at 1, M_bind at 1. rewrite generateContent_run, Hg.
  unfold mbind at 1, M_bind at 1. rewrite updateContentJobStatus_run. cbv zeta.
  cbn [docs jobs events].
  rewrite (findOneAndUpdate_no_match _ (statusOnly PROCESSING) _ Hc). cbn [snd].
  rewrite Hc. set (u := ContentService.updateData None COMPLETED (Some g)).
  rewrite (findOneAndUpdate_no_match _ u _ Hc). cbn [fst snd].
  unfold throw at 1. cbv beta iota. unfold mbind at 1, M_bind at 1.
  rewrite updateContentJobStatus_run. cbv zeta. rewrite updateData_status_only.
  cbn [docs jobs events].
  rewrite (findOneAndUpdate_no_match _ (statusOnly FAILED) _ Hc). run.
  exists u. eexists. split; [reflexivity|]. cbn [docs jobs events].
  split; [done|]. split; [done|]. by rewrite <- !app_assoc.
Qed.

Lemma processor_record_gone_witness :
  ∃ w', Worker.processor (Some "key") (Sample.api "AI TEXT") Sample.job System.initial
        = (Throw (Error "Content not found for job ID: content-65f1c0ffee5eed0123456789"), w')
        ∧ docs w' = [].
Proof.
  destruct (processor_record_gone (Some "key") (Sample.api "AI TEXT") Sample.job
              System.initial "AI TEXT" eq_refl eq_refl) as (u & w' & Hrun & Hd & _).
  exists w'. split; [exact Hrun | exact Hd].
Defined.

(** ** Reading and polling *)

Lemma reads_write_nothing_aux (user : option string) (id : string) (w : World) :
  (ContentController.getContentByIdHandler user id w).2 = w
  ∧ (ContentController.getJobStatusHandler user id w).2 = w.
Proof.
  destruct user as [uid|]; [|done]. split.
  - unfold ContentController.getContentByIdHandler, mbind, M_bind.
    rewrite getContentById_run.
    destruct (castObjectId id) as [o|e]; [|done]. by destruct (findOne _ (docs w)).
  - unfold ContentController.getJobStatusHandler, ContentQueue.getJobStatus,
      ContentService.getContentByJobId.
    destruct w as [d q ev]. run.
    destruct (q !! id); run; [|done].
    destruct (findOne _ d) as [c|]; run; [|done].
    by destruct (bool_decide (userId c = uid)).
Qed.

(** X6: reading a record and polling a job write nothing: the world after
    the handler is the world before it, whatever the answer. *)
Theorem reads_write_nothing (user : option string) (id : string) (w : World) :
  (ContentController.getContentByIdHandler user id w).2 = w
  ∧ (ContentController.getJobStatusHandler user id w).2 = w.
Proof.
  destruct user as [uid|]; [|done]. split.
  - unfold ContentController.getContentByIdHandler, mbind, M_bind.
    rewrite getContentById_run.
    destruct (castObjectId id) as [o|e]; [|done]. by destruct (findOne _ (docs w)).
  - unfold ContentController.getJobStatusHandler, ContentQueue.getJobStatus,
      ContentService.getContentByJobId.
    destruct w as [d q ev]. run.
    destruct (q !! id); run; [|done].
    destruct (findOne _ d) as [c|]; run; [|done].
    by destruct (bool_decide (userId c = uid)).
Qed.

(** X7: polling answers 200 exactly when the queue holds the job, a record
    has the job id and the requester owns it; the body then carries the
    state, progress and failure reason of the job and the id, status,
    generated content and content of the record. *)
Theorem poll_200_iff (uid jobId : string) (w : World) (b : ContentController.ResBody) :
  (ContentController.getJobStatusHandler (Some uid) jobId w).1
    = Ok (ContentController.mkRes 200 b)
  ↔ ∃ job c,
      jobs w !! jobId = Some job
      ∧ findOne (ByJobId jobId) (docs w) = Some c
      ∧ userId c = uid
      ∧ b = ContentController.JobStatusData jobId
              (Bull.state job) (Bull.progress job) (Bull.failedReason job)
              (_id c) (jobStatus c) (generatedContent c) (content c).
Proof.
  unfold ContentController.getJobStatusHandler, ContentQueue.getJobStatus,
    ContentService.getContentByJobId.
  destruct w as [d q ev]. run.
  destruct (q !! jobId) as [job|]; run.
  - destruct (findOne (ByJobId jobId) d) as [c|]; run.
    + case_bool_decide as Hu; run.
      * split; [intros [= <-]; eauto 10|].
        by intros (job' & c' & [= <-] & [= <-] & _ & ->).
      * split; [done|]. by intros (job' & c' & _ & [= <-] & ? & _).
    + split; [done|]. by intros (job' & c' & _ & ? & _).
  - split; [done|]. by intros (job' & c' & ? & _).
Qed.

(** ** Deleting *)

Lemma deleteContentHandler_run (uid id : string) (w : World) :
  ContentController.deleteContentHandler (Some uid) id w =
    match castObjectId id with
    | Throw e => (Throw e, w)
    | Ok o =>
        (if bool_decide ((deleteOne (ByIdAndUser o uid) (docs w)).1 = 0)
         then Throw (AppError "Content not found" 404)
         else Ok (ContentController.mkRes 204 ContentController.NoContent),
         mkWorld (deleteOne (ByIdAndUser o uid) (docs w)).2 (jobs w)
                 (events w ++ [EvDelete (ByIdAndUser o uid)]))
    end.
Proof.
  unfold ContentController.deleteContentHandler, mbind, M_bind.
  rewrite deleteContent_run. destruct (castObjectId id) as [o|e]; [|done].
  by destruct (bool_decide _).
Qed.

(** X8: the id of a delete request is cast to an ObjectId.  An id that cannot
    be cast throws the cast error and nothing is written; an id of no record
    of the requester (a record that does not exist, or that someone else
    owns) throws 404 and removes nothing; the id of an owned record, in
    either case of its hexadecimal digits, answers 204 and removes that one
    document, the job of the record stays in the queue, and with unique ids
    the record cannot be read any more. *)
Theorem delete_removes_the_owned_record_only (uid id : string) (w : World) :
  let r := (ContentController.deleteContentHandler (Some uid) id w).1 in
  let w' := (ContentController.deleteContentHandler (Some uid) id w).2 in
  jobs w' = jobs w
  ∧ (∀ e, castObjectId id = Throw e → r = Throw (CastError "ObjectId" id "_id") ∧ w' = w)
  ∧ (∀ o, castObjectId id = Ok o → findOne (ByIdAndUser o uid) (docs w) = None →
     r = Throw (AppError "Content not found" 404) ∧ docs w' = docs w)
  ∧ (∀ o c, castObjectId id = Ok o → findOne (ByIdAndUser o uid) (docs w) = Some c →
     r = Ok (ContentController.mkRes 204 ContentController.NoContent)
     ∧ (∃ l1 l2, docs w = l1 ++ c :: l2 ∧ docs w' = l1 ++ l2)
     ∧ (NoDup (_id <$> docs w) →
        (ContentService.getContentById id uid w').1
          = Throw (AppError "Content not found" 404))).
Proof.
  cbv zeta. rewrite deleteContentHandler_run.
  destruct (castObjectId id) as [o|e] eqn:Hcast.
  2: { pose proof (castObjectId_Throw _ _ Hcast) as ->. done. }
  cbn [fst snd docs jobs].
  split; [done|]. split; [done|]. split.
  - intros o0 [= <-] H. by rewrite (deleteOne_no_match _ _ H).
  - intros o0 c [= <-] Hc. destruct (findOne_split _ _ _ Hc) as (l1 & l2 & Hd & Hl1 & Hm).
    rewrite Hd, (deleteOne_at_split _ _ _ _ Hl1 Hm). cbn [fst snd].
    split; [done|]. split; [eauto|]. intros Hnd.
    rewrite getContentById_run, Hcast. cbn [docs].
    assert (Hgone : findOne (ByIdAndUser o uid) (l1 ++ l2) = None).
    { apply findOne_None. intros c' Hc'. simpl.
      destruct (bool_decide (_id c' = o)) eqn:Hi; [|done]. exfalso.
      apply bool_decide_eq_true in Hi.
      simpl in Hm. apply andb_prop in Hm as [Hci _]. apply bool_decide_eq_true in Hci.
      rewrite fmap_app, fmap_cons in Hnd.
      apply NoDup_app in Hnd as (_ & Hdisj & Hnd2). apply NoDup_cons in Hnd2 as [Hnot _].
      apply elem_of_app in Hc' as [Hc'|Hc'].
      - apply (Hdisj (_id c')); [apply list_elem_of_fmap; eauto|].
        rewrite Hi, <- Hci. apply list_elem_of_here.
      - apply Hnot. rewrite Hci, <- Hi. apply list_elem_of_fmap; eauto. }
    by rewrite Hgone.
Qed.

Lemma delete_witness :
  (ContentController.deleteContentHandler (Some "u1") "65F1C0FFEE5EED0123456789"
     Sample.edited).1
    = Ok (ContentController.mkRes 204 ContentController.NoContent)
  ∧ (ContentController.deleteContentHandler (Some "u2") sampleId Sample.edited).1
    = Throw (AppError "Content not found" 404)
  ∧ ContentController.deleteContentHandler (Some "u1") "not-an-id" Sample.edited
    = (Throw (CastError "ObjectId" "not-an-id" "_id"), Sample.edited).
Proof.
  destruct (delete_removes_the_owned_record_only "u1" "65F1C0FFEE5EED0123456789"
              Sample.edited) as (_ & _ & _ & H1).
  destruct (delete_removes_the_owned_record_only "u2" sampleId Sample.edited)
    as (_ & _ & H2 & _).
  destruct (delete_removes_the_owned_record_only "u1" "not-an-id" Sample.edited)
    as (_ & H3 & _).
  split; [|split].
  - exact (proj1 (H1 sampleId
                    (mkContent sampleId "u1" "T" ARTICLE
                       (ContentService.generatePrompt ARTICLE "T")
                       (Some "AI TEXT") (Some "edited") (Some sampleJobId) COMPLETED)
                    eq_refl eq_refl)).
  - exact (proj1 (H2 sampleId eq_refl eq_refl)).
  - destruct (H3 _ eq_refl) as [Hr Hw].
    apply injective_projections; [exact Hr|exact Hw].
Defined.

(** ** Updating, then reading *)

(** X9: a user update succeeds only for a body that parses, an id that is
    cast to the ObjectId of a record of the requester, and a topic (when the
    body has one) that is not empty once trimmed.  The record is then
    replaced in the collection by the record with the new values: [content]
    is the string of the body when the body has one and is unchanged
    otherwise, [topic] is the trimmed string of the body when the body has
    one and is unchanged otherwise, and no other field changes.  A read of
    the record by its owner returns that document, and the response of the
    update shows it. *)
Theorem update_then_read (uid id : string) (reqBody : json) (w : World)
    (res : ContentController.Response) :
  (ContentController.updateContentHandler (Some uid) id reqBody w).1 = Ok res →
  let w' := (ContentController.updateContentHandler (Some uid) id reqBody w).2 in
  ∃ upd o c,
    ContentController.parseUpdate reqBody = Ok upd
    ∧ castObjectId id = Ok o
    ∧ findOne (ByIdAndUser o uid) (docs w) = Some c
    ∧ (∀ t, ContentService.upd_topic upd = Some t → trim t ≠ EmptyString)
    ∧ let c' :=
        mkContent (_id c) (userId c)
          (match ContentService.upd_topic upd with
           | Some t => trim t
           | None => topic c
           end)
          (contentType c) (prompt c) (generatedContent c)
          (match ContentService.upd_content upd with
           | Some s => Some s
           | None => content c
           end)
          (jobId c) (jobStatus c) in
      (ContentService.getContentById id uid w').1 = Ok c'
      ∧ (∃ l1 l2, docs w = l1 ++ c :: l2 ∧ docs w' = l1 ++ c' :: l2)
      ∧ res = ContentController.mkRes 200
                (ContentController.Edited "Content updated successfully"
                   (_id c') (topic c') (contentType c') (generatedContent c')
                   (content c') (jobStatus c')).
Proof.
  intros Hres. cbv zeta. rewrite updateContentHandler_run in Hres |- *.
  destruct (ContentController.parseUpdate reqBody) as [upd|e]; [|done].
  rewrite updateContent_run in Hres |- *.
  destruct (castObjectId id) as [o|e] eqn:Hcast; [|done].
  destruct (ContentService.castUpdates upd) as [u|e] eqn:Hu; [|done].
  apply castUpdates_Ok in Hu as [-> Hvalid].
  set (u := mkSet _ _ None None None) in *.
  destruct (findOne (ByIdAndUser o uid) (docs w)) as [c|] eqn:Hc.
  2: { by rewrite (findOneAndUpdate_no_match _ _ _ Hc) in Hres. }
  destruct (findOne_split _ _ _ Hc) as (l1 & l2 & Hd & Hl1 & Hm).
  rewrite Hd in Hres, Hc |- *.
  rewrite (findOneAndUpdate_at_split _ u _ _ _ Hl1 Hm) in Hres |- *.
  cbn [fst snd docs] in Hres |- *.
  assert (Hc' : applySet u c
                = mkContent (_id c) (userId c)
                    (match ContentService.upd_topic upd with
                     | Some t => trim t
                     | None => topic c
                     end)
                    (contentType c) (prompt c) (generatedContent c)
                    (match ContentService.upd_content upd with
                     | Some s => Some s
                     | None => content c
                     end)
                    (jobId c) (jobStatus c)).
  { subst u. unfold applySet. simpl.
    by destruct (ContentService.upd_topic upd), (ContentService.upd_content upd). }
  rewrite Hc' in Hres |- *. injection Hres as <-.
  exists upd, o, c. split; [done|]. split; [done|]. split; [done|]. split.
  - intros t Ht. specialize (Hvalid t Ht). by apply validateTopic_Ok in Hvalid as (_ & ? & _).
  - split; [|split; [eauto|done]].
    rewrite getContentById_run, Hcast. cbn [docs].
    rewrite (findOne_at_split _ l1 l2 _ Hl1); [done|].
    simpl in Hm |- *. done.
Qed.

Lemma update_then_read_witness :
  ∃ c', (ContentService.getContentById sampleId "u1" Sample.edited).1 = Ok c'
        ∧ content c' = Some "edited".
Proof.
  assert (Hrun : (ContentController.updateContentHandler (Some "u1") sampleId
                    (JObj (<["content" := JStr "edited"]> ∅)) Pruned.completed).1
                 = Ok (ContentController.mkRes 200
                         (ContentController.Edited "Content updated successfully"
                            sampleId "T" ARTICLE (Some "AI TEXT") (Some "edited") COMPLETED)))
    by (vm_compute; reflexivity).
  destruct (update_then_read "u1" sampleId (JObj (<["content" := JStr "edited"]> ∅))
              Pruned.completed _ Hrun) as (upd & o & c & Hp & _ & _ & _ & Hr & _).
  eexists. split; [exact Hr|].
  vm_compute in Hp. injection Hp as <-. reflexivity.
Defined.

(** ** Creating *)

Lemma trimStart_length (s : string) : String.length (trimStart s) ≤ String.length s.
Proof. induction s as [|c s IH]; simpl; [done|]. destruct (is_space c); simpl; lia. Qed.

Lemma trimEnd_length (s : string) : String.length (trimEnd s) ≤ String.length s.
Proof.
  induction s as [|c s IH]; simpl; [done|].
  destruct (trimEnd s); [destruct (is_space c)|]; simpl in *; lia.
Qed.

Lemma trim_length (s : string) : String.length (trim s) ≤ String.length s.
Proof.
  unfold trim. etransitivity; [apply trimEnd_length|apply trimStart_length].
Qed.

Lemma trim_keeps_head (c : ascii) (s : string) :
  is_space c = false → trim (String c s) ≠ EmptyString.
Proof.
  intros Hc. unfold trim. simpl. rewrite Hc. simpl.
  destruct (trimEnd s); [by rewrite Hc|done].
Qed.

(** The generated prompt is never empty, so the [required] validator of
    [prompt] never rejects a new document. *)
Lemma prompt_is_valid (ct : ContentType) (t : string) :
  ∃ p, validatePrompt (trim (ContentService.generatePrompt ct t)) = Ok p.
Proof.
  unfold validatePrompt. rewrite bool_decide_false; [eauto|].
  destruct ct; simpl; by apply trim_keeps_head.
Qed.

Lemma parseCreate_Ok (b : json) (t : string) (ct : ContentType) :
  ContentController.parseCreate b = Ok (t, ct) →
  1 ≤ String.length t ≤ 500.
Proof.
  unfold ContentController.parseCreate. destruct b as [| | | | |fields]; try done.
  destruct (fields !! "topic") as [[| | |s| |]|]; try done.
  destruct (String.length s <? 1) eqn:H1; [done|].
  destruct (500 <? String.length s) eqn:H2; [done|].
  apply Nat.ltb_ge in H1, H2.
  destruct (fields !! "contentType") as [[| | |s'| |]|]; try done.
  destruct (contentType_of_string s'); [|done].
  simpl. intros [= <- _]. lia.
Qed.

(** X10: a creation request of an authenticated user succeeds exactly when
    the body has a string [topic] of 1 to 500 characters and a [contentType]
    of the enumeration, the topic is not made of white space only, and the
    id of the new document is not taken. *)
Theorem creation_succeeds_iff (uid : string) (reqBody : json) (oid : string) (w : World) :
  (∃ res, (ContentController.createContentHandler (Some uid) reqBody oid w).1 = Ok res)
  ↔ ∃ t ct, ContentController.parseCreate reqBody = Ok (t, ct)
            ∧ trim t ≠ EmptyString
            ∧ findOne (ById oid) (docs w) = None.
Proof.
  unfold ContentController.createContentHandler, ContentService.createContent,
    ContentQueue.addContentGenerationJob, ContentQueue.add, dbSaveNew.
  destruct w as [d q ev]. run.
  destruct (ContentController.parseCreate reqBody) as [[t ct]|e] eqn:Hp; run.
  2: { split; [by intros [res ?]|by intros (t & ct & ? & _)]. }
  apply parseCreate_Ok in Hp as Hlen.
  destruct (prompt_is_valid ct t) as [p Hprompt].
  unfold validateTopic. case_bool_decide as Hempty; run.
  { split; [by intros [res ?]|]. by intros (t' & ct' & [= <- <-] & ? & _). }
  replace (500 <? String.length (trim t)) with false
    by (symmetry; apply Nat.ltb_ge; pose proof (trim_length t); lia).
  run. rewrite Hprompt. run.
  destruct (findOne (ById oid) d) eqn:Hnew; run.
  { split; [by intros [res ?]|]. by intros (t' & ct' & _ & _ & ?). }
  assert (Hid : ∀ c, _id c = oid → matches (ById oid) c = true)
    by (intros c Hc; simpl; by rewrite bool_decide_true).
  destruct (q !! ("content-" +:+ oid)); run;
    rewrite findOneAndUpdate_app_new by (done || by apply Hid); run;
    (split; [intros _; exists t, ct; done|eauto]).
Qed.

(** X11: a topic of white space only passes the request schema and is then
    refused by the [required] validator of the model: the handler throws
    that validation error, and no document, no job and no effect is
    written. *)
Theorem blank_topic_is_rejected (uid : string) (reqBody : json) (oid : string) (w : World)
    (t : string) (ct : ContentType) :
  ContentController.parseCreate reqBody = Ok (t, ct) →
  trim t = EmptyString →
  ContentController.createContentHandler (Some uid) reqBody oid w
    = (Throw (ValidationError "Topic is required"), w).
Proof.
  intros Hp Ht.
  unfold ContentController.createContentHandler, ContentService.createContent, dbSaveNew.
  destruct w as [d q ev]. run. rewrite Hp. run. rewrite Ht. done.
Qed.

Lemma blank_topic_witness :
  ContentController.createContentHandler (Some "u1")
    (JObj (<["topic" := JStr "   "]> (<["contentType" := JStr "email"]> ∅)))
    otherId Sample.edited
  = (Throw (ValidationError "Topic is required"), Sample.edited).
Proof.
  apply (blank_topic_is_rejected "u1" _ otherId Sample.edited "   " EMAIL); reflexivity.
Defined.

(** ** Requests touch the requester's documents only *)

Lemma ownedBy_app (v : string) (l1 l2 : list Content) :
  ownedBy v (l1 ++ l2) = ownedBy v l1 ++ ownedBy v l2.
Proof. apply filter_app. Qed.

Lemma ownedBy_skip (v : string) (c : Content) (l : list Content) :
  userId c ≠ v → ownedBy v (c :: l) = ownedBy v l.
Proof. intros H. unfold ownedBy. by rewrite filter_cons_False. Qed.

Lemma ownedBy_findOneAndUpdate (v : string) (f : Filter) (u : SetDoc) (d : list Content) :
  (∀ c, findOne f d = Some c → userId c ≠ v) →
  ownedBy v (findOneAndUpdate f u d).2 = ownedBy v d.
Proof.
  intros H. destruct (findOne f d) as [c|] eqn:Hc.
  - destruct (findOne_split _ _ _ Hc) as (l1 & l2 & -> & Hl1 & Hm).
    rewrite (findOneAndUpdate_at_split _ _ _ _ _ Hl1 Hm). cbn [snd].
    rewrite !ownedBy_app, !ownedBy_skip; [done|by apply H|by apply (H c)].
  - by rewrite (findOneAndUpdate_no_match _ _ _ Hc).
Qed.

Lemma ownedBy_deleteOne (v : string) (f : Filter) (d : list Content) :
  (∀ c, findOne f d = Some c → userId c ≠ v) →
  ownedBy v (deleteOne f d).2 = ownedBy v d.
Proof.
  intros H. destruct (findOne f d) as [c|] eqn:Hc.
  - destruct (findOne_split _ _ _ Hc) as (l1 & l2 & -> & Hl1 & Hm).
    rewrite (deleteOne_at_split _ _ _ _ Hl1 Hm). cbn [snd].
    rewrite !ownedBy_app, ownedBy_skip; [done|by apply H].
  - by rewrite (deleteOne_no_match _ _ Hc).
Qed.

Lemma owned_match (i uid : string) (d : list Content) (c : Content) :
  findOne (ByIdAndUser i uid) d = Some c → _id c = i ∧ userId c = uid.
Proof.
  intros H. destruct (findOne_matches _ _ _ H) as [Hm _]. simpl in Hm.
  apply andb_prop in Hm as [H1 H2].
  by apply bool_decide_eq_true in H1, H2.
Qed.

(** X12: in every world that the system can reach, a request (create, read,
    update, delete, rollback, poll) leaves the documents of every user other
    than the requester exactly as they were. *)
Theorem requests_leave_others_documents (w : World) (o : System.Op) (v : string) :
  System.reachable w →
  isRequest o = true →
  requesterOf o ≠ Some v →
  ownedBy v (docs (System.step w o)) = ownedBy v (docs w).
Proof.
  intros Hreach Hreq Hv.
  destruct (reachable_consistent w Hreach) as [[Hnd _] Hq].
  destruct o as [u b oid|u i|u i b|u i|u i|u j|k api job]; simpl in *; try done.
  - destruct u as [uid|]; [|done].
    destruct (createContentHandler_spec uid b oid w Hq)
      as [_ [(-> & _ & _) | (t & ct & _ & -> & _)]]; [done|].
    rewrite ownedBy_app. unfold ownedBy at 2. rewrite filter_cons_False, filter_nil.
    + by rewrite app_nil_r.
    + simpl. congruence.
  - by rewrite (proj1 (reads_write_nothing_aux u i w)).
  - destruct (updateContentHandler_docs u i b w)
      as [_ [-> | (uid & o & t & c & -> & _ & ->)]]; [done|].
    apply ownedBy_findOneAndUpdate. intros c0 Hc0.
    apply owned_match in Hc0 as [_ ->]. congruence.
  - destruct u as [uid|]; [|done]. rewrite deleteContentHandler_run.
    destruct (castObjectId i) as [o|e]; [|done]. cbn [snd docs].
    apply ownedBy_deleteOne. intros c0 Hc0.
    apply owned_match in Hc0 as [_ ->]. congruence.
  - unfold ContentController.rollbackContentHandler.
    destruct u as [uid|]; [|done].
    unfold mbind, M_bind. rewrite rollbackContent_run.
    destruct (castObjectId i) as [o|e]; [|done].
    destruct (findOne (ByIdAndUser o uid) (docs w)) as [c|] eqn:Hc; [|done].
    destruct (falsy (generatedContent c)); [done|]. cbv zeta.
    destruct (save_of_owned o uid (mkSet None (generatedContent c) None None None)
                (docs w) c Hnd Hc) as [Hs _].
    rewrite findOneAndUpdate_result in Hs.
    pose proof (ownedBy_findOneAndUpdate v (ById (_id c))
                  (mkSet None (generatedContent c) None None None) (docs w)) as Hown.
    destruct (findOneAndUpdate (ById (_id c)) _ (docs w)) as [[c'|] d']; run;
      apply Hown; intros c0 Hc0; rewrite Hc0 in Hs;
      apply (f_equal (fmap userId)) in Hs; simpl in Hs;
      apply owned_match in Hc as [_ Hu]; congruence.
  - by rewrite (proj2 (reads_write_nothing_aux u j w)).
Qed.

Lemma requests_leave_others_witness :
  ownedBy "u1" (docs (System.step Sample.edited (System.Rollback (Some "u2") sampleId)))
  = ownedBy "u1" (docs Sample.edited).
Proof.
  apply requests_leave_others_documents.
  - by exists Sample.history.
  - reflexivity.
  - simpl. discriminate.
Defined.

(** ** The collaborator *)

(** X13: [generateContent] returns a text exactly when the API key is set
    and the client answers with that text, which is not empty; every other
    outcome is thrown as an [AppError], with status 500 and the message
    "AI content generation failed: ..." when the client threw something that
    is not an [AppError]. *)
Theorem generateContent_outcomes apiKey api (ct : ContentType) (t : string) :
  (∀ s, generated apiKey api ct t = Ok s
        ↔ falsy apiKey = false
          ∧ api (AiService.generatePrompt ct t) = AiService.ApiResponse (Some s)
          ∧ s ≠ EmptyString)
  ∧ (∀ e, generated apiKey api ct t = Throw e → instanceofAppError e = true)
  ∧ (∀ e0, falsy apiKey = false →
           api (AiService.generatePrompt ct t) = AiService.ApiThrows e0 →
           instanceofAppError e0 = false →
           generated apiKey api ct t
             = Throw (AppError ("AI content generation failed: " +:+ errorMessage e0) 500)).
Proof.
  unfold generated, AiService.generateContent, AiService.initializeClient. run.
  destruct (falsy apiKey) eqn:Hk; run.
  { split; [|split]; [|by intros e [= <-]|done].
    intros s. split; [done|by intros [? _]]. }
  destruct (api (AiService.generatePrompt ct t)) as [[text|]|e0] eqn:Ha; run; simpl.
  - case_bool_decide as He; run.
    + subst text. split; [|split]; [|by intros e [= <-]|done].
      intros s. split; [done|]. by intros (_ & [= <-] & ?).
    + split; [|split]; [|done|done].
      intros s. split; [by intros [= <-]|by intros (_ & [= <-] & _)].
  - split; [|split]; [|by intros e [= <-]|done].
    intros s. split; [done|by intros (_ & ? & _)].
  - split; [|split].
    + intros s. split; [by destruct (instanceofAppError e0)|by intros (_ & ? & _)].
    + intros e. destruct (instanceofAppError e0) eqn:Hi; by intros [= <-].
    + intros e1 _ [= <-] Hi. by rewrite Hi.
Qed.

(** ** Job ids *)

Lemma string_app_inj_l (p a b : string) : p +:+ a = p +:+ b → a = b.
Proof. induction p as [|c p IH]; simpl; [done|]. intros [= H]. by apply IH. Qed.

(** X14: over a well keyed queue, two submissions that are answered with the
    same job id are for the same content id: the jobs of different records
    never coincide. *)
Theorem job_id_determines_content
    (d1 d2 : Bull.ContentGenerationJobData) (w1 w2 : World) (j : string) :
  wellKeyed (jobs w1) → wellKeyed (jobs w2) →
  (ContentQueue.addContentGenerationJob d1 w1).1 = Ok j →
  (ContentQueue.addContentGenerationJob d2 w2).1 = Ok j →
  j = "content-" +:+ Bull.contentId d1 ∧ Bull.contentId d1 = Bull.contentId d2.
Proof.
  assert (Hid : ∀ d w, wellKeyed (jobs w) →
            (ContentQueue.addContentGenerationJob d w).1
              = Ok ("content-" +:+ Bull.contentId d)).
  { intros d [dc q ev] Hq. unfold ContentQueue.addContentGenerationJob, ContentQueue.add.
    run. destruct (q !! _) as [job|] eqn:Hj; run; [|done].
    f_equal. by apply (Hq _ _ Hj). }
  intros Hq1 Hq2 H1 H2. rewrite (Hid d1 w1 Hq1) in H1. rewrite (Hid d2 w2 Hq2) in H2.
  assert (Hj1 : "content-" +:+ Bull.contentId d1 = j) by congruence.
  assert (Hj2 : "content-" +:+ Bull.contentId d2 = j) by congruence.
  split; [done|]. apply (string_app_inj_l "content-"). congruence.
Qed.

Lemma job_id_witness :
  sampleJobId = "content-" +:+ sampleId ∧ sampleId = sampleId.
Proof.
  assert (Hq0 : wellKeyed (jobs System.initial)) by (intros k job H; discriminate H).
  exact (job_id_determines_content
           (Bull.mkData sampleId "u1" ARTICLE "T") (Bull.mkData sampleId "u2" EMAIL "other")
           System.initial System.initial sampleJobId Hq0 Hq0 eq_refl eq_refl).
Defined.

(** ** Subscriptions and deliveries *)

Set Warnings "-clear-no-such-hyp".

Lemma members_join (s room : string) (io : WebSocket.Io) (s' room' : string) :
  s' ∈ WebSocket.members (WebSocket.join s room io) room'
  ↔ (room = room' ∧ s = s') ∨ s' ∈ WebSocket.members io room'.
Proof.
  unfold WebSocket.join, WebSocket.members. simpl.
  destruct (decide (room = room')) as [<-|Hne].
  - rewrite lookup_insert_eq. simpl. rewrite elem_of_union, elem_of_singleton.
    naive_solver.
  - rewrite lookup_insert_ne by done. naive_solver.
Qed.

Lemma members_leave (s room : string) (io : WebSocket.Io) (s' room' : string) :
  s' ∈ WebSocket.members (WebSocket.leave s room io) room'
  ↔ s' ∈ WebSocket.members io room' ∧ ¬ (room = room' ∧ s = s').
Proof.
  unfold WebSocket.leave, WebSocket.members. simpl.
  destruct (decide (room = room')) as [<-|Hne].
  - rewrite lookup_insert_eq. simpl. rewrite elem_of_difference, elem_of_singleton.
    naive_solver.
  - rewrite lookup_insert_ne by done. naive_solver.
Qed.

Lemma members_disconnect (s : string) (io : WebSocket.Io) (s' room' : string) :
  s' ∈ WebSocket.members (WebSocket.disconnect s io) room'
  ↔ s' ∈ WebSocket.members io room' ∧ s ≠ s'.
Proof.
  unfold WebSocket.disconnect, WebSocket.members. simpl. rewrite lookup_fmap.
  destruct (WebSocket.rooms io !! room'); simpl.
  - rewrite elem_of_difference, elem_of_singleton. naive_solver.
  - split; [intros H|intros [H _]]; by apply not_elem_of_empty in H.
Qed.

Lemma subscription_aux
    (evs : list Server.ClientEvent) (io : WebSocket.Io) (socket jobId : string) :
  socket ∈ WebSocket.members (foldl Server.onClientEvent io evs) ("job-" +:+ jobId)
  ↔ Server.subscribedAfter evs socket jobId
      (bool_decide (socket ∈ WebSocket.members io ("job-" +:+ jobId))) = true.
Proof.
  revert io. induction evs as [|e evs IH]; intros io; simpl.
  - by rewrite bool_decide_eq_true.
  - rewrite IH. f_equiv. f_equal.
    destruct e as [s j|s j|s]; simpl.
    + destruct (decide (s = socket ∧ j = jobId)) as [[-> ->]|Hsj].
      * rewrite (bool_decide_true (_ ∧ _)) by done.
        apply bool_decide_eq_true, members_join. by left.
      * rewrite (bool_decide_false (_ ∧ _)) by done.
        apply bool_decide_ext. rewrite members_join. split; [|by right].
        intros [[Hr ->]|?]; [|done]. apply string_app_inj_l in Hr. naive_solver.
    + destruct (decide (s = socket ∧ j = jobId)) as [[-> ->]|Hsj].
      * rewrite (bool_decide_true (_ ∧ _)) by done.
        apply bool_decide_eq_false. rewrite members_leave. naive_solver.
      * rewrite (bool_decide_false (_ ∧ _)) by done.
        apply bool_decide_ext. rewrite members_leave. split; [by intros [? _]|].
        intros H. split; [done|]. intros [Hr ->]. apply string_app_inj_l in Hr.
        naive_solver.
    + destruct (decide (s = socket)) as [->|Hs].
      * rewrite (bool_decide_true (socket = socket)) by done.
        apply bool_decide_eq_false. rewrite members_disconnect. naive_solver.
      * rewrite (bool_decide_false (s = socket)) by done.
        apply bool_decide_ext. rewrite members_disconnect. naive_solver.
Qed.

(** X15: after any sequence of subscribe, unsubscribe and disconnect events,
    a socket is in the room of a job exactly when its last event about that
    job (a disconnect counts for every job) was a subscribe; what other
    sockets do, and what the socket does about other jobs, has no bearing. *)
Theorem subscription_follows_last_event
    (evs : list Server.ClientEvent) (io : WebSocket.Io) (socket jobId : string) :
  socket ∈ WebSocket.members (foldl Server.onClientEvent io evs) ("job-" +:+ jobId)
  ↔ Server.subscribedAfter evs socket jobId
      (bool_decide (socket ∈ WebSocket.members io ("job-" +:+ jobId))) = true.
Proof.
  revert io. induction evs as [|e evs IH]; intros io; simpl.
  - by rewrite bool_decide_eq_true.
  - rewrite IH. f_equiv. f_equal.
    destruct e as [s j|s j|s]; simpl.
    + destruct (decide (s = socket ∧ j = jobId)) as [[-> ->]|Hsj].
      * rewrite (bool_decide_true (_ ∧ _)) by done.
        apply bool_decide_eq_true, members_join. by left.
      * rewrite (bool_decide_false (_ ∧ _)) by done.
        apply bool_decide_ext. rewrite members_join. split; [|by right].
        intros [[Hr ->]|?]; [|done]. apply string_app_inj_l in Hr. naive_solver.
    + destruct (decide (s = socket ∧ j = jobId)) as [[-> ->]|Hsj].
      * rewrite (bool_decide_true (_ ∧ _)) by done.
        apply bool_decide_eq_false. rewrite members_leave. naive_solver.
      * rewrite (bool_decide_false (_ ∧ _)) by done.
        apply bool_decide_ext. rewrite members_leave. split; [by intros [? _]|].
        intros H. split; [done|]. intros [Hr ->]. apply string_app_inj_l in Hr.
        naive_solver.
    + destruct (decide (s = socket)) as [->|Hs].
      * rewrite (bool_decide_true (socket = socket)) by done.
        apply bool_decide_eq_false. rewrite members_disconnect. naive_solver.
      * rewrite (bool_decide_false (s = socket)) by done.
        apply bool_decide_ext. rewrite members_disconnect. naive_solver.
Qed.

Lemma received_once (socket : string) (mk : string → WebSocket.Emission)
    (l : list string) :
  (∀ s, WebSocket.to (mk s) = s) → NoDup l →
  Server.received socket (mk <$> l) = if bool_decide (socket ∈ l) then 1 else 0.
Proof.
  intros Hto Hnd. unfold Server.received.
  induction Hnd as [|x l Hx Hnd IH]; [done|]. rewrite fmap_cons.
  destruct (decide (x = socket)) as [->|Hne].
  - rewrite filter_cons_True by apply Hto. cbn [length]. rewrite IH.
    rewrite (bool_decide_false (socket ∈ l)) by done.
    by rewrite bool_decide_true by apply list_elem_of_here.
  - rewrite filter_cons_False by (by rewrite Hto). rewrite IH.
    rewrite (bool_decide_ext (socket ∈ x :: l) (socket ∈ l)); [done|].
    rewrite elem_of_cons. naive_solver.
Qed.

Lemma job_update_delivery_aux (io : WebSocket.Io) (now : string) (m : JobUpdate.t) :
  (∀ socket,
     Server.received socket (Server.onRedisMessage (Some io) now "job-updates" (Some m))
     = if bool_decide (socket ∈ WebSocket.members io ("job-" +:+ JobUpdate.jobId m))
       then 1 else 0)
  ∧ (∀ e, e ∈ Server.onRedisMessage (Some io) now "job-updates" (Some m) →
          WebSocket.event e = "job-update"
          ∧ WebSocket.payload e
            = WebSocket.mkPayload (JobUpdate.jobId m) (JobUpdate.contentId m)
                (JobUpdate.status m) (JobUpdate.generatedContent m)
                (JobUpdate.error m) now).
Proof.
  unfold Server.onRedisMessage, WebSocket.emitJobUpdate.
  rewrite bool_decide_true by done. split.
  - intros socket. rewrite received_once; [|done|apply NoDup_elements].
    by rewrite (bool_decide_ext _ _ (elem_of_elements _ socket)).
  - intros e He. apply list_elem_of_fmap in He as (s & -> & _). done.
Qed.

(** X16: a message on ['job-updates'] is emitted as one ['job-update'] to
    each socket in the room of its job id and to no other socket, with the
    fields of the message and the time stamp; a message on another channel,
    a message that does not parse, and any message before
    [initializeWebSocket] cause no emission. *)
Theorem job_update_delivery (io : WebSocket.Io) (now : string) (m : JobUpdate.t) :
  (∀ socket,
     Server.received socket (Server.onRedisMessage (Some io) now "job-updates" (Some m))
     = if bool_decide (socket ∈ WebSocket.members io ("job-" +:+ JobUpdate.jobId m))
       then 1 else 0)
  ∧ (∀ e, e ∈ Server.onRedisMessage (Some io) now "job-updates" (Some m) →
          WebSocket.event e = "job-update"
          ∧ WebSocket.payload e
            = WebSocket.mkPayload (JobUpdate.jobId m) (JobUpdate.contentId m)
                (JobUpdate.status m) (JobUpdate.generatedContent m)
                (JobUpdate.error m) now)
  ∧ (∀ channel, channel ≠ "job-updates" →
                Server.onRedisMessage (Some io) now channel (Some m) = [])
  ∧ (∀ channel, Server.onRedisMessage (Some io) now channel None = [])
  ∧ (∀ channel, Server.onRedisMessage None now channel (Some m) = []).
Proof.
  destruct (job_update_delivery_aux io now m) as [H1 H2].
  split; [done|]. split; [done|].
  unfold Server.onRedisMessage, WebSocket.emitJobUpdate. split; [|split].
  - intros channel Hc. by rewrite bool_decide_false.
  - intros channel. by case_bool_decide.
  - intros channel. by case_bool_decide.
Qed.

(** X17: from the client events to the worker: for every run of the
    processor on a job, a socket whose last event about the job was a
    subscribe receives exactly one ['job-update'] for the run, and every
    other socket receives none. *)
Theorem one_update_per_run_to_subscribers
    apiKey api (job : Bull.Job) (w : World) (tr : list Event)
    (evs : list Server.ClientEvent) (now socket : string) :
  events (Worker.processor apiKey api job w).2 = events w ++ tr →
  Server.received socket
    (Server.relay (Some (foldl Server.onClientEvent (WebSocket.mkIo ∅) evs)) now tr)
  = if Server.subscribedAfter evs socket (Bull.id job) false then 1 else 0.
Proof.
  intros Htr. destruct (processor_events apiKey api job w) as (tr' & Htr' & Hord).
  rewrite Htr' in Htr. apply app_inv_head in Htr as <-.
  set (io := foldl Server.onClientEvent (WebSocket.mkIo ∅) evs).
  assert (Hone : ∀ m, JobUpdate.jobId m = Bull.id job →
            Server.received socket (Server.onRedisMessage (Some io) now "job-updates" (Some m))
            = if Server.subscribedAfter evs socket (Bull.id job) false then 1 else 0).
  { intros m Hm. rewrite (proj1 (job_update_delivery_aux io now m)), Hm.
    pose proof (subscription_aux evs (WebSocket.mkIo ∅) socket (Bull.id job))
      as Hsub.
    rewrite (bool_decide_false (socket ∈ WebSocket.members (WebSocket.mkIo ∅) _)) in Hsub
      by (unfold WebSocket.members; simpl; rewrite lookup_empty; apply not_elem_of_empty).
    fold io in Hsub.
    destruct (Server.subscribedAfter evs socket (Bull.id job) false).
    - by rewrite bool_decide_true by (by apply Hsub).
    - rewrite bool_decide_false; [done|]. intros H. by apply Hsub in H. }
  destruct Hord as [(u & m & -> & _ & Hj & _) | (u & m & -> & Hj & _)];
    unfold Server.relay; simpl; rewrite ?app_nil_r; by apply Hone.
Qed.

Lemma one_update_per_run_witness :
  Server.received "s1"
    (Server.relay
       (Some (foldl Server.onClientEvent (WebSocket.mkIo ∅)
                [Server.SubscribeJob "s2" sampleJobId;
                 Server.SubscribeJob "s1" sampleJobId;
                 Server.UnsubscribeJob "s2" sampleJobId]))
       "2024-01-01T00:01:00.000Z"
       [EvUpdate (ByJobId sampleJobId) (statusOnly PROCESSING);
        EvUpdate (ByJobId sampleJobId)
          (mkSet None (Some "AI TEXT") (Some "AI TEXT") None (Some COMPLETED));
        EvPublish "job-updates"
          (JobUpdate.mk sampleJobId sampleId COMPLETED (Some "AI TEXT") None)])
  = 1.
Proof.
  exact (one_update_per_run_to_subscribers (Some "key") (Sample.api "AI TEXT") Sample.job
           Sample.afterCreate _ _ _ "s1" eq_refl).
Defined.

(** ** Authentication *)

Lemma substring_full (s : string) : String.substring 0 (String.length s) s = s.
Proof. induction s as [|c s IH]; simpl; [done|]. by rewrite IH. Qed.

Lemma prefix_split (p h : string) :
  String.prefix p h = true →
  h = p +:+ String.substring (String.length p) (String.length h - String.length p) h.
Proof.
  revert h. induction p as [|a p IH]; intros h H.
  - simpl. by rewrite Nat.sub_0_r, substring_full.
  - destruct h as [|a' h]; [discriminate H|]. cbn [String.prefix] in H.
    destruct (ascii_dec a a') as [<-|]; [|discriminate H].
    simpl.
    transitivity (String a (p +:+ String.substring (String.length p)
                                    (String.length h - String.length p) h));
      [by rewrite <- (IH h H)|reflexivity].
Qed.

Lemma prefix_app (p t : string) :
  String.prefix p (p +:+ t) = true
  ∧ String.substring (String.length p) (String.length (p +:+ t) - String.length p) (p +:+ t)
    = t.
Proof.
  induction p as [|a p [IH1 IH2]]; simpl.
  - split; [by destruct t|]. by rewrite Nat.sub_0_r, substring_full.
  - split; [|done]. by destruct (ascii_dec a a).
Qed.

Lemma bearer_split (h : string) :
  String.prefix "Bearer " h = true →
  h = "Bearer " +:+ String.substring 7 (String.length h - 7) h.
Proof. apply (prefix_split "Bearer "). Qed.

Lemma bearer_token (token : string) :
  String.prefix "Bearer " ("Bearer " +:+ token) = true
  ∧ String.substring 7 (String.length ("Bearer " +:+ token) - 7) ("Bearer " +:+ token)
    = token.
Proof. apply (prefix_app "Bearer "). Qed.

Lemma authenticate_passes_aux (env : Auth.Env) (authorization : option string) :
  (∀ user,
     Auth.authenticate env authorization = Auth.Next user
     ↔ ∃ token secret decoded,
         authorization = Some ("Bearer " +:+ token)
         ∧ Auth.JWT_SECRET env = Some secret ∧ secret ≠ EmptyString
         ∧ Auth.jwtVerify env token secret = Some decoded
         ∧ Auth.select <$> Auth.findById (Auth.userId decoded) (Auth.users env)
           = Some user)
  ∧ (∀ status message,
       Auth.authenticate env authorization = Auth.Respond status message → status = 401).
Proof.
  unfold Auth.authenticate, Auth.verifyAccessToken.
  destruct authorization as [h|].
  2: { split; [|by intros ? ? [= <- _]]. intros user. split; [done|].
       by intros (? & ? & ? & ? & _). }
  destruct (bool_decide (h = EmptyString) || negb (String.prefix "Bearer " h)) eqn:Hh.
  { split; [|by intros ? ? [= <- _]]. intros user. split; [done|].
    intros (token & ? & ? & [= ->] & _). destruct (bearer_token token) as [Hp _].
    rewrite Hp in Hh. cbn [negb] in Hh. rewrite orb_false_r in Hh.
    apply bool_decide_eq_true in Hh. discriminate Hh. }
  apply orb_false_elim in Hh as [_ Hp]. apply negb_false_iff in Hp.
  pose proof (bearer_split h Hp) as Hsplit.
  set (token := String.substring 7 (String.length h - 7) h) in *.
  destruct (Auth.JWT_SECRET env) as [secret|] eqn:Hs; simpl.
  2: { split; [|by intros ? ? [= <- _]]. intros user. split; [done|].
       by intros (? & ? & ? & _ & ? & _). }
  case_bool_decide as Hempty; simpl.
  { split; [|by intros ? ? [= <- _]]. intros user. split; [done|].
    intros (? & ? & ? & _ & [= <-] & ? & _). done. }
  assert (Htok : ∀ token', Some h = Some ("Bearer " +:+ token') → token' = token).
  { intros token' [= H']. rewrite Hsplit in H'. by apply string_app_inj_l in H'. }
  destruct (Auth.jwtVerify env token secret) as [decoded|] eqn:Hv; simpl.
  2: { split; [|by intros ? ? [= <- _]]. intros user. split; [done|].
       intros (token' & secret' & decoded' & Ht & [= <-] & _ & Hv' & _).
       apply Htok in Ht as ->. congruence. }
  destruct (Auth.findById (Auth.userId decoded) (Auth.users env)) as [u|] eqn:Hu.
  - split; [|done]. intros user. split.
    + intros [= <-]. exists token, secret, decoded. by rewrite <- Hsplit, Hu.
    + intros (token' & secret' & decoded' & Ht & [= <-] & _ & Hv' & Hu').
      apply Htok in Ht as ->. rewrite Hv in Hv'. injection Hv' as <-.
      rewrite Hu in Hu'. simpl in Hu'. congruence.
  - split; [|by intros ? ? [= <- _]]. intros user. split; [done|].
    intros (token' & secret' & decoded' & Ht & [= <-] & _ & Hv' & Hu').
    apply Htok in Ht as ->. rewrite Hv in Hv'. injection Hv' as <-.
    by rewrite Hu in Hu'.
Qed.

(** X18: the middleware calls [next], with a user attached, exactly when the
    header is "Bearer " followed by a token, [JWT_SECRET] is set, the token
    verifies under it and its [userId] is the id of a stored user, who is
    the user attached; in every other case it answers 401. *)
Theorem authenticate_passes_iff (env : Auth.Env) (authorization : option string) :
  (∀ user,
     Auth.authenticate env authorization = Auth.Next user
     ↔ ∃ token secret decoded,
         authorization = Some ("Bearer " +:+ token)
         ∧ Auth.JWT_SECRET env = Some secret ∧ secret ≠ EmptyString
         ∧ Auth.jwtVerify env token secret = Some decoded
         ∧ Auth.select <$> Auth.findById (Auth.userId decoded) (Auth.users env)
           = Some user)
  ∧ (∀ status message,
       Auth.authenticate env authorization = Auth.Respond status message → status = 401).
Proof.
  unfold Auth.authenticate, Auth.verifyAccessToken.
  destruct authorization as [h|].
  2: { split; [|by intros ? ? [= <- _]]. intros user. split; [done|].
       by intros (? & ? & ? & ? & _). }
  destruct (bool_decide (h = EmptyString) || negb (String.prefix "Bearer " h)) eqn:Hh.
  { split; [|by intros ? ? [= <- _]]. intros user. split; [done|].
    intros (token & ? & ? & [= ->] & _). destruct (bearer_token token) as [Hp _].
    rewrite Hp in Hh. cbn [negb] in Hh. rewrite orb_false_r in Hh.
    apply bool_decide_eq_true in Hh. discriminate Hh. }
  apply orb_false_elim in Hh as [_ Hp]. apply negb_false_iff in Hp.
  pose proof (bearer_split h Hp) as Hsplit.
  set (token := String.substring 7 (String.length h - 7) h) in *.
  destruct (Auth.JWT_SECRET env) as [secret|] eqn:Hs; simpl.
  2: { split; [|by intros ? ? [= <- _]]. intros user. split; [done|].
       by intros (? & ? & ? & _ & ? & _). }
  case_bool_decide as Hempty; simpl.
  { split; [|by intros ? ? [= <- _]]. intros user. split; [done|].
    intros (? & ? & ? & _ & [= <-] & ? & _). done. }
  assert (Htok : ∀ token', Some h = Some ("Bearer " +:+ token') → token' = token).
  { intros token' [= H']. rewrite Hsplit in H'. by apply string_app_inj_l in H'. }
  destruct (Auth.jwtVerify env token secret) as [decoded|] eqn:Hv; simpl.
  2: { split; [|by intros ? ? [= <- _]]. intros user. split; [done|].
       intros (token' & secret' & decoded' & Ht & [= <-] & _ & Hv' & _).
       apply Htok in Ht as ->. congruence. }
  destruct (Auth.findById (Auth.userId decoded) (Auth.users env)) as [u|] eqn:Hu.
  - split; [|done]. intros user. split.
    + intros [= <-]. exists token, secret, decoded. by rewrite <- Hsplit, Hu.
    + intros (token' & secret' & decoded' & Ht & [= <-] & _ & Hv' & Hu').
      apply Htok in Ht as ->. rewrite Hv in Hv'. injection Hv' as <-.
      rewrite Hu in Hu'. simpl in Hu'. congruence.
  - split; [|by intros ? ? [= <- _]]. intros user. split; [done|].
    intros (token' & secret' & decoded' & Ht & [= <-] & _ & Hv' & Hu').
    apply Htok in Ht as ->. rewrite Hv in Hv'. injection Hv' as <-.
    by rewrite Hu in Hu'.
Qed.

(** X19: through the router, a request changes the world only when it
    carries a token that verifies for a stored user; a request that the
    middleware answers is answered 401 without running any handler, so no
    handler ever runs without a user. *)
Theorem no_write_without_valid_token
    (env : Auth.Env) (authorization : option string) (r : ContentRoutes.Request) (w : World) :
  ((∀ user, Auth.authenticate env authorization ≠ Auth.Next user) →
   ∃ message,
     ContentRoutes.router env authorization r w
       = (Ok (ContentController.mkRes 401 (ContentController.Failure message)), w))
  ∧ ((ContentRoutes.router env authorization r w).2 ≠ w →
     ∃ token secret decoded user,
       authorization = Some ("Bearer " +:+ token)
       ∧ Auth.JWT_SECRET env = Some secret
       ∧ Auth.jwtVerify env token secret = Some decoded
       ∧ Auth.select <$> Auth.findById (Auth.userId decoded) (Auth.users env)
         = Some user
       ∧ ContentRoutes.router env authorization r w
           = ContentRoutes.handler (Some (Auth.id user)) r w).
Proof.
  destruct (authenticate_passes_aux env authorization) as [Hiff H401].
  unfold ContentRoutes.router.
  destruct (Auth.authenticate env authorization) as [status message|user] eqn:Ha.
  - rewrite (H401 _ _ eq_refl). split; [eauto|]. by intros H.
  - split; [intros H; by destruct (H user)|]. intros _.
    destruct (proj1 (Hiff user) eq_refl) as (token & secret & decoded & ? & ? & _ & ? & ?).
    exists token, secret, decoded, user. done.
Qed.

Lemma no_write_without_valid_token_witness :
  ∃ message,
    ContentRoutes.router SampleAuth.unconfigured (Some "Bearer refresh-1")
      (ContentRoutes.DeleteContent sampleId) Sample.edited
    = (Ok (ContentController.mkRes 401 (ContentController.Failure message)), Sample.edited).
Proof.
  apply (proj1 (no_write_without_valid_token SampleAuth.unconfigured
                  (Some "Bearer refresh-1") (ContentRoutes.DeleteContent sampleId)
                  Sample.edited)).
  intros user H. vm_compute in H. discriminate H.
Defined.

(** ** Refresh tokens *)

Lemma findById_id (id : string) (us : list Auth.UserDoc) (u : Auth.UserDoc) :
  Auth.findById id us = Some u → Auth._id u = id.
Proof.
  induction us as [|u0 us IH]; simpl; [done|].
  case_bool_decide as H0; [by intros [= <-]|done].
Qed.

Lemma findById_saveRefreshToken (id id' : string) (t : option string)
    (us : list Auth.UserDoc) :
  Auth.findById id' (Auth.saveRefreshToken id t us)
  = if bool_decide (id' = id)
    then (λ u, Auth.mkUserDoc (Auth._id u) (Auth.userName u) (Auth.userEmail u)
                 (Auth.password u) t) <$> Auth.findById id us
    else Auth.findById id' us.
Proof.
  induction us as [|u0 us IH]; simpl; [by case_bool_decide|].
  destruct (decide (Auth._id u0 = id)) as [H0|H0].
  - rewrite (bool_decide_true (Auth._id u0 = id)) by done. simpl.
    destruct (decide (id' = id)) as [->|Hne].
    + by rewrite !bool_decide_true.
    + rewrite (bool_decide_false (id' = id)) by done.
      by rewrite !(bool_decide_false (Auth._id u0 = id')) by congruence.
  - rewrite (bool_decide_false (Auth._id u0 = id)) by done. simpl. rewrite IH.
    destruct (decide (id' = id)) as [->|Hne].
    + by rewrite (bool_decide_true (id = id)), !(bool_decide_false (Auth._id u0 = id)).
    + rewrite (bool_decide_false (id' = id)) by done. done.
Qed.

(** X20: after a logout, no refresh token of that user is accepted any
    more: whatever token decodes to the user, [refreshAccessToken] throws
    401 "Invalid refresh token" and issues nothing. *)
Theorem logout_invalidates_refresh_tokens
    (env : Auth.Env) (uid : string) (us us' : list Auth.UserDoc)
    (token : string) (decoded : Auth.TokenPayload) :
  Auth.logoutUser uid us = (Ok (), us') →
  Auth.verifyRefreshToken env token = Ok decoded →
  Auth.userId decoded = uid →
  Auth.refreshAccessToken env token us'
    = (Throw (AppError "Invalid refresh token" 401), us').
Proof.
  unfold Auth.logoutUser, Auth.refreshAccessToken.
  destruct (Auth.findById uid us) as [u|] eqn:Hu; [|done].
  intros [= <-] -> ->. rewrite (findById_id _ _ _ Hu).
  rewrite findById_saveRefreshToken, bool_decide_true by done. by rewrite Hu.
Qed.

Lemma logout_witness :
  Auth.refreshAccessToken SampleAuth.env "refresh-1"
    (Auth.logoutUser "u1" SampleAuth.accounts).2
  = (Throw (AppError "Invalid refresh token" 401),
     (Auth.logoutUser "u1" SampleAuth.accounts).2).
Proof.
  apply (logout_invalidates_refresh_tokens SampleAuth.env "u1" SampleAuth.accounts _
           "refresh-1" (Auth.mkPayload "u1" "ann@example.com"));
    reflexivity.
Defined.

(** X21: a refresh succeeds only for the token that is stored for its user,
    and it rotates it: the new refresh token replaces the stored one, the
    other users are left as they were, and when the new token differs from
    the old one a replay of the old one is refused with 401. *)
Theorem refresh_rotates_the_stored_token
    (env : Auth.Env) (token a t' : string) (us us' : list Auth.UserDoc) :
  Auth.refreshAccessToken env token us = (Ok (a, t'), us') →
  ∃ decoded user,
    Auth.verifyRefreshToken env token = Ok decoded
    ∧ Auth.findById (Auth.userId decoded) us = Some user
    ∧ Auth.refreshToken user = Some token
    ∧ Auth.generateAccessToken env user = Ok a
    ∧ Auth.generateRefreshToken env user = Ok t'
    ∧ Auth.refreshToken <$> Auth.findById (Auth.userId decoded) us' = Some (Some t')
    ∧ (∀ id', id' ≠ Auth.userId decoded → Auth.findById id' us' = Auth.findById id' us)
    ∧ (t' ≠ token →
       Auth.refreshAccessToken env token us'
         = (Throw (AppError "Invalid refresh token" 401), us')).
Proof.
  unfold Auth.refreshAccessToken.
  destruct (Auth.verifyRefreshToken env token) as [decoded|e] eqn:Hv; [|done].
  destruct (Auth.findById (Auth.userId decoded) us) as [user|] eqn:Hu; [|done].
  destruct (falsy (Auth.refreshToken user)
            || negb (bool_decide (Auth.refreshToken user = Some token))) eqn:Hstored;
    [done|].
  apply orb_false_elim in Hstored as [_ Hst]. apply negb_false_iff in Hst.
  apply bool_decide_eq_true in Hst.
  destruct (Auth.generateAccessToken env user) as [na|e] eqn:Ha; [|done].
  destruct (Auth.generateRefreshToken env user) as [nr|e] eqn:Hr; [|done].
  intros [= <- <- <-]. exists decoded, user.
  pose proof (findById_id _ _ _ Hu) as Hid. rewrite Hid.
  split; [done|]. split; [done|]. split; [done|]. split; [done|]. split; [done|].
  split; [|split].
  - rewrite findById_saveRefreshToken, bool_decide_true by done. by rewrite Hu.
  - intros id' Hne. by rewrite findById_saveRefreshToken, bool_decide_false.
  - intros Hne. rewrite findById_saveRefreshToken, bool_decide_true by done.
    rewrite Hu. simpl.
    rewrite (bool_decide_false (Some nr = Some token)) by congruence.
    by rewrite orb_true_r.
Qed.

Lemma refresh_witness :
  Auth.refreshAccessToken SampleAuth.env "refresh-1"
    (Auth.refreshAccessToken SampleAuth.env "refresh-1" SampleAuth.accounts).2
  = (Throw (AppError "Invalid refresh token" 401),
     (Auth.refreshAccessToken SampleAuth.env "refresh-1" SampleAuth.accounts).2).
Proof.
  destruct (refresh_rotates_the_stored_token SampleAuth.env "refresh-1"
              "signed-u1-15m" "signed-u1-7d" SampleAuth.accounts _ eq_refl)
    as (decoded & user & _ & _ & _ & _ & _ & _ & _ & Hreplay).
  apply Hreplay. discriminate.
Defined.

(** ** A retry that succeeds *)

Lemma processor_success_docs apiKey api (job : Bull.Job) (w : World) (g : string) :
  generated apiKey api (Bull.contentType (Bull.data job)) (Bull.topic (Bull.data job))
    = Ok g →
  (findOne (ByJobId (Bull.id job)) (docs w) = None →
   docs (Worker.processor apiKey api job w).2 = docs w)
  ∧ (∀ l1 c l2,
       docs w = l1 ++ c :: l2 →
       findOne (ByJobId (Bull.id job)) l1 = None →
       matches (ByJobId (Bull.id job)) c = true →
       docs (Worker.processor apiKey api job w).2 = l1 ++ completedOf c g :: l2).
Proof.
  intros Hg.
  split; [intros Hc|intros l1 c l2 Hd Hl1 Hm];
    unfold Worker.processor;
    unfold tryCatch at 1; unfold mbind at 1, M_bind at 1;
    rewrite updateContentJobStatus_run; cbv zeta; rewrite updateData_status_only;
    unfold mbind at 1, M_bind at 1; rewrite generateContent_run, Hg;
    unfold mbind at 1, M_bind at 1; rewrite updateContentJobStatus_run; cbv zeta;
    cbn [docs jobs events].
  - rewrite (findOneAndUpdate_no_match _ (statusOnly PROCESSING) _ Hc). cbn [snd].
    rewrite Hc. rewrite (findOneAndUpdate_no_match _ _ _ Hc). cbn [fst snd].
    unfold throw at 1. cbv beta iota. unfold mbind at 1, M_bind at 1.
    rewrite updateContentJobStatus_run. cbv zeta. rewrite updateData_status_only.
    cbn [docs jobs events].
    rewrite (findOneAndUpdate_no_match _ (statusOnly FAILED) _ Hc). by run.
  - rewrite Hd.
    rewrite (findOneAndUpdate_at_split _ (statusOnly PROCESSING) _ _ _ Hl1 Hm). cbn [snd].
    assert (Hm1 : matches (ByJobId (Bull.id job)) (applySet (statusOnly PROCESSING) c) = true)
      by (by apply statusOnly_keeps_match).
    rewrite (findOne_at_split _ _ _ _ Hl1 Hm1).
    rewrite (findOneAndUpdate_at_split _ _ _ _ _ Hl1 Hm1). cbn [fst snd]. run.
    do 2 f_equal. unfold completedOf. destruct c as [i us t ct p gc ctn jb js]. simpl.
    by destruct (falsy ctn).
Qed.

(** X22: a failed attempt leaves nothing behind that a later successful
    attempt does not overwrite: the collection after a failure followed by a
    success is the collection after the success alone. *)
Theorem retry_after_failure_recovers
    k1 api1 k2 api2 (job : Bull.Job) (w : World) (e : exn) (g : string) :
  generated k1 api1 (Bull.contentType (Bull.data job)) (Bull.topic (Bull.data job))
    = Throw e →
  generated k2 api2 (Bull.contentType (Bull.data job)) (Bull.topic (Bull.data job))
    = Ok g →
  docs (Worker.processor k2 api2 job (Worker.processor k1 api1 job w).2).2
  = docs (Worker.processor k2 api2 job w).2.
Proof.
  intros Hfail Hok.
  rewrite (processor_collaborator_failure _ _ _ _ _ Hfail).
  set (j := Bull.id job). cbn [snd].
  match goal with |- docs (Worker.processor _ _ _ ?x).2 = _ => set (w1 := x) end.
  destruct (processor_success_docs k2 api2 job w g Hok) as [Hnone Hsome].
  destruct (processor_success_docs k2 api2 job w1 g Hok) as [Hnone1 Hsome1].
  destruct (findOne (ByJobId j) (docs w)) as [c|] eqn:Hc.
  - destruct (findOne_split _ _ _ Hc) as (l1 & l2 & Hd & Hl1 & Hm).
    rewrite (Hsome _ _ _ Hd Hl1 Hm).
    assert (Hm1 : matches (ByJobId j) (applySet (statusOnly PROCESSING) c) = true)
      by (by apply statusOnly_keeps_match).
    assert (Hm2 : matches (ByJobId j)
                    (applySet (statusOnly FAILED) (applySet (statusOnly PROCESSING) c)) = true)
      by (by apply statusOnly_keeps_match).
    rewrite (Hsome1 l1 (applySet (statusOnly FAILED) (applySet (statusOnly PROCESSING) c)) l2);
      [by destruct c|..|done|done].
    subst w1. cbn [docs]. rewrite Hd.
    rewrite (findOneAndUpdate_at_split _ (statusOnly PROCESSING) _ _ _ Hl1 Hm). cbn [snd].
    by rewrite (findOneAndUpdate_at_split _ (statusOnly FAILED) _ _ _ Hl1 Hm1).
  - assert (Hw1 : docs w1 = docs w).
    { subst w1. cbn [docs].
      rewrite (findOneAndUpdate_no_match _ (statusOnly PROCESSING) _ Hc). cbn [snd].
      by rewrite (findOneAndUpdate_no_match _ (statusOnly FAILED) _ Hc). }
    rewrite Hnone by done. rewrite Hnone1 by (by rewrite Hw1). done.
Qed.

Lemma retry_witness :
  docs (Worker.processor (Some "key") (Sample.api "AI TEXT") Sample.job
          (Worker.processor None (Sample.api "AI TEXT") Sample.job Sample.afterCreate).2).2
  = docs (Worker.processor (Some "key") (Sample.api "AI TEXT") Sample.job
            Sample.afterCreate).2.
Proof.
  exact (retry_after_failure_recovers None (Sample.api "AI TEXT") (Some "key")
           (Sample.api "AI TEXT") Sample.job Sample.afterCreate
           (AppError "GOOGLE_GENAI_API_KEY is not configured" 500) "AI TEXT"
           eq_refl eq_refl).
Defined.

(** ** Rollback, again *)

(** X23: in every world that the system can reach, a second rollback right
    after a rollback returns the same record and changes nothing. *)
Theorem rollback_idempotent (w : World) (id uid : string) :
  System.reachable w →
  let once := ContentService.rollbackContent id uid w in
  let twice := ContentService.rollbackContent id uid once.2 in
  twice.1 = once.1 ∧ docs twice.2 = docs once.2.
Proof.
  intros Hreach. destruct (reachable_consistent w Hreach) as [[Hnd _] _].
  cbv zeta. rewrite (rollbackContent_run id uid w).
  destruct (castObjectId id) as [o|e] eqn:Hcast.
  2: { cbn [fst snd]. by rewrite rollbackContent_run, Hcast. }
  destruct (findOne (ByIdAndUser o uid) (docs w)) as [c|] eqn:Hc.
  2: { cbn [fst snd]. by rewrite rollbackContent_run, Hcast, Hc. }
  destruct (falsy (generatedContent c)) eqn:Hg.
  { cbn [fst snd]. by rewrite rollbackContent_run, Hcast, Hc, Hg. }
  cbv zeta. set (m := mkSet None (generatedContent c) None None None).
  destruct (findOne_matches _ _ _ Hc) as [Hmatch Hin].
  pose proof (unique_by_id _ _ Hnd Hin) as Hby.
  destruct (findOne_split _ _ _ Hby) as (l1 & l2 & Hd & Hl1 & Hm).
  rewrite Hd, (findOneAndUpdate_at_split _ m _ _ _ Hl1 Hm). cbn [fst snd].
  rewrite rollbackContent_run, Hcast. cbn [docs jobs events].
  assert (Hfound : findOne (ByIdAndUser o uid) (l1 ++ applySet m c :: l2)
                   = Some (applySet m c)).
  { destruct (save_of_owned o uid m (docs w) c Hnd Hc) as [_ Hs].
    by rewrite Hd, (findOneAndUpdate_at_split _ m _ _ _ Hl1 Hm) in Hs. }
  rewrite Hfound.
  change (generatedContent (applySet m c)) with (generatedContent c).
  change (_id (applySet m c)) with (_id c).
  rewrite Hg. cbv zeta. fold m.
  assert (Hsame : applySet m (applySet m c) = applySet m c)
    by (subst m; destruct c as [i us t ct p [gc|] ctn jb js]; done).
  rewrite (findOneAndUpdate_at_split _ m l1 l2 (applySet m c) Hl1) by done.
  cbn [fst snd]. by rewrite Hsame.
Qed.

Lemma rollback_idempotent_witness :
  (ContentService.rollbackContent sampleId "u1"
     (ContentService.rollbackContent sampleId "u1" Sample.edited).2).1
  = (ContentService.rollbackContent sampleId "u1" Sample.edited).1.
Proof.
  exact (proj1 (rollback_idempotent Sample.edited sampleId "u1"
                  (ex_intro _ Sample.history eq_refl))).
Defined.

(** ** Logging in *)

(** X24: a login with an email that no user has and a login with a wrong
    password fail alike: the same 401 "Invalid email or password", and the
    users are left as they were. *)
Theorem login_failures_alike (env : Auth.Env) (email password : string)
    (us : list Auth.UserDoc) :
  (Auth.findByEmail (Auth.castEmail env email) us = None
   ∨ ∃ u, Auth.findByEmail (Auth.castEmail env email) us = Some u
          ∧ Auth.bcryptCompare env password (Auth.password u) = false) →
  Auth.loginUser env email password us
    = (Throw (AppError "Invalid email or password" 401), us).
Proof.
  unfold Auth.loginUser. intros [-> | (u & -> & ->)]; done.
Qed.

Lemma login_failures_witness :
  Auth.loginUser SampleAuth.env "nobody@example.com" "pw" SampleAuth.accounts
  = Auth.loginUser SampleAuth.env "ann@example.com" "guess" SampleAuth.accounts.
Proof.
  rewrite (login_failures_alike SampleAuth.env "nobody@example.com" "pw"
             SampleAuth.accounts (or_introl eq_refl)).
  symmetry. apply login_failures_alike. right. eexists. split; reflexivity.
Defined.

Lemma findByEmail_in (e : string) (us : list Auth.UserDoc) (u : Auth.UserDoc) :
  Auth.findByEmail e us = Some u → ∃ u0, Auth.findById (Auth._id u) us = Some u0.
Proof.
  induction us as [|x us IH]; simpl; [done|].
  case_bool_decide as He.
  - intros [= <-]. rewrite bool_decide_true by done. eauto.
  - intros H. destruct (IH H) as [u0 Hu0]. case_bool_decide; eauto.
Qed.

(** X25: a login that succeeds is for a user with that email whose stored
    hash the password matches; it stores the refresh token that it returns,
    and that token, when [jwt.verify] decodes it to the id of the user and
    it is not empty, is accepted by the next [refreshAccessToken]. *)
Theorem login_then_refresh (env : Auth.Env) (email password : string)
    (us us' : list Auth.UserDoc) (s : Auth.Session) :
  Auth.loginUser env email password us = (Ok s, us') →
  (∃ u, Auth.findByEmail (Auth.castEmail env email) us = Some u
        ∧ Auth.bcryptCompare env password (Auth.password u) = true
        ∧ Auth.user s = Auth.select u
        ∧ Auth.refreshToken <$> Auth.findById (Auth._id u) us'
          = Some (Some (Auth.newRefreshToken s)))
  ∧ (∀ decoded,
       Auth.verifyRefreshToken env (Auth.newRefreshToken s) = Ok decoded →
       Auth.userId decoded = Auth.id (Auth.user s) →
       Auth.newRefreshToken s ≠ EmptyString →
       ∃ a r us'',
         Auth.refreshAccessToken env (Auth.newRefreshToken s) us' = (Ok (a, r), us'')).
Proof.
  unfold Auth.loginUser.
  destruct (Auth.findByEmail (Auth.castEmail env email) us) as [u|] eqn:Hu; [|done].
  destruct (Auth.bcryptCompare env password (Auth.password u)) eqn:Hpw; [|done].
  simpl. destruct (Auth.generateAccessToken env u) as [a|e] eqn:Ha; [|done].
  destruct (Auth.generateRefreshToken env u) as [r|e] eqn:Hr; [|done].
  intros [= <- <-]. simpl.
  destruct (findByEmail_in _ _ _ Hu) as [u0 Hu0].
  assert (Hstored : Auth.findById (Auth._id u) (Auth.saveRefreshToken (Auth._id u) (Some r) us)
                    = Some (Auth.mkUserDoc (Auth._id u0) (Auth.userName u0)
                              (Auth.userEmail u0) (Auth.password u0) (Some r))).
  { rewrite findById_saveRefreshToken, bool_decide_true by done. by rewrite Hu0. }
  split.
  - exists u. by rewrite Hstored.
  - intros decoded Hv Hid Hne. unfold Auth.refreshAccessToken.
    rewrite Hv, Hid, Hstored. simpl.
    rewrite (bool_decide_false (r = EmptyString)) by done.
    rewrite bool_decide_true by done. simpl.
    unfold Auth.generateAccessToken, Auth.generateRefreshToken in *. simpl.
    destruct (falsy (Auth.JWT_SECRET env)); [done|].
    destruct (falsy (Auth.orElse (Auth.JWT_REFRESH_SECRET env) (Auth.JWT_SECRET env)));
      [done|]. eauto.
Qed.

Lemma login_then_refresh_witness :
  ∃ a r us'',
    Auth.refreshAccessToken SampleAuth.env "signed-u1-7d"
      (Auth.loginUser SampleAuth.env "ann@example.com" "pw" SampleAuth.accounts).2
    = (Ok (a, r), us'').
Proof.
  destruct (login_then_refresh SampleAuth.env "ann@example.com" "pw" SampleAuth.accounts _
              (Auth.mkSession (Auth.mkUser "u1" "Ann" "ann@example.com")
                 "signed-u1-15m" "signed-u1-7d") eq_refl) as [_ H].
  apply (H (Auth.mkPayload "u1" "ann@example.com")); [reflexivity|reflexivity|discriminate].
Defined.
